(** * Menu controller (script-v4.js): desktop dropdowns, mobile panel, accordion

    A shallow embedding of the navigation-menu script.  The document is a
    list of element nodes addressed by index; the script's module-level
    [let] variables, the timer queue of the event loop and the focused
    element form the state; a handler is a function from states to results,
    where a result is either a normal completion or an uncaught [TypeError]
    carrying the state reached when it was thrown. *)

From Stdlib Require Import ZArith QArith Lia Ascii.
From stdpp Require Import base option list strings gmap.

Open Scope string_scope.
Open Scope Z_scope.

(** ** Numbers and strings of the host language *)

Module JS.

(** A number is NaN, an infinity or a finite value.  Finite values are exact
    rationals kept in lowest terms; binary rounding is not modelled. *)
Inductive num : Type :=
| NaN
| Inf (negative : bool)
| Num (q : Q).

Definition of_Z (z : Z) : num := Num (inject_Z z).

Definition mul (a b : num) : num :=
  match a, b with
  | NaN, _ | _, NaN => NaN
  | Inf n, Inf m => Inf (xorb n m)
  | Inf n, Num q | Num q, Inf n =>
      match Qnum q with
      | Z0 => NaN
      | Zpos _ => Inf n
      | Zneg _ => Inf (negb n)
      end
  | Num p, Num q => Num (Qred (p * q))
  end.

(** The white-space and line-terminator characters of the ASCII range,
    which [trim] and [parseFloat] strip. *)
Definition is_space (c : ascii) : bool :=
  match Ascii.nat_of_ascii c with
  | 9%nat | 10%nat | 11%nat | 12%nat | 13%nat | 32%nat => true
  | _ => false
  end.

Fixpoint trimStart (s : string) : string :=
  match s with
  | String c r => if is_space c then trimStart r else s
  | EmptyString => EmptyString
  end.

Fixpoint trimEnd (s : string) : string :=
  match s with
  | EmptyString => EmptyString
  | String c r =>
      match trimEnd r with
      | EmptyString => if is_space c then EmptyString else String c EmptyString
      | r' => String c r'
      end
  end.

Definition trim (s : string) : string := trimEnd (trimStart s).

Fixpoint startsWith (p s : string) : bool :=
  match p, s with
  | EmptyString, _ => true
  | String a p', String b s' => if Ascii.eqb a b then startsWith p' s' else false
  | String _ _, EmptyString => false
  end.

Fixpoint endsWith (s suffix : string) : bool :=
  if String.eqb s suffix then true
  else match s with
       | EmptyString => false
       | String _ r => endsWith r suffix
       end.

Definition digit (c : ascii) : option Z :=
  let n := Ascii.nat_of_ascii c in
  if (48 <=? n)%nat && (n <=? 57)%nat then Some (Z.of_nat n - 48) else None.

(** Longest run of decimal digits: its value, its length, what follows. *)
Fixpoint digits (acc : Z) (len : nat) (s : string) : Z * nat * string :=
  match s with
  | String c r =>
      match digit c with
      | Some d => digits (10 * acc + d) (S len) r
      | None => (acc, len, s)
      end
  | EmptyString => (acc, len, s)
  end.

Definition sign (s : string) : bool * string :=
  match s with
  | String "-"%char r => (true, r)
  | String "+"%char r => (false, r)
  | _ => (false, s)
  end.

(** An exponent part counts only when at least one digit follows the
    optional sign; otherwise the literal ends before the [e]. *)
Definition exponent (s : string) : Z :=
  match s with
  | String c r =>
      if Ascii.eqb c "e"%char || Ascii.eqb c "E"%char then
        let '(neg, r1) := sign r in
        let '(e, len, _) := digits 0 0 r1 in
        match len with
        | O => 0
        | S _ => if neg then - e else e
        end
      else 0
  | EmptyString => 0
  end.

Definition scale (m e : Z) : Q :=
  match e with
  | Zneg p => Qred (m # Pos.pow 10 p)
  | _ => inject_Z (m * 10 ^ e)
  end.

(** [parseFloat]: skip leading white space, then read the longest prefix
    that is a decimal literal; NaN when there is none. *)
Definition parseFloat (s : string) : num :=
  let '(neg, s1) := sign (trimStart s) in
  if startsWith "Infinity" s1 then Inf neg
  else
    let '(ip, ilen, s2) := digits 0 0 s1 in
    let '(m, flen, s3) :=
      match s2 with
      | String "."%char r => digits ip 0 r
      | _ => (ip, O, s2)
      end in
    match ilen, flen with
    | O, O => NaN
    | _, _ =>
        let q := scale m (exponent s3 - Z.of_nat flen) in
        Num (if neg then Qred (- q) else q)
    end.

(** String conversion of a possibly-null attribute value, as performed by
    ['dropdown-' + x] and by [getElementById(x)]. *)
Definition to_string (o : option string) : string :=
  match o with
  | Some s => s
  | None => "null"
  end.

(** The delay a timer really waits: the number is converted to a 32-bit
    signed integer (NaN and the infinities become 0) and negative delays
    count as 0. *)
Definition timeout_ms (d : num) : N :=
  match d with
  | Num q =>
      let t := Z.quot (Qnum q) (Zpos (Qden q)) in
      let w := t mod 2 ^ 32 in
      if w <? 2 ^ 31 then Z.to_N w else 0%N
  | _ => 0%N
  end.

End JS.

(** ** The document *)

Module Dom.

(** An element: tag name (lower case), class list, attributes (the [id]
    among them) and parent.  A node handle is the element's position in
    the document, which lists the elements in document order. *)
Record Node : Type := mkNode {
  tagName : string;
  classList : gset string;
  attributes : gmap string string;
  parentNode : option nat;
}.

Definition add_class (c : string) (n : Node) : Node :=
  mkNode (tagName n) (classList n ∪ {[c]}) (attributes n) (parentNode n).

Definition remove_class (c : string) (n : Node) : Node :=
  mkNode (tagName n) (classList n ∖ {[c]}) (attributes n) (parentNode n).

Definition set_attr (k v : string) (n : Node) : Node :=
  mkNode (tagName n) (classList n) (<[k:=v]> (attributes n)) (parentNode n).

Definition has_class (c : string) (n : Node) : bool := bool_decide (c ∈ classList n).

Definition has_attr (k : string) (n : Node) : bool := bool_decide (is_Some (attributes n !! k)).

Definition has_id (i : string) (n : Node) : bool := bool_decide (attributes n !! "id" = Some i).

Definition has_tag (t : string) (n : Node) : bool := bool_decide (tagName n = t).

(** Handles of the elements that satisfy [p], in document order, counting
    positions from [i]. *)
Fixpoint select_from (p : Node → bool) (i : nat) (d : list Node) : list nat :=
  match d with
  | [] => []
  | n :: d' => if p n then i :: select_from p (S i) d' else select_from p (S i) d'
  end.

Definition querySelectorAll (p : Node → bool) (d : list Node) : list nat := select_from p 0 d.

Definition querySelector (p : Node → bool) (d : list Node) : option nat := head (querySelectorAll p d).

Definition getElementById (i : string) (d : list Node) : option nat := querySelector (has_id i) d.

(** The element and its ancestors, innermost first.  The fuel bounds the
    walk by the size of the document. *)
Fixpoint path_from (d : list Node) (fuel : nat) (n : nat) : list nat :=
  match fuel with
  | O => []
  | S f =>
      match d !! n with
      | None => []
      | Some nd =>
          n :: match parentNode nd with
               | Some p => path_from d f p
               | None => []
               end
      end
  end.

Definition path (d : list Node) (n : nat) : list nat := path_from d (length d) n.

(** [w.contains(t)]: [w] is [t] or one of its ancestors. *)
Definition contains (d : list Node) (w t : nat) : bool := bool_decide (w ∈ path d t).

(** [t.closest(sel)]: the nearest of [t] and its ancestors matching [p]. *)
Definition closest (p : Node → bool) (d : list Node) (t : nat) : option nat :=
  head (List.filter (λ i, match d !! i with Some n => p n | None => false end) (path d t)).

(** [e.querySelectorAll('a')]: the anchors strictly below [e]. *)
Definition links (d : list Node) (e : nat) : list nat :=
  List.filter (λ i, negb (Nat.eqb i e) && contains d e i) (querySelectorAll (has_tag "a") d).

Definition getAttribute (k : string) (d : list Node) (n : nat) : option string :=
  d !! n ≫= λ nd, attributes nd !! k.

End Dom.

(** ** State of the page and of the script *)

(** The closures the script hands to [setTimeout], one constructor per
    closure in the source. *)
Inductive Callback : Type :=
| CbShow (dropdownId : option string) (button : nat)
    (* debounced [() => showDropdown(dropdownId, button)] of handleMouseEnter *)
| CbLeave         (* debounced closure of handleMouseLeave *)
| CbResize        (* debounced handleResize *)
| CbCloseDelay    (* [() => hideDropdowns()] after CLOSE_DELAY *)
| CbCollapse      (* end of the collapse animation, in hideDropdowns *)
| CbFocusClose    (* [mobileNavClose.focus()] in openMobileMenu *)
| CbFocusFirstLink. (* focus of the first link after a keyboard open *)

Record Timer : Type := mkTimer {
  handle : nat;
  due : N;                      (* milliseconds *)
  callback : Callback;
}.

(** The listeners [init] registers. *)
Inductive Listener : Type :=
| OnMouseEnterCapture   (* menuWrapper, mouseenter, capturing: handleMouseEnter *)
| OnMouseLeave          (* menuWrapper, mouseleave: handleMouseLeave *)
| OnMouseEnterClear     (* menuWrapper, mouseenter: clears the close timer *)
| OnKeydown             (* document, keydown: handleKeyboardNavigation *)
| OnButtonClick (button : nat)      (* a trigger, click *)
| OnHamburgerClick      (* hamburgerButton, click: openMobileMenu *)
| OnCloseClick          (* mobileNavClose, click: closeMobileMenu *)
| OnAccordionClick (button : nat)   (* an accordion trigger, click *)
| OnBackdropClick       (* backdrop, click *)
| OnResize              (* window, resize: debounced handleResize *)
| OnDocumentClick.      (* document, click: the "mobile fallback" *)

(** The module-level constants: element lookups made once, when the script
    is loaded. *)
Record Page : Type := mkPage {
  menuWrapper : option nat;
  dropdownArea : option nat;
  menuButtons : list nat;
  backdrop : option nat;
  hamburgerButton : option nat;
  mobileNav : option nat;
  mobileNavClose : option nat;
  mobileAccordionButtons : list nat;
}.

Definition load (d : list Dom.Node) : Page :=
  {| menuWrapper := Dom.querySelector (Dom.has_class "menu-wrapper") d;
     dropdownArea := Dom.querySelector (Dom.has_class "dropdown-area") d;
     menuButtons := Dom.querySelectorAll (Dom.has_attr "data-dropdown") d;
     backdrop := Dom.querySelector (Dom.has_class "menu-backdrop") d;
     hamburgerButton := Dom.querySelector (Dom.has_class "hamburger-button") d;
     mobileNav := Dom.querySelector (Dom.has_class "mobile-nav") d;
     mobileNavClose := Dom.querySelector (Dom.has_class "mobile-nav-close") d;
     mobileAccordionButtons := Dom.querySelectorAll (Dom.has_class "mobile-accordion-button") d |}.

Record State : Type := mkState {
  (* the browser *)
  doc : list Dom.Node;
  innerWidth : Z;
  bodyOverflow : string;
  activeElement : option nat;   (* [None]: the body, which carries no attribute or class the script tests *)
  clock : N;                    (* milliseconds *)
  nextHandle : nat;
  timers : list Timer;          (* the live timers, oldest first *)
  listeners : list Listener;    (* in registration order *)
  defaultPrevented : bool;      (* of the event being dispatched *)
  (* the script's variables *)
  TRANSITION_DURATION : JS.num;
  currentOpenDropdown : option nat;
  dropdownTimeout : option nat;
  debounceTimeout : option nat;
  lastFocusedElement : option nat;
  mobileMenuOpen : bool;
}.

Definition CLOSE_DELAY : JS.num := JS.of_Z 0.
Definition DEBOUNCE_DELAY : JS.num := JS.of_Z 50.
Definition MOBILE_BREAKPOINT : Z := 768.

(** The state right after the script's declarations have run. *)
Definition initial (d : list Dom.Node) (width : Z) : State :=
  {| doc := d; innerWidth := width; bodyOverflow := ""; activeElement := None;
     clock := 0; nextHandle := 1; timers := []; listeners := [];
     defaultPrevented := false;
     TRANSITION_DURATION := JS.of_Z 600;
     currentOpenDropdown := None; dropdownTimeout := None; debounceTimeout := None;
     lastFocusedElement := None; mobileMenuOpen := false |}.

Definition set_doc (f : list Dom.Node → list Dom.Node) (s : State) : State :=
  mkState (f (doc s)) (innerWidth s) (bodyOverflow s) (activeElement s) (clock s)
    (nextHandle s) (timers s) (listeners s) (defaultPrevented s) (TRANSITION_DURATION s)
    (currentOpenDropdown s) (dropdownTimeout s) (debounceTimeout s)
    (lastFocusedElement s) (mobileMenuOpen s).

Definition set_innerWidth (w : Z) (s : State) : State :=
  mkState (doc s) w (bodyOverflow s) (activeElement s) (clock s)
    (nextHandle s) (timers s) (listeners s) (defaultPrevented s) (TRANSITION_DURATION s)
    (currentOpenDropdown s) (dropdownTimeout s) (debounceTimeout s)
    (lastFocusedElement s) (mobileMenuOpen s).

Definition set_bodyOverflow (v : string) (s : State) : State :=
  mkState (doc s) (innerWidth s) v (activeElement s) (clock s)
    (nextHandle s) (timers s) (listeners s) (defaultPrevented s) (TRANSITION_DURATION s)
    (currentOpenDropdown s) (dropdownTimeout s) (debounceTimeout s)
    (lastFocusedElement s) (mobileMenuOpen s).

Definition set_activeElement (e : option nat) (s : State) : State :=
  mkState (doc s) (innerWidth s) (bodyOverflow s) e (clock s)
    (nextHandle s) (timers s) (listeners s) (defaultPrevented s) (TRANSITION_DURATION s)
    (currentOpenDropdown s) (dropdownTimeout s) (debounceTimeout s)
    (lastFocusedElement s) (mobileMenuOpen s).

Definition set_clock (t : N) (s : State) : State :=
  mkState (doc s) (innerWidth s) (bodyOverflow s) (activeElement s) t
    (nextHandle s) (timers s) (listeners s) (defaultPrevented s) (TRANSITION_DURATION s)
    (currentOpenDropdown s) (dropdownTimeout s) (debounceTimeout s)
    (lastFocusedElement s) (mobileMenuOpen s).

Definition set_timers (h : nat) (ts : list Timer) (s : State) : State :=
  mkState (doc s) (innerWidth s) (bodyOverflow s) (activeElement s) (clock s)
    h ts (listeners s) (defaultPrevented s) (TRANSITION_DURATION s)
    (currentOpenDropdown s) (dropdownTimeout s) (debounceTimeout s)
    (lastFocusedElement s) (mobileMenuOpen s).

Definition set_listeners (ls : list Listener) (s : State) : State :=
  mkState (doc s) (innerWidth s) (bodyOverflow s) (activeElement s) (clock s)
    (nextHandle s) (timers s) ls (defaultPrevented s) (TRANSITION_DURATION s)
    (currentOpenDropdown s) (dropdownTimeout s) (debounceTimeout s)
    (lastFocusedElement s) (mobileMenuOpen s).

Definition set_defaultPrevented (b : bool) (s : State) : State :=
  mkState (doc s) (innerWidth s) (bodyOverflow s) (activeElement s) (clock s)
    (nextHandle s) (timers s) (listeners s) b (TRANSITION_DURATION s)
    (currentOpenDropdown s) (dropdownTimeout s) (debounceTimeout s)
    (lastFocusedElement s) (mobileMenuOpen s).

Definition set_TRANSITION_DURATION (d : JS.num) (s : State) : State :=
  mkState (doc s) (innerWidth s) (bodyOverflow s) (activeElement s) (clock s)
    (nextHandle s) (timers s) (listeners s) (defaultPrevented s) d
    (currentOpenDropdown s) (dropdownTimeout s) (debounceTimeout s)
    (lastFocusedElement s) (mobileMenuOpen s).

Definition set_currentOpenDropdown (o : option nat) (s : State) : State :=
  mkState (doc s) (innerWidth s) (bodyOverflow s) (activeElement s) (clock s)
    (nextHandle s) (timers s) (listeners s) (defaultPrevented s) (TRANSITION_DURATION s)
    o (dropdownTimeout s) (debounceTimeout s)
    (lastFocusedElement s) (mobileMenuOpen s).

Definition set_dropdownTimeout (o : option nat) (s : State) : State :=
  mkState (doc s) (innerWidth s) (bodyOverflow s) (activeElement s) (clock s)
    (nextHandle s) (timers s) (listeners s) (defaultPrevented s) (TRANSITION_DURATION s)
    (currentOpenDropdown s) o (debounceTimeout s)
    (lastFocusedElement s) (mobileMenuOpen s).

Definition set_debounceTimeout (o : option nat) (s : State) : State :=
  mkState (doc s) (innerWidth s) (bodyOverflow s) (activeElement s) (clock s)
    (nextHandle s) (timers s) (listeners s) (defaultPrevented s) (TRANSITION_DURATION s)
    (currentOpenDropdown s) (dropdownTimeout s) o
    (lastFocusedElement s) (mobileMenuOpen s).

Definition set_lastFocusedElement (o : option nat) (s : State) : State :=
  mkState (doc s) (innerWidth s) (bodyOverflow s) (activeElement s) (clock s)
    (nextHandle s) (timers s) (listeners s) (defaultPrevented s) (TRANSITION_DURATION s)
    (currentOpenDropdown s) (dropdownTimeout s) (debounceTimeout s)
    o (mobileMenuOpen s).

Definition set_mobileMenuOpen (b : bool) (s : State) : State :=
  mkState (doc s) (innerWidth s) (bodyOverflow s) (activeElement s) (clock s)
    (nextHandle s) (timers s) (listeners s) (defaultPrevented s) (TRANSITION_DURATION s)
    (currentOpenDropdown s) (dropdownTimeout s) (debounceTimeout s)
    (lastFocusedElement s) b.

(** *** Completions *)

Inductive Result : Type :=
| Ok (s : State)       (* the handler returned *)
| Throw (s : State).   (* a null collaborator was dereferenced: TypeError *)

Definition state_of (r : Result) : State :=
  match r with
  | Ok s | Throw s => s
  end.

Definition throws (r : Result) : bool :=
  match r with
  | Ok _ => false
  | Throw _ => true
  end.

Definition M : Type := State → Result.

Definition andThen (m k : M) : M :=
  λ s, match m s with
       | Ok s' => k s'
       | Throw s' => Throw s'
       end.

Declare Scope handler_scope.
Delimit Scope handler_scope with M.
Bind Scope handler_scope with M.
Notation "m ;; k" := (andThen m k%M)
  (at level 100, k at level 200, right associativity) : handler_scope.

Definition lift (f : State → State) : M := λ s, Ok (f s).

(** Use of a module-level element that may be [null]. *)
Definition on (o : option nat) (f : nat → State → State) : M :=
  λ s, match o with
       | Some n => Ok (f n s)
       | None => Throw s
       end.

Definition forEach (l : list nat) (f : nat → State → State) (s : State) : State :=
  foldl (λ s n, f n s) s l.

(** *** Element operations *)

Definition classList_add (c : string) (n : nat) : State → State :=
  set_doc (alter (Dom.add_class c) n).

Definition classList_remove (c : string) (n : nat) : State → State :=
  set_doc (alter (Dom.remove_class c) n).

Definition setAttribute (k v : string) (n : nat) : State → State :=
  set_doc (alter (Dom.set_attr k v) n).

(** [n.focus()]; the element is assumed to take the focus. *)
Definition focus (n : nat) : State → State := set_activeElement (Some n).

Definition preventDefault : State → State := set_defaultPrevented true.

(** *** Timers *)

Definition setTimeout (cb : Callback) (delay : JS.num) (s : State) : nat * State :=
  (nextHandle s,
   set_timers (S (nextHandle s))
     (timers s ++ [mkTimer (nextHandle s) (clock s + JS.timeout_ms delay)%N cb]) s).

Definition live (h : nat) (t : Timer) : bool := negb (Nat.eqb (handle t) h).

Definition clearTimeout (h : option nat) (s : State) : State :=
  match h with
  | Some i => set_timers (nextHandle s) (List.filter (live i) (timers s)) s
  | None => s
  end.

(** ** The script's functions *)

Section Controller.

Variable pg : Page.

Definition isMobileMode (s : State) : bool := innerWidth s <=? MOBILE_BREAKPOINT.

(** One call of a function made by [debounce(func, delay)]: the single
    module-level handle is cleared, then set. *)
Definition debounce (func : Callback) (delay : JS.num) (s : State) : State :=
  let s1 := clearTimeout (debounceTimeout s) s in
  let '(h, s2) := setTimeout func delay s1 in
  set_debounceTimeout (Some h) s2.

Definition dropdowns (s : State) : list nat :=
  Dom.querySelectorAll (Dom.has_class "dropdown") (doc s).

Definition deactivateButton (btn : nat) (s : State) : State :=
  setAttribute "aria-expanded" "false" btn (classList_remove "active" btn s).

Definition enableDropdownLinks (dropdown : nat) (s : State) : State :=
  forEach (Dom.links (doc s) dropdown) (setAttribute "tabindex" "0") s.

Definition disableDropdownLinks (dropdown : nat) (s : State) : State :=
  forEach (Dom.links (doc s) dropdown) (setAttribute "tabindex" "-1") s.

Definition hideDropdowns : M := λ s,
  if isMobileMode s then Ok s
  else
    (on (dropdownArea pg) (classList_remove "active") ;;
     on (backdrop pg) (classList_remove "active") ;;
     lift (forEach (menuButtons pg) deactivateButton) ;;
     lift (λ s, let '(h, s') := setTimeout CbCollapse (TRANSITION_DURATION s) s in
                set_dropdownTimeout (Some h) s'))%M s.

(** The closure hideDropdowns schedules. *)
Definition collapse (s : State) : State :=
  set_currentOpenDropdown None
    (forEach (dropdowns s)
       (λ dropdown s, disableDropdownLinks dropdown (classList_remove "active" dropdown s)) s).

Definition showDropdown (dropdownId : option string) (button : option nat) : M := λ s,
  if isMobileMode s then Ok s
  else
    let s := clearTimeout (dropdownTimeout s) s in
    match Dom.getElementById ("dropdown-" +:+ JS.to_string dropdownId) (doc s) with
    | None => Ok s
    | Some targetDropdown =>
        if bool_decide (currentOpenDropdown s = Some targetDropdown) && bool_decide (is_Some button)
        then hideDropdowns s
        else
          (lift (λ s, forEach (dropdowns s) (classList_remove "active") s) ;;
           lift (forEach (menuButtons pg) deactivateButton) ;;
           lift (classList_add "active" targetDropdown) ;;
           on (dropdownArea pg) (classList_add "active") ;;
           on (backdrop pg) (classList_add "active") ;;
           lift (set_currentOpenDropdown (Some targetDropdown)) ;;
           lift (match button with
                 | Some b => λ s, set_lastFocusedElement (Some b)
                                    (setAttribute "aria-expanded" "true" b (classList_add "active" b s))
                 | None => λ s, s
                 end) ;;
           lift (enableDropdownLinks targetDropdown))%M s
    end.

Definition openMobileMenu : M := λ s,
  if negb (isMobileMode s) then Ok s
  else
    (on (mobileNav pg) (classList_add "active") ;;
     on (backdrop pg) (classList_add "active") ;;
     on (hamburgerButton pg) (setAttribute "aria-expanded" "true") ;;
     lift (set_mobileMenuOpen true) ;;
     lift (set_bodyOverflow "hidden") ;;
     lift (λ s, snd (setTimeout CbFocusClose (JS.of_Z 100) s)))%M s.

Definition closeMobileMenu : M :=
  (on (mobileNav pg) (classList_remove "active") ;;
   on (backdrop pg) (classList_remove "active") ;;
   on (hamburgerButton pg) (setAttribute "aria-expanded" "false") ;;
   lift (set_mobileMenuOpen false) ;;
   lift (set_bodyOverflow "") ;;
   on (hamburgerButton pg) focus)%M.

Definition isExpanded (button : nat) (s : State) : bool :=
  bool_decide (Dom.getAttribute "aria-expanded" (doc s) button = Some "true").

Definition toggleMobileAccordion (button : nat) : M := λ s,
  let targetId := Dom.getAttribute "aria-controls" (doc s) button in
  match Dom.getElementById (JS.to_string targetId) (doc s) with
  | None => Ok s
  | Some targetContent =>
      if isExpanded button s
      then Ok (classList_remove "active" targetContent (setAttribute "aria-expanded" "false" button s))
      else Ok (classList_add "active" targetContent (setAttribute "aria-expanded" "true" button s))
  end.

Definition focusLast : State → State :=
  λ s, match lastFocusedElement s with
       | Some b => focus b s
       | None => s
       end.

(** Test of an attribute or class on the focused element; the body
    ([None]) has neither. *)
Definition focused_matches (p : Dom.Node → bool) (s : State) (e : option nat) : bool :=
  match e ≫= λ n, doc s !! n with
  | Some nd => p nd
  | None => false
  end.

Definition isActivationKey (key : string) : bool := String.eqb key "Enter" || String.eqb key " ".

Definition accordionKeys (key : string) (focused : option nat) : M := λ s,
  if isMobileMode s
     && isActivationKey key
     && focused_matches (Dom.has_class "mobile-accordion-button") s focused
  then match focused with
       | Some b => (lift preventDefault ;; toggleMobileAccordion b)%M s
       | None => Ok s
       end
  else Ok s.

Definition tabKeys (key : string) (shiftKey : bool) (focused : option nat) : M := λ s,
  match currentOpenDropdown s with
  | Some open =>
      if String.eqb key "Tab" then
        let dropdownLinks := Dom.links (doc s) open in
        let firstLink := head dropdownLinks in
        let lastLink := last dropdownLinks in
        if shiftKey && bool_decide (is_Some firstLink ∧ focused = firstLink)
        then Ok (focusLast (preventDefault s))
        else if negb shiftKey && bool_decide (is_Some lastLink ∧ focused = lastLink)
        then hideDropdowns s
        else Ok s
      else Ok s
  | None => Ok s
  end.

Definition handleKeyboardNavigation (key : string) (shiftKey : bool) : M := λ s,
  let focused := activeElement s in
  let rest : M := λ s,
    if negb (isMobileMode s) then
      if isActivationKey key && focused_matches (Dom.has_attr "data-dropdown") s focused
      then
        match focused with
        | Some b =>
            let dropdownId := Dom.getAttribute "data-dropdown" (doc s) b in
            let s := preventDefault s in
            if isExpanded b s then hideDropdowns s
            else (showDropdown dropdownId (Some b) ;;
                  lift (λ s, snd (setTimeout CbFocusFirstLink (JS.of_Z 50) s)))%M s
        | None => Ok s
        end
      else (tabKeys key shiftKey focused ;; accordionKeys key focused)%M s
    else accordionKeys key focused s in
  if String.eqb key "Escape" then
    if mobileMenuOpen s then (lift preventDefault ;; closeMobileMenu)%M s
    else if bool_decide (is_Some (currentOpenDropdown s))
    then (lift preventDefault ;; hideDropdowns ;; lift focusLast)%M s
    else rest s
  else rest s.

Definition handleMouseEnter (target : nat) : M := λ s,
  if isMobileMode s then Ok s
  else
    match Dom.closest (Dom.has_attr "data-dropdown") (doc s) target with
    | Some button =>
        Ok (debounce (CbShow (Dom.getAttribute "data-dropdown" (doc s) button) button)
              DEBOUNCE_DELAY s)
    | None => Ok s
    end.

Definition handleMouseLeave : M := λ s,
  if isMobileMode s then Ok s
  else Ok (debounce CbLeave DEBOUNCE_DELAY s).

Definition handleResize : M := λ s,
  if isMobileMode s then
    if bool_decide (is_Some (currentOpenDropdown s)) then hideDropdowns s else Ok s
  else
    if mobileMenuOpen s then closeMobileMenu s else Ok s.

(** The anonymous listeners of [init]. *)
Definition buttonClick (button : nat) : M := λ s,
  if isMobileMode s then Ok s
  else
    let dropdownId := Dom.getAttribute "data-dropdown" (doc s) button in
    if isExpanded button s then hideDropdowns s
    else showDropdown dropdownId (Some button) s.

Definition backdropClick : M := λ s,
  if mobileMenuOpen s then closeMobileMenu s
  else if bool_decide (is_Some (currentOpenDropdown s)) then hideDropdowns s
  else Ok s.

Definition documentClick (target : nat) : M := λ s,
  if isMobileMode s && bool_decide (is_Some (currentOpenDropdown s)) then
    match menuWrapper pg with
    | None => Throw s
    | Some w => if negb (Dom.contains (doc s) w target) then hideDropdowns s else Ok s
    end
  else Ok s.

(** The duration read from the style sheet's [--transition-duration]. *)
Definition readDuration (value : string) (s : State) : State :=
  let cssDuration := JS.trim value in
  if JS.endsWith cssDuration "s"
  then set_TRANSITION_DURATION (JS.mul (JS.parseFloat cssDuration) (JS.of_Z 1000)) s
  else if JS.endsWith cssDuration "ms"
  then set_TRANSITION_DURATION (JS.parseFloat cssDuration) s
  else s.

Definition addEventListeners (ls : list Listener) (s : State) : State :=
  set_listeners (listeners s ++ ls) s.

(** [init]; [value] is what [getPropertyValue('--transition-duration')]
    returns, the empty string when the property is not set.  The two node
    lists are always truthy, so their guards are not modelled. *)
Definition init (value : string) : M :=
  (lift (readDuration value) ;;
   lift (if bool_decide (is_Some (menuWrapper pg) ∧ is_Some (dropdownArea pg))
         then addEventListeners [OnMouseEnterCapture; OnMouseLeave; OnMouseEnterClear]
         else λ s, s) ;;
   lift (addEventListeners [OnKeydown]) ;;
   lift (addEventListeners (OnButtonClick <$> menuButtons pg)) ;;
   lift (if bool_decide (is_Some (hamburgerButton pg))
         then addEventListeners [OnHamburgerClick] else λ s, s) ;;
   lift (if bool_decide (is_Some (mobileNavClose pg))
         then addEventListeners [OnCloseClick] else λ s, s) ;;
   lift (addEventListeners (OnAccordionClick <$> mobileAccordionButtons pg)) ;;
   lift (if bool_decide (is_Some (backdrop pg))
         then addEventListeners [OnBackdropClick] else λ s, s) ;;
   lift (λ s, forEach (dropdowns s) disableDropdownLinks s) ;;
   lift (addEventListeners [OnResize]) ;;
   lift (addEventListeners [OnDocumentClick]))%M.

(** ** The event loop *)

Inductive Event : Type :=
| Click (target : nat)
| Keydown (key : string) (shiftKey : bool)
| MouseEnter (target : nat)
| MouseLeave (target : nat)
| Resize (width : Z)
| FocusMoves (target : option nat)   (* the user moves the focus *)
| TimerFires (h : nat)
| Elapse (ms : N).

Definition runCallback (cb : Callback) : M :=
  match cb with
  | CbShow dropdownId button => showDropdown dropdownId (Some button)
  | CbLeave =>
      lift (λ s, let '(h, s') := setTimeout CbCloseDelay CLOSE_DELAY s in
                 set_dropdownTimeout (Some h) s')
  | CbResize => handleResize
  | CbCloseDelay => hideDropdowns
  | CbCollapse => lift collapse
  | CbFocusClose => on (mobileNavClose pg) focus
  | CbFocusFirstLink =>
      lift (λ s, match currentOpenDropdown s ≫= λ open, head (Dom.links (doc s) open) with
                 | Some firstLink => focus firstLink s
                 | None => s
                 end)
  end.

(** The element a click listener is attached to. *)
Definition clickNode (l : Listener) : option nat :=
  match l with
  | OnButtonClick b | OnAccordionClick b => Some b
  | OnHamburgerClick => hamburgerButton pg
  | OnCloseClick => mobileNavClose pg
  | OnBackdropClick => backdrop pg
  | _ => None
  end.

Definition isDocumentClick (l : Listener) : bool :=
  match l with
  | OnDocumentClick => true
  | _ => false
  end.

(** The click listeners a click on [target] runs: those of the target and
    of its ancestors, innermost element first, then the document's. *)
Definition clickListeners (target : nat) (s : State) : list Listener :=
  (Dom.path (doc s) target ≫= λ n,
     List.filter (λ l, bool_decide (clickNode l = Some n)) (listeners s))
  ++ List.filter isDocumentClick (listeners s).

(** What a registered listener does with an event it receives; [None]
    when the event does not reach it. *)
Definition react (ev : Event) (l : Listener) (s : State) : option M :=
  match ev, l with
  | Click _, OnButtonClick b => Some (buttonClick b)
  | Click _, OnHamburgerClick => Some openMobileMenu
  | Click _, OnCloseClick => Some closeMobileMenu
  | Click _, OnAccordionClick b => Some (toggleMobileAccordion b)
  | Click _, OnBackdropClick => Some backdropClick
  | Click target, OnDocumentClick => Some (documentClick target)
  | Keydown key shiftKey, OnKeydown => Some (handleKeyboardNavigation key shiftKey)
  | MouseEnter target, OnMouseEnterCapture =>
      match menuWrapper pg with
      | Some w => if Dom.contains (doc s) w target then Some (handleMouseEnter target) else None
      | None => None
      end
  | MouseEnter target, OnMouseEnterClear =>
      if bool_decide (menuWrapper pg = Some target)
      then Some (lift (λ s, clearTimeout (dropdownTimeout s) s))
      else None
  | MouseLeave target, OnMouseLeave =>
      if bool_decide (menuWrapper pg = Some target) then Some handleMouseLeave else None
  | Resize _, OnResize => Some (lift (debounce CbResize (JS.of_Z 200)))
  | _, _ => None
  end.

(** An exception in a listener is reported and the next listener runs. *)
Definition runListeners (ev : Event) (ls : list Listener) (s : State) : State :=
  foldl (λ s l, match react ev l s with
                | Some h => state_of (h s)
                | None => s
                end) s ls.

Definition dispatch (ev : Event) (s : State) : State :=
  let s := set_defaultPrevented false s in
  match ev with
  | Click target => runListeners ev (clickListeners target s) s
  | _ => runListeners ev (listeners s) s
  end.

(** One turn of the event loop.  A timer fires only when it is live and
    due; time passing fires nothing by itself. *)
Definition step (ev : Event) (s : State) : option State :=
  match ev with
  | Resize width => Some (dispatch ev (set_innerWidth width s))
  | FocusMoves target => Some (set_activeElement target s)
  | Elapse ms => Some (set_clock (clock s + ms)%N s)
  | TimerFires h =>
      match List.find (λ t, Nat.eqb (handle t) h) (timers s) with
      | Some t =>
          if (due t <=? clock s)%N
          then Some (state_of (runCallback (callback t) (clearTimeout (Some h) s)))
          else None
      | None => None
      end
  | _ => Some (dispatch ev s)
  end.

Fixpoint run (evs : list Event) (s : State) : option State :=
  match evs with
  | [] => Some s
  | ev :: evs' =>
      match step ev s with
      | Some s' => run evs' s'
      | None => None
      end
  end.

End Controller.

(** The page once the script has been loaded over document [d] in a
    viewport of the given width. *)
Definition boot (d : list Dom.Node) (width : Z) (value : string) : State :=
  state_of (init (load d) value (initial d width)).

(** ** Observations *)

Definition active (s : State) (n : nat) : bool :=
  match doc s !! n with
  | Some nd => Dom.has_class "active" nd
  | None => false
  end.

Definition attr (k : string) (s : State) (n : nat) : option string :=
  Dom.getAttribute k (doc s) n.

(** A hand-written page used for the concrete runs below. *)
Module Sample.

Definition el (tag : string) (cls : list string) (attrs : list (string * string))
    (parent : option nat) : Dom.Node :=
  Dom.mkNode tag (list_to_set cls) (list_to_map attrs) parent.

Definition menu : list Dom.Node :=
  [ el "div" ["menu-wrapper"] [] None;
    el "button" [] [("data-dropdown", "products"); ("aria-expanded", "false")] (Some 0%nat);
    el "button" [] [("data-dropdown", "about"); ("aria-expanded", "false")] (Some 0%nat);
    el "div" ["dropdown-area"] [] (Some 0%nat);
    el "div" ["dropdown"] [("id", "dropdown-products")] (Some 3%nat);
    el "a" [] [] (Some 4%nat);
    el "a" [] [] (Some 4%nat);
    el "div" ["dropdown"] [("id", "dropdown-about")] (Some 3%nat);
    el "a" [] [] (Some 7%nat) ].

Definition mobile (backdropClass : string) : list Dom.Node :=
  [ el "div" [backdropClass] [] None;
    el "button" ["hamburger-button"] [("aria-expanded", "false")] None;
    el "nav" ["mobile-nav"] [] None;
    el "button" ["mobile-nav-close"] [] (Some 11%nat);
    el "button" ["mobile-accordion-button"]
       [("aria-expanded", "false"); ("aria-controls", "acc-1")] (Some 11%nat);
    el "div" [] [("id", "acc-1")] (Some 11%nat) ].

(** Elements 0-8 are the desktop menu (wrapper 0, triggers 1 and 2, area 3,
    panels 4 and 7 with links 5, 6 and 8); 9 is the backdrop, 10 the
    hamburger button, 11 the mobile panel, 12 its close control, 13 an
    accordion trigger and 14 its content. *)
Definition page : list Dom.Node := menu ++ mobile "menu-backdrop".

(** The same page whose markup lacks the backdrop element. *)
Definition page_without_backdrop : list Dom.Node := menu ++ mobile "decoration".

Definition pg : Page := Eval vm_compute in load page.

Definition desktop : State := boot page 1200 "0.6s".

(** The page after a click on trigger 1 has opened panel 4. *)
Definition opened : State := state_of (buttonClick pg 1 desktop).

Definition after (evs : list Event) (s : State) : State :=
  match run pg evs s with
  | Some s' => s'
  | None => s
  end.

(** Panel 4 is open, the window has been resized to 500 px and the 200 ms
    of the resize debounce have passed: timer 1 is about to fire. *)
Definition resized : State := after [Click 1; Resize 500; Elapse 200] desktop.

(** The same after the debounced resize handler has run. *)
Definition settled : State := after [TimerFires 1] resized.

End Sample.

(** ** Vocabulary of the properties *)

(** The script adds and removes the class [active] and sets the attributes
    [aria-expanded] and [tabindex]; tags, parents, ids and the class
    [dropdown] keep the values of the markup, and with them the result of
    every query the script makes. *)
Definition skeleton (n : Dom.Node) : string * option nat * option string * bool :=
  (Dom.tagName n, Dom.parentNode n, Dom.attributes n !! "id", Dom.has_class "dropdown" n).

Arguments skeleton : simpl never.

Definition shape (s : State) : list (string * option nat * option string * bool) :=
  skeleton <$> doc s.

(** Everything but the document. *)
Definition rest (s : State) : State := set_doc (λ _, []) s.

(** [enableDropdownLinks] and [disableDropdownLinks] differ in the value
    they write. *)
Definition tabLinks (v : string) (dropdown : nat) (s : State) : State :=
  forEach (Dom.links (doc s) dropdown) (setAttribute "tabindex" v) s.

(** One round of the loop in the collapse closure. *)
Definition collapseOne (dropdown : nat) (s : State) : State :=
  disableDropdownLinks dropdown (classList_remove "active" dropdown s).

(** Handles are handed out in increasing order: every live timer has a
    handle below the next one. *)
Definition fresh (s : State) : bool :=
  forallb (λ t, handle t <? nextHandle s)%nat (timers s).

(** The dropdown machine is closed: no panel is recorded as open and no
    panel is active. *)
Definition Closed (s : State) : Prop :=
  currentOpenDropdown s = None ∧ ∀ n, n ∈ dropdowns s → active s n = false.

(** Every active panel is the one recorded as open; hence at most one
    panel is active. *)
Definition AtMostOneOpen (s : State) : Prop :=
  ∀ n, n ∈ dropdowns s → active s n = true → currentOpenDropdown s = Some n.

(** A property of states that a handler keeps, whether it returns or
    throws. *)
Definition preserves (P : State → Prop) (m : M) : Prop :=
  ∀ s, P s → P (state_of (m s)).

(** The timers, the two handles and the mobile flag. *)
Definition core (s : State) : list Timer * nat * option nat * option nat * bool :=
  (timers s, nextHandle s, dropdownTimeout s, debounceTimeout s, mobileMenuOpen s).

(** The closures that are only ever scheduled through [debounce]: the two
    hover closures and the resize handler. *)
Definition isDebounce (cb : Callback) : bool :=
  match cb with
  | CbShow _ _ | CbLeave | CbResize => true
  | _ => false
  end.

Definition debounceTimers (s : State) : list Timer :=
  List.filter (λ t, isDebounce (callback t)) (timers s).

(** The timer categories of the specification; the two focus timers,
    which it does not count, form a fourth. *)
Inductive Category : Type := HoverDebounce | ResizeDebounce | CloseDelay | FocusMove.

Definition category (cb : Callback) : Category :=
  match cb with
  | CbShow _ _ | CbLeave => HoverDebounce
  | CbResize => ResizeDebounce
  | CbCloseDelay | CbCollapse => CloseDelay
  | CbFocusClose | CbFocusFirstLink => FocusMove
  end.

(** A property that no handler can break except, possibly, by writing the
    mobile flag: it does not depend on the document or on the variables
    outside [core], and it survives the four ways the script touches
    timers. *)
Record Stable (P : State → Prop) : Prop := {
  stable_core : ∀ s s', core s' = core s → P s → P s';
  stable_clear : ∀ h s, P s → P (clearTimeout h s);
  stable_debounce : ∀ cb delay s, isDebounce cb = true → P s → P (debounce cb delay s);
  stable_close : ∀ cb delay s, isDebounce cb = false → P s →
      P (let '(h, s') := setTimeout cb delay s in set_dropdownTimeout (Some h) s');
  stable_timer : ∀ cb delay s, isDebounce cb = false → P s → P (snd (setTimeout cb delay s));
}.

(** The discipline of the timer handles: live handles are below the next
    one and distinct, the two handle variables hold handles already handed
    out, a live timer is a debounce timer exactly when the debounce handle
    names it, and the close handle never names a debounce timer. *)
Definition HandlesOk (ts : list Timer) (next : nat) (deb drop : option nat) : Prop :=
  (∀ t, t ∈ ts → (handle t < next)%nat)
  ∧ NoDup (handle <$> ts)
  ∧ (∀ h, deb = Some h → (h < next)%nat)
  ∧ (∀ h, drop = Some h → (h < next)%nat)
  ∧ (∀ t, t ∈ ts → isDebounce (callback t) = true ↔ deb = Some (handle t))
  ∧ (∀ t, t ∈ ts → drop = Some (handle t) → isDebounce (callback t) = false).

Definition TimersOk (s : State) : Prop :=
  HandlesOk (timers s) (nextHandle s) (debounceTimeout s) (dropdownTimeout s).

Section Vocabulary.

Variable pg : Page.

(** The loop over the trigger buttons, in [showDropdown] and in
    [hideDropdowns]. *)
Definition deactivateButtons (s : State) : State :=
  forEach (menuButtons pg) deactivateButton s.

(** The state [hideDropdowns] returns at desktop width when the area [a]
    and the backdrop [b] exist. *)
Definition closing (a b : nat) (s : State) : State :=
  let s' := deactivateButtons (classList_remove "active" b (classList_remove "active" a s)) in
  set_dropdownTimeout (Some (nextHandle s'))
    (snd (setTimeout CbCollapse (TRANSITION_DURATION s') s')).

(** The state [showDropdown] returns when it opens panel [t], at desktop
    width with the area [a] and the backdrop [b] present. *)
Definition opening (a b t : nat) (button : option nat) (s : State) : State :=
  let s1 := forEach (dropdowns s) (classList_remove "active") s in
  let s2 := deactivateButtons s1 in
  let s3 := classList_add "active" b (classList_add "active" a (classList_add "active" t s2)) in
  let s4 := set_currentOpenDropdown (Some t) s3 in
  let s5 := match button with
            | Some btn => set_lastFocusedElement (Some btn)
                            (setAttribute "aria-expanded" "true" btn
                               (classList_add "active" btn s4))
            | None => s4
            end in
  enableDropdownLinks t s5.

(** A sequence of show requests, each with its panel id and trigger. *)
Fixpoint showAll (requests : list (option string * option nat)) : M :=
  match requests with
  | [] => Ok
  | (dropdownId, button) :: requests' =>
      (showDropdown pg dropdownId button ;; showAll requests')%M
  end.

(** The listeners that call [closeMobileMenu] on the event they receive. *)
Definition closer (ev : Event) (l : Listener) : bool :=
  match ev, l with
  | Click _, OnCloseClick | Click _, OnBackdropClick => true
  | Keydown key _, OnKeydown => String.eqb key "Escape"
  | _, _ => false
  end.

(** The turns of the event loop in which [closeMobileMenu] can run: a
    click that reaches the close control or the backdrop, an Escape key,
    and the debounced resize handler firing at desktop width. *)
Definition mayClose (ev : Event) (s : State) : bool :=
  match ev with
  | Click target => existsb (closer ev) (clickListeners pg target s)
  | Keydown key _ => String.eqb key "Escape"
  | TimerFires h =>
      match List.find (λ t, Nat.eqb (handle t) h) (timers s) with
      | Some t =>
          match callback t with
          | CbResize => negb (isMobileMode s)
          | _ => false
          end
      | None => false
      end
  | _ => false
  end.

End Vocabulary.

(** ** Vocabulary of the further properties *)

(** The closures the script schedules: the debounced show request of
    [handleMouseEnter] carries the trigger that [closest] found; the
    others carry nothing. *)
Definition Schedulable (s : State) (cb : Callback) : Prop :=
  match cb with
  | CbShow _ button =>
      ∃ target, Dom.closest (Dom.has_attr "data-dropdown") (doc s) target = Some button
  | _ => True
  end.

(** A property that survives every write the script makes: the class
    [active], the attributes [aria-expanded] and [tabindex], the timers
    it clears and sets, the clock, the focus and the script's variables.
    The open-dropdown reference is set only at desktop width, and the
    mobile flag is raised, together with the scroll lock, only at mobile
    width. *)
Record Kept (P : State → Prop) : Prop := {
  kept_add : ∀ n s, P s → P (classList_add "active" n s);
  kept_remove : ∀ n s, P s → P (classList_remove "active" n s);
  kept_expanded : ∀ v n s, P s → P (setAttribute "aria-expanded" v n s);
  kept_tabindex : ∀ v n s, P s → P (setAttribute "tabindex" v n s);
  kept_clear : ∀ h s, P s → P (clearTimeout (Some h) s);
  kept_timer : ∀ cb delay s, Schedulable s cb → P s → P (snd (setTimeout cb delay s));
  kept_dropdownTimeout : ∀ o s, P s → P (set_dropdownTimeout o s);
  kept_debounceTimeout : ∀ o s, P s → P (set_debounceTimeout o s);
  kept_lastFocusedElement : ∀ o s, P s → P (set_lastFocusedElement o s);
  kept_activeElement : ∀ o s, P s → P (set_activeElement o s);
  kept_defaultPrevented : ∀ b s, P s → P (set_defaultPrevented b s);
  kept_clock : ∀ t s, P s → P (set_clock t s);
  kept_closed : ∀ s, P s → P (set_currentOpenDropdown None s);
  kept_opened : ∀ t s, isMobileMode s = false → P s → P (set_currentOpenDropdown (Some t) s);
  kept_menu_opened : ∀ s, isMobileMode s = true → P s →
      P (set_bodyOverflow "hidden" (set_mobileMenuOpen true s));
  kept_menu_closed : ∀ s, P s → P (set_bodyOverflow "" (set_mobileMenuOpen false s));
}.

(** [P], in a viewport of width [w]. *)
Definition atWidth (P : State → Prop) (w : Z) (s : State) : Prop :=
  P s ∧ innerWidth s = w.

(** What [handleKeyboardNavigation] does once the Escape branches have
    been passed; [focused] is [document.activeElement], read on entry. *)
Definition otherKeys (pg : Page) (key : string) (shiftKey : bool) (focused : option nat) : M :=
  λ s,
    if negb (isMobileMode s) then
      if isActivationKey key && focused_matches (Dom.has_attr "data-dropdown") s focused
      then
        match focused with
        | Some b =>
            if isExpanded b (preventDefault s) then hideDropdowns pg (preventDefault s)
            else (showDropdown pg (Dom.getAttribute "data-dropdown" (doc s) b) (Some b) ;;
                  lift (λ s, snd (setTimeout CbFocusFirstLink (JS.of_Z 50) s)))%M
                   (preventDefault s)
        | None => Ok s
        end
      else (tabKeys pg key shiftKey focused ;; accordionKeys key focused)%M s
    else accordionKeys key focused s.

(** What the script leaves of an element: everything but the class
    [active] and the attributes [aria-expanded] and [tabindex]. *)
Definition untouched (n : Dom.Node) : string * gset string * gmap string string * option nat :=
  (Dom.tagName n, Dom.classList n ∖ {["active"]},
   delete "aria-expanded" (delete "tabindex" (Dom.attributes n)), Dom.parentNode n).

(** The scroll lock of the mobile panel is on exactly when the panel is
    flagged open. *)
Definition ScrollLocked (s : State) : Prop :=
  bodyOverflow s = if mobileMenuOpen s then "hidden" else "".




(** What [init] has done before it walks the panels: the duration is
    read and the first listeners are registered. *)
Definition registered (pg : Page) (value : string) (s : State) : State :=
  let s1 := readDuration value s in
  let s2 := if bool_decide (is_Some (menuWrapper pg) ∧ is_Some (dropdownArea pg))
            then addEventListeners [OnMouseEnterCapture; OnMouseLeave; OnMouseEnterClear] s1
            else s1 in
  let s3 := addEventListeners [OnKeydown] s2 in
  let s4 := addEventListeners (OnButtonClick <$> menuButtons pg) s3 in
  let s5 := if bool_decide (is_Some (hamburgerButton pg))
            then addEventListeners [OnHamburgerClick] s4 else s4 in
  let s6 := if bool_decide (is_Some (mobileNavClose pg))
            then addEventListeners [OnCloseClick] s5 else s5 in
  let s7 := addEventListeners (OnAccordionClick <$> mobileAccordionButtons pg) s6 in
  if bool_decide (is_Some (backdrop pg))
  then addEventListeners [OnBackdropClick] s7 else s7.

(** The dropdown panels of the markup. *)
Definition panels (d : list Dom.Node) : list nat :=
  Dom.querySelectorAll (Dom.has_class "dropdown") d.

(** No dropdown panel is also the dropdown area, the backdrop, the mobile
    panel, a trigger or the content of an accordion section. *)
Definition PanelsApart (d : list Dom.Node) : Prop :=
  ∀ n, n ∈ panels d →
    dropdownArea (load d) ≠ Some n
    ∧ backdrop (load d) ≠ Some n
    ∧ mobileNav (load d) ≠ Some n
    ∧ Dom.getAttribute "data-dropdown" d n = None
    ∧ ∀ x, Dom.getElementById (JS.to_string (Dom.getAttribute "aria-controls" d x)) d ≠ Some n.

(** The markup is untouched, and the triggers held by the pending show
    requests and by the click listeners carry [data-dropdown]. *)
Definition Tidy (d : list Dom.Node) (s : State) : Prop :=
  untouched <$> doc s = untouched <$> d
  ∧ (∀ tm dropdownId button, tm ∈ timers s → callback tm = CbShow dropdownId button →
       is_Some (Dom.getAttribute "data-dropdown" d button))
  ∧ (∀ button, OnButtonClick button ∈ listeners s →
       is_Some (Dom.getAttribute "data-dropdown" d button)).

(** Every active panel is the one recorded as open, on a tidy page. *)
Definition OnePanel (d : list Dom.Node) (s : State) : Prop :=
  AtMostOneOpen s ∧ Tidy d s.

(** Decidable closed goals, by evaluation. *)
Ltac by_evaluation :=
  match goal with
  | |- ?P => apply (@bool_decide_unpack P _); vm_compute; exact I
  end.

(** * Properties

    - C1, C8: [hideDropdowns] is inert at mobile width, and so are the
      resize handler and the Escape branch that call it there.
    - C2: operations dereference the backdrop unguarded.
    - C3: a duration in milliseconds is read as seconds.
    - C4: one debounce handle for hover and resize.
    - C5: at most one panel open after any sequence of show requests.
    - C6: a second show request on the open panel is a hide request.
    - C7: the two phases of a hide request.
    - C9: only the close control, the backdrop, Escape and a resize to
      desktop close the mobile panel.
    - C10: the accordion click toggles at any width. *)

(** ** Facts about documents *)

Section DomFacts.

Implicit Types (d : list Dom.Node) (p : Dom.Node → bool) (f : Dom.Node → Dom.Node).

Lemma elem_of_filterb {A} (g : A → bool) (l : list A) (x : A) :
  x ∈ List.filter g l ↔ x ∈ l ∧ g x = true.
Proof. rewrite !list_elem_of_In. apply filter_In. Qed.

Lemma elem_of_select_from p k d i :
  i ∈ Dom.select_from p k d ↔ ∃ n, (k ≤ i)%nat ∧ d !! (i - k)%nat = Some n ∧ p n = true.
Proof.
  revert k. induction d as [|n d IH]; intros k; simpl.
  - split; [intros H; inversion H | intros (n & _ & H & _); discriminate].
  - assert (Hrest : i ∈ Dom.select_from p (S k) d ↔
              ∃ n', (k < i)%nat ∧ d !! (i - S k)%nat = Some n' ∧ p n' = true).
    { rewrite IH. split; intros (n' & ? & ? & ?); exists n'; split_and!; auto; lia. }
    destruct (p n) eqn:Hp.
    + rewrite elem_of_cons, Hrest. split.
      * intros [-> | (n' & Hlt & Hl & Hn')].
        -- exists n. rewrite Nat.sub_diag. auto.
        -- exists n'. split_and!; [lia | | done].
           replace (i - k)%nat with (S (i - S k)) by lia. done.
      * intros (n' & Hle & Hl & Hn').
        destruct (decide (i = k)) as [-> | Hne]; [by left | right].
        exists n'. split_and!; [lia | | done].
        replace (i - k)%nat with (S (i - S k)) in Hl by lia. done.
    + rewrite Hrest. split.
      * intros (n' & Hlt & Hl & Hn'). exists n'. split_and!; [lia | | done].
        replace (i - k)%nat with (S (i - S k)) by lia. done.
      * intros (n' & Hle & Hl & Hn').
        destruct (decide (i = k)) as [-> | Hne].
        { rewrite Nat.sub_diag in Hl. simpl in Hl. congruence. }
        exists n'. split_and!; [lia | | done].
        replace (i - k)%nat with (S (i - S k)) in Hl by lia. done.
Qed.

Lemma elem_of_querySelectorAll p d i :
  i ∈ Dom.querySelectorAll p d ↔ ∃ n, d !! i = Some n ∧ p n = true.
Proof.
  unfold Dom.querySelectorAll. rewrite elem_of_select_from.
  rewrite Nat.sub_0_r. split.
  - intros (n & _ & ? & ?). eauto.
  - intros (n & ? & ?). exists n. split_and!; auto; lia.
Qed.

Lemma querySelector_Some p d i :
  Dom.querySelector p d = Some i → ∃ n, d !! i = Some n ∧ p n = true.
Proof.
  unfold Dom.querySelector. intros H.
  apply elem_of_querySelectorAll. by apply head_Some_elem_of.
Qed.

End DomFacts.

(** ** Startup: the animation duration *)

Section Duration.

Lemma endsWith_cons (c : ascii) (v suffix : string) :
  JS.endsWith (String c v) suffix
  = if String.eqb (String c v) suffix then true else JS.endsWith v suffix.
Proof. reflexivity. Qed.

Lemma endsWith_ms_s (v : string) : JS.endsWith v "ms" = true → JS.endsWith v "s" = true.
Proof.
  induction v as [|c v IH]; [discriminate|].
  rewrite !endsWith_cons.
  destruct (String.eqb (String c v) "ms") eqn:E.
  - apply String.eqb_eq in E. injection E as -> ->. reflexivity.
  - intros H. destruct (String.eqb (String c v) "s"); [done|]. auto.
Qed.

(** C3 (the code departs from it): the milliseconds branch of [init] is
    never taken.  A value that ends in [ms] also ends in [s], so it is
    read as seconds and scaled by 1000: ["600ms"] gives 600000 ms, not
    600 ms. *)
Theorem milliseconds_suffix_read_as_seconds (value : string) (s : State) :
  JS.endsWith (JS.trim value) "ms" = true →
  TRANSITION_DURATION (readDuration value s)
  = JS.mul (JS.parseFloat (JS.trim value)) (JS.of_Z 1000).
Proof.
  intros H. unfold readDuration. rewrite (endsWith_ms_s _ H). reflexivity.
Qed.

Lemma milliseconds_suffix_read_as_seconds_witness :
  TRANSITION_DURATION (readDuration "600ms" (initial Sample.page 1200)) = JS.of_Z 600000.
Proof.
  rewrite (milliseconds_suffix_read_as_seconds "600ms" (initial Sample.page 1200));
    reflexivity.
Defined.

Lemma readDuration_no_suffix (value : string) (s : State) :
  JS.endsWith (JS.trim value) "s" = false → readDuration value s = s.
Proof.
  intros H. unfold readDuration. rewrite H.
  destruct (JS.endsWith (JS.trim value) "ms") eqn:E; [|done].
  apply endsWith_ms_s in E. congruence.
Qed.

(** In floating point too, [0.6 * 1000] is exactly 600. *)
Example duration_seconds (s : State) :
  TRANSITION_DURATION (readDuration "0.6s" s) = JS.of_Z 600.
Proof. reflexivity. Qed.

Example duration_absent (d : list Dom.Node) (w : Z) :
  TRANSITION_DURATION (readDuration "" (initial d w)) = JS.of_Z 600.
Proof. reflexivity. Qed.

Example duration_unparsable (s : State) :
  TRANSITION_DURATION (readDuration "fast" s) = TRANSITION_DURATION s
  ∧ TRANSITION_DURATION (readDuration "slows" s) = JS.NaN.
Proof. split; reflexivity. Qed.

(** The same at page load, and the delay the collapse timer then gets. *)
Example duration_600ms_is_600000 :
  TRANSITION_DURATION (boot Sample.page 1200 "600ms") = JS.of_Z 600000
  ∧ JS.timeout_ms (TRANSITION_DURATION (boot Sample.page 1200 "600ms")) = 600000%N.
Proof. split; vm_compute; reflexivity. Qed.

End Duration.

(** ** Mode switches: the desktop machine is inert at mobile width *)

Section ModeSwitch.

Variable pg : Page.

Lemma hideDropdowns_mobile (s : State) :
  isMobileMode s = true → hideDropdowns pg s = Ok s.
Proof. intros H. unfold hideDropdowns. rewrite H. reflexivity. Qed.

Lemma showDropdown_mobile (dropdownId : option string) (button : option nat) (s : State) :
  isMobileMode s = true → showDropdown pg dropdownId button s = Ok s.
Proof. intros H. unfold showDropdown. rewrite H. reflexivity. Qed.

(** At mobile width the resize handler changes nothing, whether or not a
    dropdown is open: its only action there is [hideDropdowns], which
    returns at once. *)
Lemma handleResize_mobile (s : State) :
  isMobileMode s = true → handleResize pg s = Ok s.
Proof.
  intros H. unfold handleResize. rewrite H.
  case_bool_decide; [by apply hideDropdowns_mobile | reflexivity].
Qed.

(** So does the document's click listener, the "mobile fallback" of
    [init], which acts at mobile width only. *)
Lemma documentClick_inert (target : nat) (s : State) :
  state_of (documentClick pg target s) = s.
Proof.
  unfold documentClick. destruct (isMobileMode s) eqn:Hm; [|reflexivity].
  cbn [andb]. case_bool_decide; [|reflexivity].
  destruct (menuWrapper pg); [|reflexivity].
  destruct (negb _); [|reflexivity]. by rewrite hideDropdowns_mobile.
Qed.

(** The Escape key: the mobile panel first, then the dropdown, and nothing
    else is run in either case. *)
Lemma escape_mobile_menu (shiftKey : bool) (s : State) :
  mobileMenuOpen s = true →
  handleKeyboardNavigation pg "Escape" shiftKey s = closeMobileMenu pg (preventDefault s).
Proof. intros H. unfold handleKeyboardNavigation. simpl. rewrite H. reflexivity. Qed.

Lemma escape_dropdown (shiftKey : bool) (s : State) (open : nat) :
  mobileMenuOpen s = false →
  currentOpenDropdown s = Some open →
  handleKeyboardNavigation pg "Escape" shiftKey s
  = (hideDropdowns pg ;; lift focusLast)%M (preventDefault s).
Proof.
  intros H1 H2. unfold handleKeyboardNavigation. simpl. rewrite H1, H2.
  rewrite bool_decide_eq_true_2 by eauto. reflexivity.
Qed.

End ModeSwitch.

(** C1 (the code departs from it): when the debounced resize handler
    fires at mobile width, the turn of the event loop removes the fired
    timer and does nothing else.  A dropdown that was open stays open:
    the document and the open-dropdown reference are what they were. *)
Theorem resize_settle_at_mobile_width_changes_nothing (pg : Page) (s : State)
    (h : nat) (t : Timer) :
  List.find (λ t, Nat.eqb (handle t) h) (timers s) = Some t →
  callback t = CbResize →
  (due t ≤ clock s)%N →
  isMobileMode s = true →
  ∃ s', step pg (TimerFires h) s = Some s'
        ∧ s' = clearTimeout (Some h) s
        ∧ doc s' = doc s
        ∧ currentOpenDropdown s' = currentOpenDropdown s.
Proof.
  intros Hfind Hcb Hdue Hm. exists (clearTimeout (Some h) s).
  split; [|done]. cbn [step]. rewrite Hfind, Hcb.
  rewrite (proj2 (N.leb_le _ _) Hdue). cbn [runCallback].
  by rewrite handleResize_mobile.
Qed.

Lemma resize_settle_at_mobile_width_changes_nothing_witness :
  currentOpenDropdown Sample.resized = Some 4%nat
  ∧ active Sample.resized 4 = true
  ∧ ∃ s', step Sample.pg (TimerFires 1) Sample.resized = Some s'
          ∧ doc s' = doc Sample.resized
          ∧ currentOpenDropdown s' = Some 4%nat.
Proof.
  assert (H1 : currentOpenDropdown Sample.resized = Some 4%nat) by (vm_compute; reflexivity).
  split; [exact H1|]. split; [vm_compute; reflexivity|].
  destruct (resize_settle_at_mobile_width_changes_nothing Sample.pg Sample.resized 1
              (mkTimer 1 200 CbResize)) as (s' & Hs' & _ & Hd & Hc).
  - vm_compute. reflexivity.
  - reflexivity.
  - vm_compute. intros E. discriminate E.
  - vm_compute. reflexivity.
  - exists s'. split; [exact Hs'|]. split; [exact Hd|]. rewrite Hc. exact H1.
Defined.

(** The whole run: click on trigger 1, resize to 500 px, 200 ms, the
    resize timer.  Panel (4), area (3) and backdrop (9) are still active
    and no timer is left that could close them. *)
Example resize_to_mobile_keeps_dropdown_open :
  (λ s, (isMobileMode s, timers s, currentOpenDropdown s,
         active s 4, active s 3, active s 9))
    <$> run Sample.pg [Click 1; Resize 500; Elapse 200; TimerFires 1] Sample.desktop
  = Some (true, [], Some 4%nat, true, true, true).
Proof. vm_compute. reflexivity. Qed.

(** C8 (the code departs from it): at mobile width, Escape with a dropdown
    open and the mobile panel closed prevents the default action and
    moves the focus to the recorded trigger, and that is all: the
    dropdown is not closed, for [hideDropdowns] returns at once. *)
Theorem escape_at_mobile_width_only_moves_focus (pg : Page) (s : State) (open : nat)
    (shiftKey : bool) :
  isMobileMode s = true →
  mobileMenuOpen s = false →
  currentOpenDropdown s = Some open →
  handleKeyboardNavigation pg "Escape" shiftKey s = Ok (focusLast (preventDefault s))
  ∧ doc (focusLast (preventDefault s)) = doc s
  ∧ currentOpenDropdown (focusLast (preventDefault s)) = Some open
  ∧ timers (focusLast (preventDefault s)) = timers s.
Proof.
  intros Hm Hmenu Hopen.
  assert (Hf : ∀ s0, doc (focusLast s0) = doc s0
                     ∧ currentOpenDropdown (focusLast s0) = currentOpenDropdown s0
                     ∧ timers (focusLast s0) = timers s0).
  { intros s0. unfold focusLast. by destruct (lastFocusedElement s0). }
  destruct (Hf (preventDefault s)) as (Hd & Hc & Ht).
  split_and!; [| exact Hd | by rewrite Hc | exact Ht].
  rewrite (escape_dropdown pg shiftKey s open) by done.
  unfold andThen. by rewrite hideDropdowns_mobile.
Qed.

Lemma escape_at_mobile_width_only_moves_focus_witness :
  active Sample.settled 4 = true
  ∧ ∃ s', handleKeyboardNavigation Sample.pg "Escape" false Sample.settled = Ok s'
          ∧ activeElement s' = Some 1%nat
          ∧ doc s' = doc Sample.settled
          ∧ currentOpenDropdown s' = Some 4%nat.
Proof.
  split; [vm_compute; reflexivity|].
  destruct (escape_at_mobile_width_only_moves_focus Sample.pg Sample.settled 4 false)
    as (H & Hd & Hc & _).
  - vm_compute. reflexivity.
  - vm_compute. reflexivity.
  - vm_compute. reflexivity.
  - eexists. split; [exact H|]. split; [vm_compute; reflexivity|].
    split; [exact Hd | exact Hc].
Defined.

(** The whole run, through the event loop. *)
Example escape_at_mobile_width_keeps_dropdown_open :
  (λ s, (defaultPrevented s, activeElement s, timers s, currentOpenDropdown s,
         active s 4, active s 3, active s 9))
    <$> run Sample.pg
          [Click 1; Resize 500; Elapse 200; TimerFires 1; Keydown "Escape" false]
          Sample.desktop
  = Some (true, Some 1%nat, [], Some 4%nat, true, true, true).
Proof. vm_compute. reflexivity. Qed.

(** For comparison, the same key at desktop width starts the close. *)
Example escape_at_desktop_width :
  (λ s, (activeElement s, timers s, currentOpenDropdown s, active s 4, active s 3, active s 9))
    <$> run Sample.pg [Click 1; Keydown "Escape" false; Elapse 600; TimerFires 1]
          Sample.desktop
  = Some (Some 1%nat, [], None, false, false, false).
Proof. vm_compute. reflexivity. Qed.

(** ** Effects of the element operations *)

Section Elements.

Implicit Types (s : State) (n m : nat) (c k v : string).

Lemma active_classList_add_same n s :
  is_Some (doc s !! n) → active (classList_add "active" n s) n = true.
Proof.
  intros [nd H]. unfold active, classList_add. simpl.
  rewrite list_lookup_alter_eq, H. simpl.
  apply bool_decide_eq_true. simpl. apply elem_of_union. right. by apply elem_of_singleton.
Qed.

Lemma active_classList_add_ne c n s m :
  n ≠ m → active (classList_add c n s) m = active s m.
Proof.
  intros H. unfold active, classList_add. simpl.
  by rewrite list_lookup_alter_ne.
Qed.

Lemma active_classList_add_mono c n s m :
  active s m = true → active (classList_add c n s) m = true.
Proof.
  unfold active, classList_add. simpl. rewrite list_lookup_alter.
  case_decide; subst; [|done].
  destruct (doc s !! m); simpl; [|done].
  unfold Dom.has_class. rewrite !bool_decide_eq_true. simpl.
  intros H. apply elem_of_union. by left.
Qed.

Lemma active_classList_add_inv c n s m :
  active (classList_add c n s) m = true → n = m ∨ active s m = true.
Proof.
  destruct (decide (n = m)) as [|Hne]; [by left|].
  rewrite active_classList_add_ne by done. by right.
Qed.

Lemma active_classList_remove_same n s :
  active (classList_remove "active" n s) n = false.
Proof.
  unfold active, classList_remove. simpl. rewrite list_lookup_alter_eq.
  destruct (doc s !! n); simpl; [|done].
  apply bool_decide_eq_false. simpl. rewrite elem_of_difference, elem_of_singleton.
  intros [_ H]. by apply H.
Qed.

Lemma active_classList_remove_ne c n s m :
  n ≠ m → active (classList_remove c n s) m = active s m.
Proof.
  intros H. unfold active, classList_remove. simpl.
  by rewrite list_lookup_alter_ne.
Qed.

Lemma active_classList_remove_anti c n s m :
  active (classList_remove c n s) m = true → active s m = true.
Proof.
  unfold active, classList_remove. simpl. rewrite list_lookup_alter.
  case_decide; subst; [|done].
  destruct (doc s !! m); simpl; [|done].
  unfold Dom.has_class. rewrite !bool_decide_eq_true. simpl.
  rewrite elem_of_difference. by intros [H _].
Qed.

Lemma active_setAttribute k v n s m : active (setAttribute k v n s) m = active s m.
Proof.
  unfold active, setAttribute. simpl. rewrite list_lookup_alter.
  case_decide; subst; [|done]. by destruct (doc s !! m).
Qed.

Lemma attr_classList_add k c n s m : attr k (classList_add c n s) m = attr k s m.
Proof.
  unfold attr, Dom.getAttribute, classList_add. simpl. rewrite list_lookup_alter.
  case_decide; subst; [|done]. by destruct (doc s !! m).
Qed.

Lemma attr_classList_remove k c n s m : attr k (classList_remove c n s) m = attr k s m.
Proof.
  unfold attr, Dom.getAttribute, classList_remove. simpl. rewrite list_lookup_alter.
  case_decide; subst; [|done]. by destruct (doc s !! m).
Qed.

Lemma attr_setAttribute_same k v n s :
  is_Some (doc s !! n) → attr k (setAttribute k v n s) n = Some v.
Proof.
  intros [nd H]. unfold attr, Dom.getAttribute, setAttribute. simpl.
  rewrite list_lookup_alter_eq, H. simpl. apply lookup_insert_eq.
Qed.

Lemma attr_setAttribute_ne_node k k' v n s m :
  n ≠ m → attr k' (setAttribute k v n s) m = attr k' s m.
Proof.
  intros H. unfold attr, Dom.getAttribute, setAttribute. simpl.
  by rewrite list_lookup_alter_ne.
Qed.

Lemma attr_setAttribute_ne_key k k' v n s m :
  k ≠ k' → attr k' (setAttribute k v n s) m = attr k' s m.
Proof.
  intros H. unfold attr, Dom.getAttribute, setAttribute. simpl.
  rewrite list_lookup_alter. case_decide; subst; [|done].
  destruct (doc s !! m); simpl; [|done]. by apply lookup_insert_ne.
Qed.

(** Writing the value an attribute already has leaves it in place. *)
Lemma attr_setAttribute_keep k k' v v' n s m :
  attr k' s m = Some v' → (k = k' → v = v') → attr k' (setAttribute k v n s) m = Some v'.
Proof.
  intros H Hv. destruct (decide (k = k')) as [->|Hk].
  - destruct (decide (n = m)) as [->|Hn].
    + rewrite attr_setAttribute_same, Hv; [done..|].
      unfold attr, Dom.getAttribute in H. destruct (doc s !! m); [eauto|done].
    + by rewrite attr_setAttribute_ne_node.
  - by rewrite attr_setAttribute_ne_key.
Qed.

Lemma lookup_classList_add c n s m :
  is_Some (doc (classList_add c n s) !! m) ↔ is_Some (doc s !! m).
Proof.
  unfold classList_add. simpl. rewrite list_lookup_alter.
  case_decide; subst; [|done]. by rewrite fmap_is_Some.
Qed.

Lemma lookup_classList_remove c n s m :
  is_Some (doc (classList_remove c n s) !! m) ↔ is_Some (doc s !! m).
Proof.
  unfold classList_remove. simpl. rewrite list_lookup_alter.
  case_decide; subst; [|done]. by rewrite fmap_is_Some.
Qed.

Lemma lookup_setAttribute k v n s m :
  is_Some (doc (setAttribute k v n s) !! m) ↔ is_Some (doc s !! m).
Proof.
  unfold setAttribute. simpl. rewrite list_lookup_alter.
  case_decide; subst; [|done]. by rewrite fmap_is_Some.
Qed.

(** [forEach]: an invariant of the body is an invariant of the loop, and
    what the body establishes for its own element and keeps for the
    others holds for every element visited. *)
Lemma forEach_ind (P : State → Prop) (f : nat → State → State) (l : list nat) s :
  P s → (∀ n s, n ∈ l → P s → P (f n s)) → P (forEach l f s).
Proof.
  unfold forEach. revert s. induction l as [|n l IH]; intros s H Hf; simpl; [done|].
  apply IH.
  - apply Hf; [left | done].
  - intros n' s' Hn'. apply Hf. by right.
Qed.

Lemma forEach_establish (I : State → Prop) (Q : nat → State → Prop)
    (f : nat → State → State) (l : list nat) s :
  I s →
  (∀ n s, I s → I (f n s)) →
  (∀ n s, n ∈ l → I s → Q n (f n s)) →
  (∀ n m s, I s → Q n s → Q n (f m s)) →
  ∀ n, n ∈ l → Q n (forEach l f s).
Proof.
  intros HI Hinv Hest Hkeep. unfold forEach. revert s HI.
  induction l as [|m l IH]; intros s HI n Hn; simpl.
  - inversion Hn.
  - apply elem_of_cons in Hn as [-> | Hn].
    + assert (HQ : Q m (f m s)) by (apply Hest; [left | done]).
      assert (HI' : I (f m s)) by auto.
      clear -HQ HI' Hinv Hkeep. revert HQ HI'. generalize (f m s).
      induction l as [|x l IHl]; intros s0 HQ HI; simpl; [done|].
      apply IHl; auto.
    + apply IH; auto. intros n' s' Hn'. apply Hest. by right.
Qed.

End Elements.

(** ** What the script never writes *)

Section Shape.

Implicit Types (s : State) (d : list Dom.Node) (n m : nat) (c k v : string).

Lemma skeleton_alter (f : Dom.Node → Dom.Node) n d :
  (∀ nd, skeleton (f nd) = skeleton nd) → skeleton <$> alter f n d = skeleton <$> d.
Proof.
  intros Hf. revert n. induction d as [|nd d IH]; intros [|n]; simpl; [done..| |].
  - by rewrite Hf.
  - f_equal. apply IH.
Qed.

Lemma shape_classList_add c n s : c ≠ "dropdown" → shape (classList_add c n s) = shape s.
Proof.
  intros Hc. apply skeleton_alter. intros nd. unfold skeleton. simpl. f_equal.
  apply bool_decide_ext. cbn [Dom.classList Dom.add_class].
  rewrite elem_of_union, elem_of_singleton.
  split; [intros [H|H]; [exact H | by destruct Hc] | by left].
Qed.

Lemma shape_classList_remove c n s : c ≠ "dropdown" → shape (classList_remove c n s) = shape s.
Proof.
  intros Hc. apply skeleton_alter. intros nd. unfold skeleton. simpl. f_equal.
  apply bool_decide_ext. cbn [Dom.classList Dom.remove_class].
  rewrite elem_of_difference, elem_of_singleton.
  split; [by intros [H _] | intros H; split; [exact H | by intros <-]].
Qed.

Lemma shape_setAttribute k v n s : k ≠ "id" → shape (setAttribute k v n s) = shape s.
Proof.
  intros Hk. apply skeleton_alter. intros nd. unfold skeleton. simpl.
  by rewrite lookup_insert_ne.
Qed.

Lemma shape_forEach (f : nat → State → State) (l : list nat) s :
  (∀ n s, shape (f n s) = shape s) → shape (forEach l f s) = shape s.
Proof.
  intros Hf. apply (forEach_ind (λ s', shape s' = shape s)); [done|].
  intros n s' _ <-. apply Hf.
Qed.


Lemma select_from_skeleton (p : Dom.Node → bool) (k : nat) d d' :
  (∀ nd nd', skeleton nd = skeleton nd' → p nd = p nd') →
  skeleton <$> d = skeleton <$> d' →
  Dom.select_from p k d = Dom.select_from p k d'.
Proof.
  intros Hp. revert k d'. induction d as [|nd d IH]; intros k [|nd' d'] H;
    try discriminate H; [done|].
  rewrite !fmap_cons in H.
  assert (Hn : skeleton nd = skeleton nd') by congruence.
  assert (Hd : skeleton <$> d = skeleton <$> d') by congruence.
  simpl. rewrite (Hp _ _ Hn), (IH (S k) d' Hd). done.
Qed.

Lemma path_from_skeleton d d' fuel n :
  skeleton <$> d = skeleton <$> d' → Dom.path_from d fuel n = Dom.path_from d' fuel n.
Proof.
  intros H. revert n. induction fuel as [|fuel IH]; intros n; simpl; [done|].
  pose proof (f_equal (λ l, l !! n) H) as Hn. simpl in Hn.
  rewrite !list_lookup_fmap in Hn.
  destruct (d !! n) as [nd|], (d' !! n) as [nd'|]; simpl in Hn; try discriminate; [|done].
  assert (Hp : Dom.parentNode nd = Dom.parentNode nd').
  { unfold skeleton in Hn. congruence. }
  rewrite Hp. destruct (Dom.parentNode nd'); [by rewrite IH | done].
Qed.

Lemma path_skeleton d d' n :
  skeleton <$> d = skeleton <$> d' → Dom.path d n = Dom.path d' n.
Proof.
  intros H. unfold Dom.path.
  rewrite <- (length_fmap skeleton d), H, length_fmap.
  by apply path_from_skeleton.
Qed.

Lemma dropdowns_shape s s' : shape s = shape s' → dropdowns s = dropdowns s'.
Proof.
  intros H. apply select_from_skeleton; [|done].
  intros nd nd' Hn. unfold skeleton in Hn. congruence.
Qed.

Lemma links_shape s s' e : shape s = shape s' → Dom.links (doc s) e = Dom.links (doc s') e.
Proof.
  intros H. unfold Dom.links, Dom.querySelectorAll.
  rewrite (select_from_skeleton _ _ (doc s) (doc s')); [|
    intros nd nd' Hn; unfold skeleton in Hn;
    unfold Dom.has_tag; apply bool_decide_ext; split; congruence | done].
  apply filter_ext. intros i. unfold Dom.contains.
  by rewrite (path_skeleton (doc s) (doc s')).
Qed.

Lemma getElementById_shape s s' i :
  shape s = shape s' → Dom.getElementById i (doc s) = Dom.getElementById i (doc s').
Proof.
  intros H. unfold Dom.getElementById, Dom.querySelector, Dom.querySelectorAll.
  f_equal. apply select_from_skeleton; [|done].
  intros nd nd' Hn. unfold skeleton in Hn.
  unfold Dom.has_id. apply bool_decide_ext. split; congruence.
Qed.

Lemma links_in_range d e l : l ∈ Dom.links d e → is_Some (d !! l).
Proof.
  unfold Dom.links. rewrite elem_of_filterb, elem_of_querySelectorAll.
  intros [(nd & H & _) _]. eauto.
Qed.

Lemma dropdowns_in_range s n : n ∈ dropdowns s → is_Some (doc s !! n).
Proof. unfold dropdowns. rewrite elem_of_querySelectorAll. intros (nd & H & _). eauto. Qed.

Lemma getElementById_in_range d i n : Dom.getElementById i d = Some n → is_Some (d !! n).
Proof. intros H. apply querySelector_Some in H as (nd & H & _). eauto. Qed.

End Shape.

(** ** The mobile accordion *)

Section Accordion.

Variable pg : Page.



Lemma accordionKeys_mobile (button : nat) (nd : Dom.Node) (s : State) :
  isMobileMode s = true →
  doc s !! button = Some nd →
  Dom.has_class "mobile-accordion-button" nd = true →
  accordionKeys "Enter" (Some button) s = toggleMobileAccordion button (preventDefault s).
Proof.
  intros Hm Hn Hc. unfold accordionKeys, focused_matches. simpl.
  rewrite Hm, Hn, Hc. reflexivity.
Qed.


End Accordion.


(** ** Hiding: the immediate phase *)

Section Hiding.

Variable pg : Page.

Implicit Types (s : State) (n m btn : nat).

Lemma rest_forEach (f : nat → State → State) (l : list nat) s :
  (∀ n s, rest (f n s) = rest s) → rest (forEach l f s) = rest s.
Proof.
  intros Hf. apply (forEach_ind (λ s', rest s' = rest s)); [done|].
  intros n s' _ <-. apply Hf.
Qed.

Lemma lookup_forEach (f : nat → State → State) (l : list nat) s m :
  (∀ n s, is_Some (doc (f n s) !! m) ↔ is_Some (doc s !! m)) →
  is_Some (doc (forEach l f s) !! m) ↔ is_Some (doc s !! m).
Proof.
  intros Hf. apply (forEach_ind (λ s', is_Some (doc s' !! m) ↔ is_Some (doc s !! m))); [done|].
  intros n s' _ <-. apply Hf.
Qed.

Lemma active_deactivateButton_anti btn s m :
  active (deactivateButton btn s) m = true → active s m = true.
Proof.
  unfold deactivateButton. rewrite active_setAttribute.
  apply active_classList_remove_anti.
Qed.

Lemma active_deactivateButton_same btn s : active (deactivateButton btn s) btn = false.
Proof.
  unfold deactivateButton. rewrite active_setAttribute.
  apply active_classList_remove_same.
Qed.

Lemma lookup_deactivateButton btn s m :
  is_Some (doc (deactivateButton btn s) !! m) ↔ is_Some (doc s !! m).
Proof. unfold deactivateButton. by rewrite lookup_setAttribute, lookup_classList_remove. Qed.

Lemma expanded_deactivateButton_same btn s :
  is_Some (doc s !! btn) → attr "aria-expanded" (deactivateButton btn s) btn = Some "false".
Proof.
  intros H. unfold deactivateButton. apply attr_setAttribute_same.
  by apply lookup_classList_remove.
Qed.

Lemma expanded_deactivateButton_keep btn s m :
  attr "aria-expanded" s m = Some "false" →
  attr "aria-expanded" (deactivateButton btn s) m = Some "false".
Proof.
  intros H. unfold deactivateButton. apply attr_setAttribute_keep; [|done].
  by rewrite attr_classList_remove.
Qed.

Lemma attr_deactivateButton k btn s m :
  k ≠ "aria-expanded" → attr k (deactivateButton btn s) m = attr k s m.
Proof.
  intros H. unfold deactivateButton.
  rewrite attr_setAttribute_ne_key by done. apply attr_classList_remove.
Qed.

Lemma shape_deactivateButton btn s : shape (deactivateButton btn s) = shape s.
Proof.
  unfold deactivateButton.
  rewrite shape_setAttribute by done. by apply shape_classList_remove.
Qed.

Lemma rest_deactivateButtons s : rest (deactivateButtons pg s) = rest s.
Proof. by apply rest_forEach. Qed.

Lemma shape_deactivateButtons s : shape (deactivateButtons pg s) = shape s.
Proof. apply shape_forEach. intros. apply shape_deactivateButton. Qed.

Lemma lookup_deactivateButtons s m :
  is_Some (doc (deactivateButtons pg s) !! m) ↔ is_Some (doc s !! m).
Proof. apply lookup_forEach. intros. apply lookup_deactivateButton. Qed.

Lemma active_deactivateButtons_anti s m :
  active (deactivateButtons pg s) m = true → active s m = true.
Proof.
  apply (forEach_ind (λ s', active s' m = true → active s m = true)); [done|].
  intros n s' _ IH H. by apply IH, (active_deactivateButton_anti n).
Qed.

Lemma attr_deactivateButtons k s m :
  k ≠ "aria-expanded" → attr k (deactivateButtons pg s) m = attr k s m.
Proof.
  intros Hk. apply (forEach_ind (λ s', attr k s' m = attr k s m)); [done|].
  intros n s' _ <-. by apply attr_deactivateButton.
Qed.

Lemma deactivateButtons_spec s btn :
  btn ∈ menuButtons pg →
  active (deactivateButtons pg s) btn = false
  ∧ (is_Some (doc s !! btn) → attr "aria-expanded" (deactivateButtons pg s) btn = Some "false").
Proof.
  intros Hbtn.
  apply (forEach_establish
           (λ s', ∀ m, is_Some (doc s' !! m) ↔ is_Some (doc s !! m))
           (λ b s', active s' b = false
                    ∧ (is_Some (doc s !! b) → attr "aria-expanded" s' b = Some "false")));
    [done | | | | done].
  - intros n s' IH m. by rewrite lookup_deactivateButton.
  - intros n s' _ IH. split; [apply active_deactivateButton_same|].
    intros H. apply expanded_deactivateButton_same. by apply IH.
  - intros n m s' IH [Ha He]. split.
    + destruct (active (deactivateButton m s') n) eqn:E; [|done].
      apply active_deactivateButton_anti in E. congruence.
    + intros H. by apply expanded_deactivateButton_keep, He.
Qed.

Lemma hideDropdowns_desktop a b s :
  isMobileMode s = false →
  dropdownArea pg = Some a →
  backdrop pg = Some b →
  hideDropdowns pg s = Ok (closing pg a b s).
Proof.
  intros Hm Ha Hb. unfold hideDropdowns, closing. rewrite Hm, Ha, Hb. reflexivity.
Qed.

Lemma rest_closing a b s :
  rest (closing pg a b s)
  = set_dropdownTimeout (Some (nextHandle s))
      (snd (setTimeout CbCollapse (TRANSITION_DURATION s) (rest s))).
Proof.
  unfold closing.
  set (s' := deactivateButtons pg _).
  assert (H : rest s' = rest s) by (subst s'; by rewrite rest_deactivateButtons).
  transitivity (set_dropdownTimeout (Some (nextHandle (rest s')))
                  (snd (setTimeout CbCollapse (TRANSITION_DURATION (rest s')) (rest s'))));
    [reflexivity|].
  rewrite H. reflexivity.
Qed.

Lemma shape_closing a b s : shape (closing pg a b s) = shape s.
Proof.
  unfold closing. unfold shape at 1. simpl. fold (shape (deactivateButtons pg
    (classList_remove "active" b (classList_remove "active" a s)))).
  by rewrite shape_deactivateButtons, !shape_classList_remove.
Qed.

Lemma active_closing_anti a b s m : active (closing pg a b s) m = true → active s m = true.
Proof.
  unfold closing, active at 1. simpl.
  intros H. apply active_deactivateButtons_anti in H.
  by do 2 apply active_classList_remove_anti in H.
Qed.

Lemma attr_closing k a b s m :
  k ≠ "aria-expanded" → attr k (closing pg a b s) m = attr k s m.
Proof.
  intros Hk. unfold closing, attr at 1. simpl.
  fold (attr k (deactivateButtons pg
    (classList_remove "active" b (classList_remove "active" a s))) m).
  by rewrite attr_deactivateButtons, !attr_classList_remove.
Qed.

(** What a hide request does at once: area, backdrop and triggers are
    deactivated and marked collapsed. *)
Lemma closing_immediate a b s :
  active (closing pg a b s) a = false
  ∧ active (closing pg a b s) b = false
  ∧ ∀ btn, btn ∈ menuButtons pg →
      active (closing pg a b s) btn = false
      ∧ (is_Some (doc s !! btn) → attr "aria-expanded" (closing pg a b s) btn = Some "false").
Proof.
  assert (Hanti : ∀ m s0, active s0 m = false → active (deactivateButtons pg s0) m = false).
  { intros m s0 H. destruct (active (deactivateButtons pg s0) m) eqn:E; [|done].
    apply active_deactivateButtons_anti in E. congruence. }
  split_and!.
  - unfold closing, active at 1. simpl. apply Hanti.
    destruct (active (classList_remove "active" b (classList_remove "active" a s)) a) eqn:E;
      [|done].
    apply active_classList_remove_anti in E. by rewrite active_classList_remove_same in E.
  - unfold closing, active at 1. simpl. apply Hanti, active_classList_remove_same.
  - intros btn Hbtn. unfold closing, active at 1, attr at 1. simpl.
    destruct (deactivateButtons_spec
                (classList_remove "active" b (classList_remove "active" a s)) btn Hbtn)
      as [H1 H2].
    split; [exact H1|]. intros H. apply H2.
    by rewrite !lookup_classList_remove.
Qed.

End Hiding.

(** ** Hiding: the deferred phase *)

Section Collapse.

Implicit Types (s : State) (n m l : nat) (k v : string).

Lemma enableDropdownLinks_tabLinks : enableDropdownLinks = tabLinks "0".
Proof. reflexivity. Qed.

Lemma disableDropdownLinks_tabLinks : disableDropdownLinks = tabLinks "-1".
Proof. reflexivity. Qed.

Lemma rest_tabLinks v n s : rest (tabLinks v n s) = rest s.
Proof. by apply rest_forEach. Qed.

Lemma shape_tabLinks v n s : shape (tabLinks v n s) = shape s.
Proof. apply shape_forEach. intros. by apply shape_setAttribute. Qed.

Lemma active_tabLinks v n s m : active (tabLinks v n s) m = active s m.
Proof.
  apply (forEach_ind (λ s', active s' m = active s m)); [done|].
  intros x s' _ <-. apply active_setAttribute.
Qed.

Lemma attr_tabLinks_other k v n s m :
  k ≠ "tabindex" → attr k (tabLinks v n s) m = attr k s m.
Proof.
  intros Hk. apply (forEach_ind (λ s', attr k s' m = attr k s m)); [done|].
  intros x s' _ <-. by apply attr_setAttribute_ne_key.
Qed.

Lemma attr_tabLinks_keep v n s m :
  attr "tabindex" s m = Some v → attr "tabindex" (tabLinks v n s) m = Some v.
Proof.
  apply (forEach_ind (λ s', attr "tabindex" s m = Some v → attr "tabindex" s' m = Some v));
    [done|].
  intros x s' _ IH H. by apply attr_setAttribute_keep; [apply IH|].
Qed.

Lemma attr_tabLinks_links v n s l :
  l ∈ Dom.links (doc s) n → attr "tabindex" (tabLinks v n s) l = Some v.
Proof.
  intros Hl. unfold tabLinks.
  apply (forEach_establish
           (λ s', ∀ m, is_Some (doc s' !! m) ↔ is_Some (doc s !! m))
           (λ x s', attr "tabindex" s' x = Some v)); [done | | | | done].
  - intros x s' IH m. by rewrite lookup_setAttribute.
  - intros x s' Hx IH. apply attr_setAttribute_same, IH. by eapply links_in_range.
  - intros x y s' _ H. by apply attr_setAttribute_keep.
Qed.

(** A link that is not below the panel keeps its tabindex. *)
Lemma attr_tabLinks_outside v n s m :
  m ∉ Dom.links (doc s) n → attr "tabindex" (tabLinks v n s) m = attr "tabindex" s m.
Proof.
  intros Hm. unfold tabLinks.
  apply (forEach_ind (λ s', attr "tabindex" s' m = attr "tabindex" s m)); [done|].
  intros x s' Hx <-. apply attr_setAttribute_ne_node. intros ->. done.
Qed.

Lemma collapse_unfold s :
  collapse s = set_currentOpenDropdown None (forEach (dropdowns s) collapseOne s).
Proof. reflexivity. Qed.

Lemma rest_collapseOne n s : rest (collapseOne n s) = rest s.
Proof. unfold collapseOne. by rewrite disableDropdownLinks_tabLinks, rest_tabLinks. Qed.

Lemma shape_collapseOne n s : shape (collapseOne n s) = shape s.
Proof.
  unfold collapseOne.
  by rewrite disableDropdownLinks_tabLinks, shape_tabLinks, shape_classList_remove.
Qed.

Lemma active_collapseOne_anti n s m :
  active (collapseOne n s) m = true → active s m = true.
Proof.
  unfold collapseOne. rewrite disableDropdownLinks_tabLinks, active_tabLinks.
  apply active_classList_remove_anti.
Qed.

Lemma rest_collapse s : rest (collapse s) = set_currentOpenDropdown None (rest s).
Proof.
  rewrite collapse_unfold.
  change (rest (set_currentOpenDropdown None ?x)) with (set_currentOpenDropdown None (rest x)).
  f_equal. apply rest_forEach. intros. apply rest_collapseOne.
Qed.

Lemma shape_collapse s : shape (collapse s) = shape s.
Proof.
  rewrite collapse_unfold.
  change (shape (set_currentOpenDropdown None ?x)) with (shape x).
  apply shape_forEach. intros. apply shape_collapseOne.
Qed.

Lemma active_collapse_anti s m : active (collapse s) m = true → active s m = true.
Proof.
  rewrite collapse_unfold.
  change (active (set_currentOpenDropdown None ?x) m) with (active x m).
  apply (forEach_ind (λ s', active s' m = true → active s m = true)); [done|].
  intros n s' _ IH H. by apply IH, (active_collapseOne_anti n).
Qed.

(** When the collapse closure has run, no panel is active, no link of a
    panel can be reached with the Tab key, and no dropdown is recorded as
    open. *)
Lemma collapse_spec s :
  currentOpenDropdown (collapse s) = None
  ∧ (∀ n, n ∈ dropdowns s → active (collapse s) n = false)
  ∧ (∀ n l, n ∈ dropdowns s → l ∈ Dom.links (doc s) n →
            attr "tabindex" (collapse s) l = Some "-1").
Proof.
  split; [done|].
  assert (H : ∀ n, n ∈ dropdowns s →
            active (forEach (dropdowns s) collapseOne s) n = false
            ∧ ∀ l, l ∈ Dom.links (doc s) n →
                attr "tabindex" (forEach (dropdowns s) collapseOne s) l = Some "-1").
  { apply (forEach_establish
             (λ s', shape s' = shape s)
             (λ n s', active s' n = false
                      ∧ ∀ l, l ∈ Dom.links (doc s) n → attr "tabindex" s' l = Some "-1"));
      [done | | |].
    - intros n s' <-. apply shape_collapseOne.
    - intros n s' _ Hs. split.
      + unfold collapseOne. rewrite disableDropdownLinks_tabLinks, active_tabLinks.
        apply active_classList_remove_same.
      + intros l Hl. unfold collapseOne. rewrite disableDropdownLinks_tabLinks.
        apply attr_tabLinks_links.
        rewrite (links_shape _ s); [done|].
        by rewrite shape_classList_remove.
    - intros n m s' Hs [Ha Hl]. split.
      + destruct (active (collapseOne m s') n) eqn:E; [|done].
        apply active_collapseOne_anti in E. congruence.
      + intros l Hin. unfold collapseOne. rewrite disableDropdownLinks_tabLinks.
        apply attr_tabLinks_keep. rewrite attr_classList_remove. by apply Hl. }
  split.
  - intros n Hn. by apply H.
  - intros n l Hn Hl. by apply (H n Hn).
Qed.

End Collapse.

(** ** Timers *)

Section TimerFacts.

Variable pg : Page.

Implicit Types (s : State) (t : Timer) (h : nat).

Lemma fresh_spec s : fresh s = true ↔ ∀ t, t ∈ timers s → (handle t < nextHandle s)%nat.
Proof.
  unfold fresh. rewrite forallb_forall. split; intros H t Ht.
  - apply Nat.ltb_lt, H. by apply list_elem_of_In.
  - apply Nat.ltb_lt, H. by apply list_elem_of_In.
Qed.

Lemma find_app_None {A} (f : A → bool) (l l' : list A) :
  List.find f l = None → List.find f (l ++ l') = List.find f l'.
Proof.
  induction l as [|x l IH]; simpl; [done|]. destruct (f x); [discriminate | exact IH].
Qed.

Lemma find_fresh s h :
  fresh s = true → (nextHandle s ≤ h)%nat →
  List.find (λ t, Nat.eqb (handle t) h) (timers s) = None.
Proof.
  intros Hf Hh. destruct (List.find _ _) as [t|] eqn:E; [|done].
  apply find_some in E as [Hin Heq]. apply Nat.eqb_eq in Heq.
  apply list_elem_of_In in Hin. apply (proj1 (fresh_spec s) Hf) in Hin. lia.
Qed.

Lemma filter_live_fresh s h :
  fresh s = true → (nextHandle s ≤ h)%nat → List.filter (live h) (timers s) = timers s.
Proof.
  intros Hf Hh. apply forallb_filter_id. apply forallb_forall. intros t Ht.
  apply list_elem_of_In in Ht. apply (proj1 (fresh_spec s) Hf) in Ht.
  unfold live. apply negb_true_iff, Nat.eqb_neq. lia.
Qed.

Lemma timers_closing a b s :
  timers (closing pg a b s)
  = (timers s ++ [mkTimer (nextHandle s)
                    (clock s + JS.timeout_ms (TRANSITION_DURATION s)) CbCollapse])%list.
Proof. exact (f_equal timers (rest_closing pg a b s)). Qed.

Lemma vars_closing a b s :
  dropdownTimeout (closing pg a b s) = Some (nextHandle s)
  ∧ nextHandle (closing pg a b s) = S (nextHandle s)
  ∧ clock (closing pg a b s) = clock s
  ∧ innerWidth (closing pg a b s) = innerWidth s
  ∧ currentOpenDropdown (closing pg a b s) = currentOpenDropdown s
  ∧ debounceTimeout (closing pg a b s) = debounceTimeout s
  ∧ lastFocusedElement (closing pg a b s) = lastFocusedElement s
  ∧ mobileMenuOpen (closing pg a b s) = mobileMenuOpen s
  ∧ TRANSITION_DURATION (closing pg a b s) = TRANSITION_DURATION s.
Proof.
  pose proof (rest_closing pg a b s) as H. split_and!.
  - exact (f_equal dropdownTimeout H).
  - exact (f_equal nextHandle H).
  - exact (f_equal clock H).
  - exact (f_equal innerWidth H).
  - exact (f_equal currentOpenDropdown H).
  - exact (f_equal debounceTimeout H).
  - exact (f_equal lastFocusedElement H).
  - exact (f_equal mobileMenuOpen H).
  - exact (f_equal TRANSITION_DURATION H).
Qed.

(** The collapse timer of a hide request fires no earlier than the
    animation duration after the request, and then runs [collapse]. *)
Lemma collapse_timer_fires a b s (ms : N) :
  fresh s = true →
  run pg [Elapse ms; TimerFires (nextHandle s)] (closing pg a b s)
  = if (JS.timeout_ms (TRANSITION_DURATION s) <=? ms)%N
    then Some (collapse
                 (clearTimeout (Some (nextHandle s))
                    (set_clock (clock s + ms) (closing pg a b s))))
    else None.
Proof.
  intros Hf. cbn [run step timers set_clock clock]. rewrite timers_closing.
  rewrite find_app_None by (by apply find_fresh).
  cbn [List.find handle due callback]. rewrite Nat.eqb_refl.
  destruct (vars_closing a b s) as (_ & _ & -> & _).
  cbn [due callback runCallback lift state_of].
  replace (clock s + JS.timeout_ms (TRANSITION_DURATION s) <=? clock s + ms)%N
    with (JS.timeout_ms (TRANSITION_DURATION s) <=? ms)%N.
  - by destruct (_ <=? _)%N.
  - destruct (N.leb_spec (JS.timeout_ms (TRANSITION_DURATION s)) ms);
      symmetry; [apply N.leb_le | apply N.leb_gt]; lia.
Qed.

End TimerFacts.

(** ** C7: the two phases of a hide request *)

(** C7, as the code has it: at desktop width, with the area [a] and the
    backdrop [b] present, a hide request on the open panel deactivates
    area, backdrop and triggers at once and leaves every tabindex (and the
    open-dropdown reference) as it was; its collapse timer is due one
    animation duration later and cannot fire before; when it fires, the
    panel is no longer active, its links have tabindex -1 and the
    reference is null. *)
Theorem hide_request_two_phases (pg : Page) (s : State) (a b open : nat) :
  isMobileMode s = false →
  dropdownArea pg = Some a →
  backdrop pg = Some b →
  fresh s = true →
  currentOpenDropdown s = Some open →
  open ∈ dropdowns s →
  let D := JS.timeout_ms (TRANSITION_DURATION s) in
  let h := nextHandle s in
  ∃ s1,
    hideDropdowns pg s = Ok s1
    ∧ active s1 a = false
    ∧ active s1 b = false
    ∧ (∀ btn, btn ∈ menuButtons pg →
         active s1 btn = false
         ∧ (is_Some (doc s !! btn) → attr "aria-expanded" s1 btn = Some "false"))
    ∧ currentOpenDropdown s1 = Some open
    ∧ (∀ l, attr "tabindex" s1 l = attr "tabindex" s l)
    ∧ dropdownTimeout s1 = Some h
    ∧ timers s1 = (timers s ++ [mkTimer h (clock s + D) CbCollapse])%list
    ∧ (∀ ms, (ms < D)%N → run pg [Elapse ms; TimerFires h] s1 = None)
    ∧ (∀ ms, (D ≤ ms)%N →
         ∃ s2, run pg [Elapse ms; TimerFires h] s1 = Some s2
               ∧ active s2 open = false
               ∧ (∀ l, l ∈ Dom.links (doc s) open → attr "tabindex" s2 l = Some "-1")
               ∧ currentOpenDropdown s2 = None).
Proof.
  intros Hm Ha Hb Hf Ho Hin D h. subst h.
  exists (closing pg a b s).
  destruct (closing_immediate pg a b s) as (Hia & Hib & Hibtn).
  destruct (vars_closing pg a b s) as (Hdt & _ & _ & _ & Hcur & _).
  split_and!; auto.
  - by apply hideDropdowns_desktop.
  - congruence.
  - intros l. by apply attr_closing.
  - apply timers_closing.
  - intros ms Hms. rewrite collapse_timer_fires by done.
    fold D. by rewrite (proj2 (N.leb_gt D ms)).
  - intros ms Hms. rewrite collapse_timer_fires by done.
    fold D. rewrite (proj2 (N.leb_le D ms)) by done.
    eexists. split; [reflexivity|].
    set (s1 := clearTimeout _ _).
    assert (Hs : shape s1 = shape s) by apply shape_closing.
    destruct (collapse_spec s1) as (Hc & Hact & Htab).
    rewrite <- (dropdowns_shape _ _ Hs) in Hin.
    split_and!; [by apply Hact | | exact Hc].
    intros l Hl. apply (Htab open); [done|].
    by rewrite (links_shape _ _ open Hs).
Qed.

(** C7 as stated fails: [hideDropdowns] is for desktop only.  With panel 4
    open and the window resized to 500 px, a hide request returns the
    state unchanged: area (3), backdrop (9) and trigger (1) stay active
    and no collapse timer is started. *)
Lemma hide_request_at_mobile_width_does_nothing :
  isMobileMode Sample.settled = true
  ∧ currentOpenDropdown Sample.settled = Some 4%nat
  ∧ hideDropdowns Sample.pg Sample.settled = Ok Sample.settled
  ∧ active Sample.settled 3 = true
  ∧ active Sample.settled 9 = true
  ∧ active Sample.settled 1 = true
  ∧ timers Sample.settled = [].
Proof.
  split_and!; [| | apply hideDropdowns_mobile | ..]; vm_compute; reflexivity.
Qed.

Lemma hide_request_two_phases_witness :
  attr "tabindex" Sample.opened 5 = Some "0"
  ∧ ∃ s1 s2, hideDropdowns Sample.pg Sample.opened = Ok s1
             ∧ attr "tabindex" s1 5 = Some "0"
             ∧ run Sample.pg [Elapse 599; TimerFires 1] s1 = None
             ∧ run Sample.pg [Elapse 600; TimerFires 1] s1 = Some s2
             ∧ attr "tabindex" s2 5 = Some "-1"
             ∧ currentOpenDropdown s2 = None.
Proof.
  assert (Htab0 : attr "tabindex" Sample.opened 5 = Some "0") by (vm_compute; reflexivity).
  assert (Hn : nextHandle Sample.opened = 1%nat) by (vm_compute; reflexivity).
  assert (HD : JS.timeout_ms (TRANSITION_DURATION Sample.opened) = 600%N)
    by (vm_compute; reflexivity).
  split; [exact Htab0|].
  destruct (hide_request_two_phases Sample.pg Sample.opened 3 9 4)
    as (s1 & H1 & _ & _ & _ & _ & Htab & _ & _ & Hbefore & Hafter).
  - vm_compute. reflexivity.
  - reflexivity.
  - reflexivity.
  - vm_compute. reflexivity.
  - vm_compute. reflexivity.
  - by_evaluation.
  - rewrite Hn, HD in *.
    destruct (Hafter 600%N) as (s2 & H2 & _ & Hl & Hc); [reflexivity|].
    exists s1, s2. split_and!; [exact H1 | | | exact H2 | | exact Hc].
    + by rewrite Htab.
    + by apply Hbefore.
    + apply Hl. by_evaluation.
Defined.

(** ** Showing *)

Section Showing.

Variable pg : Page.

Implicit Types (s : State) (n m t a b : nat) (button : option nat).

Lemma rest_clearTimeout_doc h s : doc (clearTimeout h s) = doc s.
Proof. by destruct h. Qed.


(** The panels after the first loop of [showDropdown]. *)
Lemma deactivateDropdowns_spec s n :
  n ∈ dropdowns s → active (forEach (dropdowns s) (classList_remove "active") s) n = false.
Proof.
  apply (forEach_establish (λ _, True) (λ x s', active s' x = false)); [done..| |].
  - intros x s' _ _. apply active_classList_remove_same.
  - intros x y s' _ H. destruct (active (classList_remove "active" y s') x) eqn:E; [|done].
    apply active_classList_remove_anti in E. congruence.
Qed.

Lemma rest_opening a b t button s :
  rest (opening pg a b t button s)
  = match button with
    | Some btn => set_lastFocusedElement (Some btn) (set_currentOpenDropdown (Some t) (rest s))
    | None => set_currentOpenDropdown (Some t) (rest s)
    end.
Proof.
  unfold opening. rewrite enableDropdownLinks_tabLinks, rest_tabLinks.
  set (s1 := forEach _ _ s).
  assert (H1 : rest s1 = rest s) by (by apply rest_forEach).
  assert (H2 : rest (deactivateButtons pg s1) = rest s)
    by (by rewrite rest_deactivateButtons).
  destruct button as [btn|].
  - transitivity (set_lastFocusedElement (Some btn)
                    (set_currentOpenDropdown (Some t) (rest (deactivateButtons pg s1))));
      [reflexivity | by rewrite H2].
  - transitivity (set_currentOpenDropdown (Some t) (rest (deactivateButtons pg s1)));
      [reflexivity | by rewrite H2].
Qed.

Lemma currentOpenDropdown_rest s : currentOpenDropdown (rest s) = currentOpenDropdown s.
Proof. reflexivity. Qed.
Lemma innerWidth_rest s : innerWidth (rest s) = innerWidth s.
Proof. reflexivity. Qed.
Lemma timers_rest s : timers (rest s) = timers s.
Proof. reflexivity. Qed.
Lemma nextHandle_rest s : nextHandle (rest s) = nextHandle s.
Proof. reflexivity. Qed.
Lemma clock_rest s : clock (rest s) = clock s.
Proof. reflexivity. Qed.
Lemma dropdownTimeout_rest s : dropdownTimeout (rest s) = dropdownTimeout s.
Proof. reflexivity. Qed.
Lemma debounceTimeout_rest s : debounceTimeout (rest s) = debounceTimeout s.
Proof. reflexivity. Qed.
Lemma mobileMenuOpen_rest s : mobileMenuOpen (rest s) = mobileMenuOpen s.
Proof. reflexivity. Qed.
Lemma TRANSITION_DURATION_rest s : TRANSITION_DURATION (rest s) = TRANSITION_DURATION s.
Proof. reflexivity. Qed.
Lemma lastFocusedElement_rest s : lastFocusedElement (rest s) = lastFocusedElement s.
Proof. reflexivity. Qed.

Lemma vars_opening a b t button s :
  currentOpenDropdown (opening pg a b t button s) = Some t
  ∧ innerWidth (opening pg a b t button s) = innerWidth s
  ∧ timers (opening pg a b t button s) = timers s
  ∧ nextHandle (opening pg a b t button s) = nextHandle s
  ∧ clock (opening pg a b t button s) = clock s
  ∧ dropdownTimeout (opening pg a b t button s) = dropdownTimeout s
  ∧ debounceTimeout (opening pg a b t button s) = debounceTimeout s
  ∧ mobileMenuOpen (opening pg a b t button s) = mobileMenuOpen s
  ∧ TRANSITION_DURATION (opening pg a b t button s) = TRANSITION_DURATION s
  ∧ (∀ btn, button = Some btn → lastFocusedElement (opening pg a b t button s) = Some btn).
Proof.
  pose proof (rest_opening a b t button s) as H.
  split_and!.
  - rewrite <- currentOpenDropdown_rest, H. by destruct button.
  - rewrite <- innerWidth_rest, H. by destruct button.
  - rewrite <- timers_rest, H. by destruct button.
  - rewrite <- nextHandle_rest, H. by destruct button.
  - rewrite <- clock_rest, H. by destruct button.
  - rewrite <- dropdownTimeout_rest, H. by destruct button.
  - rewrite <- debounceTimeout_rest, H. by destruct button.
  - rewrite <- mobileMenuOpen_rest, H. by destruct button.
  - rewrite <- TRANSITION_DURATION_rest, H. by destruct button.
  - intros btn ->. by rewrite <- lastFocusedElement_rest, H.
Qed.

Lemma shape_opening a b t button s : shape (opening pg a b t button s) = shape s.
Proof.
  unfold opening. rewrite enableDropdownLinks_tabLinks, shape_tabLinks.
  assert (H : ∀ s', shape (classList_add "active" b (classList_add "active" a
                       (classList_add "active" t (deactivateButtons pg s')))) = shape s').
  { intros s'. by rewrite !shape_classList_add, shape_deactivateButtons. }
  destruct button as [btn|].
  - change (shape (set_lastFocusedElement ?o ?x)) with (shape x).
    rewrite shape_setAttribute, shape_classList_add by done.
    change (shape (set_currentOpenDropdown ?o ?x)) with (shape x).
    rewrite H. apply shape_forEach. intros. by apply shape_classList_remove.
  - change (shape (set_currentOpenDropdown ?o ?x)) with (shape x).
    rewrite H. apply shape_forEach. intros. by apply shape_classList_remove.
Qed.

(** After an opening, an active panel is the target, unless the markup
    makes the area, the backdrop or the trigger a panel too. *)
Lemma active_opening_inv a b t button s n :
  n ∈ dropdowns s →
  active (opening pg a b t button s) n = true →
  n = t ∨ n = a ∨ n = b ∨ button = Some n.
Proof.
  intros Hn. unfold opening. rewrite enableDropdownLinks_tabLinks, active_tabLinks.
  assert (H : ∀ o, active (set_currentOpenDropdown o
                (classList_add "active" b (classList_add "active" a
                   (classList_add "active" t (deactivateButtons pg
                      (forEach (dropdowns s) (classList_remove "active") s)))))) n = true →
              n = t ∨ n = a ∨ n = b).
  { intros o. change (active (set_currentOpenDropdown ?o ?x) n) with (active x n).
    intros H.
    apply active_classList_add_inv in H as [<-|H]; [auto|].
    apply active_classList_add_inv in H as [<-|H]; [auto|].
    apply active_classList_add_inv in H as [<-|H]; [auto|].
    apply active_deactivateButtons_anti in H.
    by rewrite deactivateDropdowns_spec in H. }
  destruct button as [btn|].
  - change (active (set_lastFocusedElement ?o ?x) n) with (active x n).
    rewrite active_setAttribute. intros Ha.
    apply active_classList_add_inv in Ha as [<-|Ha]; [auto|].
    apply H in Ha. tauto.
  - intros Ha. apply H in Ha. tauto.
Qed.



(** [showDropdown] at a glance: what it returns when area and backdrop
    exist. *)
Lemma showDropdown_cases a b dropdownId button s :
  dropdownArea pg = Some a →
  backdrop pg = Some b →
  showDropdown pg dropdownId button s
  = Ok (if isMobileMode s then s
        else
          let s' := clearTimeout (dropdownTimeout s) s in
          match Dom.getElementById ("dropdown-" +:+ JS.to_string dropdownId) (doc s) with
          | None => s'
          | Some t =>
              if bool_decide (currentOpenDropdown s = Some t) && bool_decide (is_Some button)
              then closing pg a b s'
              else opening pg a b t button s'
          end).
Proof.
  intros Ha Hb. unfold showDropdown. destruct (isMobileMode s) eqn:Hm; [done|].
  assert (Hd : doc (clearTimeout (dropdownTimeout s) s) = doc s)
    by apply rest_clearTimeout_doc.
  assert (Hc : currentOpenDropdown (clearTimeout (dropdownTimeout s) s)
               = currentOpenDropdown s) by (by destruct (dropdownTimeout s)).
  assert (Hm' : isMobileMode (clearTimeout (dropdownTimeout s) s) = false)
    by (by destruct (dropdownTimeout s)).
  cbv zeta. rewrite Hd, Hc.
  destruct (Dom.getElementById _ (doc s)) as [t|]; [|done].
  destruct (bool_decide (currentOpenDropdown s = Some t) && bool_decide (is_Some button)).
  - by apply hideDropdowns_desktop.
  - unfold andThen, lift, on. rewrite Ha, Hb. unfold opening.
    destruct button; reflexivity.
Qed.

End Showing.

(** ** C5: at most one open panel *)

Section OneOpen.

Variable pg : Page.

Implicit Types (s : State) (n m t a b : nat) (button : option nat).

Lemma AtMostOneOpen_unique s n m :
  AtMostOneOpen s →
  n ∈ dropdowns s → m ∈ dropdowns s → active s n = true → active s m = true → n = m.
Proof.
  intros H Hn Hm Han Ham.
  pose proof (H n Hn Han) as H1. pose proof (H m Hm Ham) as H2. congruence.
Qed.

Lemma AtMostOneOpen_clearTimeout h s : AtMostOneOpen s → AtMostOneOpen (clearTimeout h s).
Proof. by destruct h. Qed.

Lemma AtMostOneOpen_closing a b s : AtMostOneOpen s → AtMostOneOpen (closing pg a b s).
Proof.
  intros H n Hn Ha.
  rewrite (dropdowns_shape _ s) in Hn by apply shape_closing.
  apply active_closing_anti in Ha.
  destruct (vars_closing pg a b s) as (_ & _ & _ & _ & -> & _). by apply H.
Qed.

Lemma AtMostOneOpen_opening a b t button s :
  a ∉ dropdowns s → b ∉ dropdowns s →
  (∀ btn, button = Some btn → btn ∉ dropdowns s) →
  AtMostOneOpen (opening pg a b t button s).
Proof.
  intros Ha Hb Hbtn n Hn Hact.
  rewrite (dropdowns_shape _ s) in Hn by apply shape_opening.
  destruct (vars_opening pg a b t button s) as (-> & _).
  apply active_opening_inv in Hact; [|exact Hn].
  destruct Hact as [-> | [-> | [-> | ->]]]; [done..|].
  by destruct (Hbtn n).
Qed.

Lemma AtMostOneOpen_showDropdown a b dropdownId button s :
  dropdownArea pg = Some a →
  backdrop pg = Some b →
  a ∉ dropdowns s → b ∉ dropdowns s →
  (∀ btn, button = Some btn → btn ∉ dropdowns s) →
  AtMostOneOpen s →
  ∃ s', showDropdown pg dropdownId button s = Ok s'
        ∧ AtMostOneOpen s' ∧ shape s' = shape s.
Proof.
  intros Ha Hb Hna Hnb Hbtn H. rewrite (showDropdown_cases pg a b) by done.
  eexists. split; [reflexivity|].
  destruct (isMobileMode s); [done|]. cbv zeta.
  assert (Hs : shape (clearTimeout (dropdownTimeout s) s) = shape s)
    by (by destruct (dropdownTimeout s)).
  pose proof (dropdowns_shape _ _ Hs) as Hd.
  destruct (Dom.getElementById _ _) as [t|].
  - destruct (_ && _).
    + split; [by apply AtMostOneOpen_closing, AtMostOneOpen_clearTimeout|].
      by rewrite shape_closing.
    + split; [apply AtMostOneOpen_opening; by rewrite ?Hd|].
      by rewrite shape_opening.
  - split; [by apply AtMostOneOpen_clearTimeout | done].
Qed.

Lemma AtMostOneOpen_showAll a b requests s :
  dropdownArea pg = Some a →
  backdrop pg = Some b →
  a ∉ dropdowns s → b ∉ dropdowns s →
  (∀ dropdownId btn, (dropdownId, Some btn) ∈ requests → btn ∉ dropdowns s) →
  AtMostOneOpen s →
  ∃ s', showAll pg requests s = Ok s' ∧ AtMostOneOpen s'.
Proof.
  intros Ha Hb. revert s.
  induction requests as [|[dropdownId button] requests IH]; intros s Hna Hnb Hbtn H.
  - exists s. done.
  - destruct (AtMostOneOpen_showDropdown a b dropdownId button s) as (s1 & H1 & Hs1 & Hsh);
      try done.
    { intros btn ->. apply (Hbtn dropdownId). left. }
    pose proof (dropdowns_shape _ _ Hsh) as Hd.
    destruct (IH s1) as (s' & H' & Hs'); try (by rewrite Hd); try done.
    { intros i btn Hin. rewrite Hd. apply (Hbtn i). by right. }
    exists s'. split; [|done].
    cbn [showAll]. unfold andThen. by rewrite H1.
Qed.

(** C5: from a state in which every active panel is the one recorded as
    open, and on a page whose area, backdrop and triggers are not panels
    themselves, every sequence of show requests completes, and after each
    request every active panel is the one recorded as open; in particular
    no two panels are active. *)
Theorem show_requests_keep_one_open (a b : nat)
    (requests : list (option string * option nat)) (s : State) :
  dropdownArea pg = Some a →
  backdrop pg = Some b →
  a ∉ dropdowns s → b ∉ dropdowns s →
  (∀ dropdownId btn, (dropdownId, Some btn) ∈ requests → btn ∉ dropdowns s) →
  AtMostOneOpen s →
  ∀ k, ∃ s', showAll pg (take k requests) s = Ok s'
             ∧ AtMostOneOpen s'
             ∧ ∀ n m, n ∈ dropdowns s' → m ∈ dropdowns s' →
                      active s' n = true → active s' m = true → n = m.
Proof.
  intros Ha Hb Hna Hnb Hbtn H k.
  destruct (AtMostOneOpen_showAll a b (take k requests) s) as (s' & H1 & H2); try done.
  { intros i btn Hin. apply (Hbtn i). by apply (subseteq_take k requests). }
  exists s'. split_and!; [done..|]. intros n m. by apply AtMostOneOpen_unique.
Qed.

End OneOpen.

Lemma show_requests_keep_one_open_witness :
  isMobileMode Sample.desktop = false
  ∧ ∃ s', showAll Sample.pg
            [(Some "products", Some 1%nat); (Some "about", Some 2%nat);
             (Some "about", Some 2%nat)] Sample.desktop = Ok s'
          ∧ AtMostOneOpen s'.
Proof.
  split; [reflexivity|].
  destruct (show_requests_keep_one_open Sample.pg 3 9
              [(Some "products", Some 1%nat); (Some "about", Some 2%nat);
               (Some "about", Some 2%nat)] Sample.desktop) with (k := 3%nat)
    as (s' & H1 & H2 & _).
  - reflexivity.
  - reflexivity.
  - by_evaluation.
  - by_evaluation.
  - intros i btn Hin.
    repeat (apply elem_of_cons in Hin as [Hin|Hin]; [injection Hin as -> ->; by_evaluation|]).
    inversion Hin.
  - intros n Hn Hact. exfalso.
    assert (Hd : dropdowns Sample.desktop = [4; 7]%nat) by (vm_compute; reflexivity).
    rewrite Hd in Hn.
    clear Hd.
    apply elem_of_cons in Hn as [->|Hn]; [vm_compute in Hact; discriminate Hact|].
    apply elem_of_cons in Hn as [->|Hn]; [vm_compute in Hact; discriminate Hact|].
    inversion Hn.
  - exists s'. split; [exact H1 | exact H2].
Defined.

Example show_requests_run :
  (λ s, (currentOpenDropdown s, active s 4, active s 7))
    (state_of (showAll Sample.pg
                 [(Some "products", Some 1%nat); (Some "about", Some 2%nat)] Sample.desktop))
  = (Some 7%nat, false, true).
Proof. vm_compute. reflexivity. Qed.

(** ** C6: a second request on the open panel *)

Section ToggleOff.

Variable pg : Page.

Implicit Types (s : State) (n m t a b : nat).

Lemma vars_clearTimeout h s :
  doc (clearTimeout h s) = doc s
  ∧ innerWidth (clearTimeout h s) = innerWidth s
  ∧ currentOpenDropdown (clearTimeout h s) = currentOpenDropdown s
  ∧ nextHandle (clearTimeout h s) = nextHandle s
  ∧ clock (clearTimeout h s) = clock s
  ∧ TRANSITION_DURATION (clearTimeout h s) = TRANSITION_DURATION s.
Proof. by destruct h. Qed.


Lemma Closed_collapse s : Closed (collapse s).
Proof.
  destruct (collapse_spec s) as (H1 & H2 & _). split; [done|].
  intros n Hn. apply H2. by rewrite <- (dropdowns_shape _ _ (shape_collapse s)).
Qed.

Lemma active_closing_false a b s m : active s m = false → active (closing pg a b s) m = false.
Proof.
  intros H. destruct (active (closing pg a b s) m) eqn:E; [|done].
  apply active_closing_anti in E. congruence.
Qed.

Lemma active_collapse_false s m : active s m = false → active (collapse s) m = false.
Proof.
  intros H. destruct (active (collapse s) m) eqn:E; [|done].
  apply active_collapse_anti in E. congruence.
Qed.


End ToggleOff.



(** ** What every handler keeps *)

Section Stability.

Variable pg : Page.
Variable P : State → Prop.
Hypothesis HP : Stable P.

Implicit Types (s : State) (m k : M).

Lemma preserves_Ok : preserves P Ok.
Proof. by intros s H. Qed.

Lemma preserves_andThen m k : preserves P m → preserves P k → preserves P (m ;; k)%M.
Proof.
  intros Hm Hk s H. unfold andThen. specialize (Hm s H).
  destruct (m s); simpl in *; [by apply Hk | done].
Qed.

Lemma preserves_lift (f : State → State) : (∀ s, P s → P (f s)) → preserves P (lift f).
Proof. intros Hf s H. by apply Hf. Qed.

Lemma preserves_on (o : option nat) (f : nat → State → State) :
  (∀ n s, P s → P (f n s)) → preserves P (on o f).
Proof. intros Hf s H. unfold on. destruct o; simpl; auto. Qed.

Lemma keep_core (f : State → State) : (∀ s, core (f s) = core s) → ∀ s, P s → P (f s).
Proof. intros Hf s H. by apply (stable_core P HP s). Qed.

Lemma core_of_rest s s' : rest s' = rest s → core s' = core s.
Proof. intros H. change (core (rest s') = core (rest s)). by rewrite H. Qed.

Lemma core_forEach (f : nat → State → State) (l : list nat) s :
  (∀ n s, core (f n s) = core s) → core (forEach l f s) = core s.
Proof.
  intros Hf. apply (forEach_ind (λ s', core s' = core s)); [done|].
  intros n s' _ <-. apply Hf.
Qed.

Lemma core_deactivateButtons s : core (deactivateButtons pg s) = core s.
Proof. apply core_of_rest, rest_deactivateButtons. Qed.

Lemma core_tabLinks v n s : core (tabLinks v n s) = core s.
Proof. apply core_of_rest, rest_tabLinks. Qed.

Lemma core_collapse s : core (collapse s) = core s.
Proof.
  change (core (rest (collapse s)) = core s). by rewrite rest_collapse.
Qed.

Lemma core_focusLast s : core (focusLast s) = core s.
Proof. unfold focusLast. by destruct (lastFocusedElement s). Qed.

Lemma stable_hideDropdowns : preserves P (hideDropdowns pg).
Proof.
  intros s H. unfold hideDropdowns. destruct (isMobileMode s); [exact H|].
  revert s H. repeat apply preserves_andThen.
  - apply preserves_on. intros n. by apply keep_core.
  - apply preserves_on. intros n. by apply keep_core.
  - apply preserves_lift, keep_core, core_deactivateButtons.
  - apply preserves_lift. intros s H. by apply (stable_close P HP).
Qed.

Lemma stable_showDropdown dropdownId button : preserves P (showDropdown pg dropdownId button).
Proof.
  intros s H. unfold showDropdown. destruct (isMobileMode s); [exact H|]. cbv zeta.
  assert (H' : P (clearTimeout (dropdownTimeout s) s)) by (by apply (stable_clear P HP)).
  revert H'. generalize (clearTimeout (dropdownTimeout s) s). clear s H. intros s H.
  destruct (Dom.getElementById _ _) as [t|]; [|exact H].
  destruct (_ && _); [by apply stable_hideDropdowns|].
  revert s H. repeat apply preserves_andThen.
  - apply preserves_lift. intros s. apply keep_core. intros s'.
    apply core_forEach. by intros.
  - apply preserves_lift, keep_core, core_deactivateButtons.
  - apply preserves_lift. by apply keep_core.
  - apply preserves_on. intros n. by apply keep_core.
  - apply preserves_on. intros n. by apply keep_core.
  - apply preserves_lift. by apply keep_core.
  - apply preserves_lift. destruct button; by apply keep_core.
  - apply preserves_lift, keep_core. intros s.
    rewrite enableDropdownLinks_tabLinks. apply core_tabLinks.
Qed.

Lemma stable_openMobileMenu :
  (∀ s, P s → P (set_mobileMenuOpen true s)) → preserves P (openMobileMenu pg).
Proof.
  intros Hopen s H. unfold openMobileMenu. destruct (negb (isMobileMode s)); [exact H|].
  revert s H. repeat apply preserves_andThen.
  - apply preserves_on. intros n. by apply keep_core.
  - apply preserves_on. intros n. by apply keep_core.
  - apply preserves_on. intros n. by apply keep_core.
  - by apply preserves_lift.
  - apply preserves_lift. by apply keep_core.
  - apply preserves_lift. intros s H. by apply (stable_timer P HP).
Qed.

Lemma stable_closeMobileMenu :
  (∀ s, P s → P (set_mobileMenuOpen false s)) → preserves P (closeMobileMenu pg).
Proof.
  intros Hclose. unfold closeMobileMenu. repeat apply preserves_andThen.
  - apply preserves_on. intros n. by apply keep_core.
  - apply preserves_on. intros n. by apply keep_core.
  - apply preserves_on. intros n. by apply keep_core.
  - by apply preserves_lift.
  - apply preserves_lift. by apply keep_core.
  - apply preserves_on. intros n. by apply keep_core.
Qed.

Lemma stable_toggleMobileAccordion button : preserves P (toggleMobileAccordion button).
Proof.
  intros s H. unfold toggleMobileAccordion.
  destruct (Dom.getElementById _ _); [|exact H].
  destruct (isExpanded button s); simpl; by apply (stable_core P HP s).
Qed.

Lemma stable_accordionKeys key focused : preserves P (accordionKeys key focused).
Proof.
  intros s H. unfold accordionKeys. destruct (_ && _); [|exact H].
  destruct focused as [b|]; [|exact H].
  revert s H. apply preserves_andThen.
  - apply preserves_lift. by apply keep_core.
  - apply stable_toggleMobileAccordion.
Qed.

Lemma stable_tabKeys key shiftKey focused : preserves P (tabKeys pg key shiftKey focused).
Proof.
  intros s H. unfold tabKeys. destruct (currentOpenDropdown s); [|exact H].
  destruct (String.eqb key "Tab"); [|exact H]. cbv zeta.
  destruct (_ && _).
  - simpl. apply (stable_core P HP s); [|exact H].
    by rewrite core_focusLast.
  - destruct (_ && _); [by apply stable_hideDropdowns | exact H].
Qed.

(** The keyboard handler writes the mobile flag only for Escape. *)
Lemma stable_handleKeyboardNavigation key shiftKey :
  (String.eqb key "Escape" = true → ∀ s, P s → P (set_mobileMenuOpen false s)) →
  preserves P (handleKeyboardNavigation pg key shiftKey).
Proof.
  intros Hclose s H. unfold handleKeyboardNavigation. cbv zeta.
  assert (Hrest : ∀ focused, preserves P (λ s,
            if negb (isMobileMode s) then
              if isActivationKey key
                 && focused_matches (Dom.has_attr "data-dropdown") s focused
              then
                match focused with
                | Some b =>
                    if isExpanded b (preventDefault s) then hideDropdowns pg (preventDefault s)
                    else (showDropdown pg (Dom.getAttribute "data-dropdown" (doc s) b) (Some b) ;;
                          lift (λ s, snd (setTimeout CbFocusFirstLink (JS.of_Z 50) s)))%M
                           (preventDefault s)
                | None => Ok s
                end
              else (tabKeys pg key shiftKey focused ;; accordionKeys key focused)%M s
            else accordionKeys key focused s)).
  { intros focused s0 H0. cbv beta. destruct (negb (isMobileMode s0)).
    - destruct (_ && _).
      + destruct focused as [b|]; [|exact H0].
        assert (H1 : P (preventDefault s0)) by (by apply (stable_core P HP s0)).
        destruct (isExpanded b (preventDefault s0)); [by apply stable_hideDropdowns|].
        revert H1. generalize (preventDefault s0). apply preserves_andThen.
        * apply stable_showDropdown.
        * apply preserves_lift. intros s1 H1. by apply (stable_timer P HP).
      + revert s0 H0. apply preserves_andThen;
          [apply stable_tabKeys | apply stable_accordionKeys].
    - by apply stable_accordionKeys. }
  destruct (String.eqb key "Escape") eqn:E; [|by apply Hrest].
  destruct (mobileMenuOpen s).
  - revert s H. apply preserves_andThen.
    + apply preserves_lift. by apply keep_core.
    + apply stable_closeMobileMenu. by apply Hclose.
  - destruct (bool_decide _); [|by apply Hrest].
    revert s H. repeat apply preserves_andThen.
    + apply preserves_lift. by apply keep_core.
    + apply stable_hideDropdowns.
    + apply preserves_lift, keep_core, core_focusLast.
Qed.

Lemma stable_handleMouseEnter target : preserves P (handleMouseEnter target).
Proof.
  intros s H. unfold handleMouseEnter. destruct (isMobileMode s); [exact H|].
  destruct (Dom.closest _ _ _); [|exact H]. simpl. by apply (stable_debounce P HP).
Qed.

Lemma stable_handleMouseLeave : preserves P handleMouseLeave.
Proof.
  intros s H. unfold handleMouseLeave. destruct (isMobileMode s); [exact H|].
  simpl. by apply (stable_debounce P HP).
Qed.

Lemma stable_handleResize :
  (∀ s, P s → P (set_mobileMenuOpen false s)) → preserves P (handleResize pg).
Proof.
  intros Hclose s H. unfold handleResize. destruct (isMobileMode s).
  - destruct (bool_decide _); [by apply stable_hideDropdowns | exact H].
  - destruct (mobileMenuOpen s); [by apply stable_closeMobileMenu | exact H].
Qed.

Lemma stable_buttonClick button : preserves P (buttonClick pg button).
Proof.
  intros s H. unfold buttonClick. destruct (isMobileMode s); [exact H|]. cbv zeta.
  destruct (isExpanded button s); [by apply stable_hideDropdowns|].
  by apply stable_showDropdown.
Qed.

Lemma stable_backdropClick :
  (∀ s, P s → P (set_mobileMenuOpen false s)) → preserves P (backdropClick pg).
Proof.
  intros Hclose s H. unfold backdropClick.
  destruct (mobileMenuOpen s); [by apply stable_closeMobileMenu|].
  destruct (bool_decide _); [by apply stable_hideDropdowns | exact H].
Qed.

Lemma stable_documentClick target : preserves P (documentClick pg target).
Proof.
  intros s H. unfold documentClick. destruct (_ && _); [|exact H].
  destruct (menuWrapper pg); [|exact H].
  destruct (negb _); [by apply stable_hideDropdowns | exact H].
Qed.

(** A timer closure writes the mobile flag only if it is the debounced
    resize handler. *)
Lemma stable_runCallback cb :
  (cb = CbResize → ∀ s, P s → P (set_mobileMenuOpen false s)) →
  preserves P (runCallback pg cb).
Proof.
  intros Hclose. destruct cb; cbn [runCallback].
  - apply stable_showDropdown.
  - apply preserves_lift. intros s H.
    by apply (stable_close P HP CbCloseDelay CLOSE_DELAY).
  - apply stable_handleResize. by apply Hclose.
  - apply stable_hideDropdowns.
  - apply preserves_lift, keep_core, core_collapse.
  - apply preserves_on. intros n. by apply keep_core.
  - apply preserves_lift, keep_core. intros s.
    by destruct (currentOpenDropdown s ≫= _).
Qed.

End Stability.

(** ** What every turn of the event loop keeps *)

Section StableSteps.

Variable pg : Page.
Variable P : State → Prop.
Hypothesis HP : Stable P.
Hypothesis Hopen : ∀ s, P s → P (set_mobileMenuOpen true s).

Implicit Types (s : State) (ev : Event) (l : Listener).

Lemma stable_react ev l s0 (h : M) :
  react pg ev l s0 = Some h →
  (closer ev l = true → ∀ s, P s → P (set_mobileMenuOpen false s)) →
  preserves P h.
Proof.
  intros Hr Hclose.
  destruct ev, l; cbn [react] in Hr; try discriminate Hr;
    try (injection Hr as <-).
  - apply (stable_buttonClick pg P HP).
  - by apply (stable_openMobileMenu pg P HP).
  - apply (stable_closeMobileMenu pg P HP). by apply Hclose.
  - apply (stable_toggleMobileAccordion P HP).
  - apply (stable_backdropClick pg P HP). by apply Hclose.
  - apply (stable_documentClick pg P HP).
  - by apply (stable_handleKeyboardNavigation pg P HP).
  - destruct (menuWrapper pg); [|discriminate Hr].
    destruct (Dom.contains _ _ _); [|discriminate Hr]. injection Hr as <-.
    apply (stable_handleMouseEnter P HP).
  - destruct (bool_decide _); [|discriminate Hr]. injection Hr as <-.
    apply (preserves_lift P). intros s H. by apply (stable_clear P HP).
  - destruct (bool_decide _); [|discriminate Hr]. injection Hr as <-.
    apply (stable_handleMouseLeave P HP).
  - apply (preserves_lift P). intros s H. by apply (stable_debounce P HP).
Qed.

Lemma stable_runListeners ev (ls : list Listener) s :
  (existsb (closer ev) ls = true → ∀ s, P s → P (set_mobileMenuOpen false s)) →
  P s → P (runListeners pg ev ls s).
Proof.
  unfold runListeners. revert s. induction ls as [|l ls IH]; intros s Hclose H; [exact H|].
  cbn [foldl]. apply IH.
  - intros E. apply Hclose. cbn [existsb]. rewrite E. by destruct (closer ev l).
  - destruct (react pg ev l s) as [h|] eqn:Hr; [|exact H].
    apply (stable_react ev l s h Hr); [|exact H].
    intros E. apply Hclose. cbn [existsb]. by rewrite E.
Qed.

Lemma closer_not_click ev ls :
  (∀ target, ev ≠ Click target) → (∀ key shiftKey, ev ≠ Keydown key shiftKey) →
  existsb (closer ev) ls = false.
Proof.
  intros H1 H2. induction ls as [|l ls IH]; [done|]. cbn [existsb]. rewrite IH.
  destruct ev; try done; [by destruct (H1 target) | by destruct (H2 key shiftKey)].
Qed.

Lemma closer_keydown key shiftKey ls :
  existsb (closer (Keydown key shiftKey)) ls = true → String.eqb key "Escape" = true.
Proof.
  induction ls as [|l ls IH]; [done|]. cbn [existsb].
  destruct l; cbn [closer orb]; try exact IH.
  destruct (String.eqb key "Escape"); done.
Qed.

(** A turn of the event loop keeps a stable property, save that a turn in
    which [closeMobileMenu] can run needs the property to survive the
    clearing of the mobile flag. *)
Lemma stable_step ev s s' :
  step pg ev s = Some s' →
  (mayClose pg ev s = true → ∀ s, P s → P (set_mobileMenuOpen false s)) →
  P s → P s'.
Proof.
  intros Hstep Hclose H.
  assert (Hd : ∀ s0, P s0 → P (set_defaultPrevented false s0)).
  { intros s0 H0. by apply (stable_core P HP s0). }
  destruct ev; cbn [step] in Hstep.
  - injection Hstep as <-. unfold dispatch. apply stable_runListeners; [|by apply Hd].
    exact Hclose.
  - injection Hstep as <-. unfold dispatch. apply stable_runListeners; [|by apply Hd].
    intros E. apply Hclose. by apply closer_keydown in E.
  - injection Hstep as <-. unfold dispatch. apply stable_runListeners; [|by apply Hd].
    by rewrite closer_not_click.
  - injection Hstep as <-. unfold dispatch. apply stable_runListeners; [|by apply Hd].
    by rewrite closer_not_click.
  - injection Hstep as <-. unfold dispatch. apply stable_runListeners.
    + by rewrite closer_not_click.
    + apply Hd. by apply (stable_core P HP s).
  - injection Hstep as <-. by apply (stable_core P HP s).
  - cbn [mayClose] in Hclose.
    destruct (List.find _ (timers s)) as [t|]; [|discriminate Hstep].
    destruct (due t <=? clock s)%N; [|discriminate Hstep]. injection Hstep as <-.
    assert (H1 : P (clearTimeout (Some h) s)) by (by apply (stable_clear P HP)).
    destruct (isMobileMode s) eqn:Hm.
    + destruct (callback t);
        try (apply (stable_runCallback pg P HP); [intros E; discriminate E | exact H1]).
      cbn [runCallback]. by rewrite handleResize_mobile.
    + apply (stable_runCallback pg P HP); [|exact H1].
      intros E. rewrite E in Hclose. by apply Hclose.
  - injection Hstep as <-. by apply (stable_core P HP s).
Qed.

Lemma stable_init value : preserves P (init pg value).
Proof.
  unfold init. repeat apply (preserves_andThen P);
    apply (preserves_lift P), (keep_core P HP); intros s;
    try (by repeat case_bool_decide).
  - unfold readDuration. by repeat destruct (JS.endsWith _ _).
  - apply core_forEach. intros n s'. rewrite disableDropdownLinks_tabLinks.
    apply core_tabLinks.
Qed.

End StableSteps.

(** ** C9: who closes the mobile panel *)

Section MobilePanel.

Variable pg : Page.

Implicit Types (s : State) (ev : Event) (l : Listener).

Lemma Stable_mobileMenuOpen : Stable (λ s, mobileMenuOpen s = true).
Proof.
  split.
  - intros s s' H Hs. apply (f_equal snd) in H. simpl in H. congruence.
  - intros h s H. by destruct h.
  - intros cb delay s _ H. unfold debounce. by destruct (debounceTimeout s).
  - intros cb delay s _ H. exact H.
  - intros cb delay s _ H. exact H.
Qed.

Lemma active_setTimeout cb delay s n : active (snd (setTimeout cb delay s)) n = active s n.
Proof. reflexivity. Qed.

Lemma active_set_bodyOverflow v s n : active (set_bodyOverflow v s) n = active s n.
Proof. reflexivity. Qed.

Lemma active_set_mobileMenuOpen b s n : active (set_mobileMenuOpen b s) n = active s n.
Proof. reflexivity. Qed.

(** Opening only adds: the flag stays set and nothing is deactivated,
    even when the call throws half-way. *)
Lemma openMobileMenu_keeps_open s :
  mobileMenuOpen s = true →
  mobileMenuOpen (state_of (openMobileMenu pg s)) = true
  ∧ ∀ n, active s n = true → active (state_of (openMobileMenu pg s)) n = true.
Proof.
  intros H. unfold openMobileMenu. destruct (negb (isMobileMode s)); [done|].
  unfold andThen, on, lift.
  destruct (mobileNav pg) as [n1|]; [|done].
  destruct (backdrop pg) as [n2|]; cbn [state_of].
  - destruct (hamburgerButton pg) as [n3|]; cbn [state_of].
    + split; [reflexivity|]. intros n Hn.
      rewrite active_setTimeout, active_set_bodyOverflow, active_set_mobileMenuOpen,
        active_setAttribute.
      by do 2 apply active_classList_add_mono.
    + split; [exact H|]. intros n Hn. by do 2 apply active_classList_add_mono.
  - split; [exact H|]. intros n Hn. by apply active_classList_add_mono.
Qed.

Lemma in_clickListeners_closer target s l :
  l ∈ clickListeners pg target s →
  closer (Click target) l = true →
  ∃ n, n ∈ Dom.path (doc s) target ∧ (mobileNavClose pg = Some n ∨ backdrop pg = Some n).
Proof.
  unfold clickListeners. rewrite elem_of_app. intros [Hin|Hin] Hc.
  - apply list_elem_of_bind in Hin as (n & Hl & Hn).
    apply elem_of_filterb in Hl as [_ Hl]. apply bool_decide_eq_true in Hl.
    exists n. split; [done|].
    destruct l; try discriminate Hc; cbn [clickNode] in Hl; auto.
  - apply elem_of_filterb in Hin as [_ Hd].
    destruct l; try discriminate Hc; discriminate Hd.
Qed.

(** C9: a click on the hamburger button runs [openMobileMenu] and nothing
    else of its own; on an open panel that call leaves the flag set and
    deactivates nothing; and a turn of the event loop that finds the
    panel open and leaves it closed is a click that reaches the close
    control or the backdrop, an Escape key, or the debounced resize
    handler firing at desktop width. *)
Theorem hamburger_click_only_opens :
  (∀ target s, react pg (Click target) OnHamburgerClick s = Some (openMobileMenu pg))
  ∧ (∀ s, mobileMenuOpen s = true →
          mobileMenuOpen (state_of (openMobileMenu pg s)) = true
          ∧ ∀ n, active s n = true → active (state_of (openMobileMenu pg s)) n = true)
  ∧ (∀ ev s s',
       step pg ev s = Some s' →
       mobileMenuOpen s = true →
       mobileMenuOpen s' = false →
       match ev with
       | Click target =>
           ∃ n, n ∈ Dom.path (doc s) target
                ∧ (mobileNavClose pg = Some n ∨ backdrop pg = Some n)
       | Keydown key _ => key = "Escape"
       | TimerFires h =>
           ∃ t, List.find (λ t, Nat.eqb (handle t) h) (timers s) = Some t
                ∧ callback t = CbResize
                ∧ isMobileMode s = false
       | _ => False
       end).
Proof.
  split_and!; [done | apply openMobileMenu_keeps_open |].
  intros ev s s' Hstep Hs Hs'.
  destruct (mayClose pg ev s) eqn:E.
  - destruct ev; cbn [mayClose] in E; try discriminate E.
    + apply existsb_exists in E as (l & Hl & Hc).
      apply list_elem_of_In in Hl. by eapply in_clickListeners_closer.
    + by apply String.eqb_eq.
    + destruct (List.find _ (timers s)) as [t|]; [|discriminate E].
      exists t. destruct (callback t); try discriminate E.
      split_and!; [done..|]. by apply negb_true_iff.
  - exfalso.
    assert (H : mobileMenuOpen s' = true).
    { apply (stable_step pg (λ s, mobileMenuOpen s = true) Stable_mobileMenuOpen
               (λ _ _, eq_refl) ev s s' Hstep); [|exact Hs].
      intros E'. congruence. }
    congruence.
Qed.

End MobilePanel.

Lemma hamburger_click_only_opens_witness :
  let s := state_of (openMobileMenu Sample.pg (boot Sample.page 500 "0.6s")) in
  mobileMenuOpen s = true
  ∧ active s 11 = true
  ∧ mobileMenuOpen (state_of (openMobileMenu Sample.pg s)) = true
  ∧ active (state_of (openMobileMenu Sample.pg s)) 11 = true.
Proof.
  cbv zeta.
  assert (H1 : mobileMenuOpen
                 (state_of (openMobileMenu Sample.pg (boot Sample.page 500 "0.6s"))) = true)
    by (vm_compute; reflexivity).
  assert (H2 : active (state_of (openMobileMenu Sample.pg (boot Sample.page 500 "0.6s"))) 11
               = true) by (vm_compute; reflexivity).
  destruct (hamburger_click_only_opens Sample.pg) as (_ & Hkeep & _).
  destruct (Hkeep _ H1) as (H3 & H4).
  split_and!; [exact H1 | exact H2 | exact H3 | exact (H4 _ H2)].
Defined.

Example mobile_panel_closers :
  let opened := [Click 10] in
  (mobileMenuOpen <$> run Sample.pg (opened ++ [Click 10]) (boot Sample.page 500 "0.6s"),
   mobileMenuOpen <$> run Sample.pg (opened ++ [Click 12]) (boot Sample.page 500 "0.6s"),
   mobileMenuOpen <$> run Sample.pg (opened ++ [Click 9]) (boot Sample.page 500 "0.6s"),
   mobileMenuOpen <$> run Sample.pg (opened ++ [Keydown "Escape" false])
                        (boot Sample.page 500 "0.6s"),
   mobileMenuOpen <$> run Sample.pg (opened ++ [Resize 1200; Elapse 200; TimerFires 2])
                        (boot Sample.page 500 "0.6s"))
  = (Some true, Some false, Some false, Some false, Some false).
Proof. vm_compute. reflexivity. Qed.

(** ** C4: the timer handles *)

Section Handles.

Implicit Types (s : State) (t : Timer) (ts : list Timer) (cb : Callback).

Lemma NoDup_fmap_filterb {A B} (f : A → B) (g : A → bool) (l : list A) :
  NoDup (f <$> l) → NoDup (f <$> List.filter g l).
Proof.
  induction l as [|x l IH]; [done|]. rewrite fmap_cons, NoDup_cons. intros [Hx Hl].
  cbn [List.filter]. destruct (g x); [|by apply IH].
  rewrite fmap_cons, NoDup_cons. split; [|by apply IH].
  intros Hin. apply Hx. apply list_elem_of_fmap in Hin as (y & -> & Hy).
  apply elem_of_filterb in Hy as [Hy _]. by apply list_elem_of_fmap_2.
Qed.

Lemma HandlesOk_filter (g : Timer → bool) ts next deb drop :
  HandlesOk ts next deb drop → HandlesOk (List.filter g ts) next deb drop.
Proof.
  intros (H1 & H2 & H3 & H4 & H5 & H6). split_and!; [| by apply NoDup_fmap_filterb | done..| |].
  - intros t Ht. apply elem_of_filterb in Ht as [Ht _]. by apply H1.
  - intros t Ht. apply elem_of_filterb in Ht as [Ht _]. by apply H5.
  - intros t Ht. apply elem_of_filterb in Ht as [Ht _]. by apply H6.
Qed.

(** A new timer takes the next handle. *)
Lemma HandlesOk_push ts next deb drop (due : N) cb (deb' drop' : option nat) :
  HandlesOk ts next deb drop →
  (∀ t, t ∈ ts → isDebounce (callback t) = true ↔ deb' = Some (handle t)) →
  (isDebounce cb = true ↔ deb' = Some next) →
  (deb' = deb ∨ deb' = Some next) →
  (drop' = drop ∨ (drop' = Some next ∧ isDebounce cb = false)) →
  HandlesOk (ts ++ [mkTimer next due cb]) (S next) deb' drop'.
Proof.
  intros (H1 & H2 & H3 & H4 & H5 & H6) Hold Hnew Hdeb Hdrop.
  assert (Hfresh : ∀ t, t ∈ ts → handle t ≠ next).
  { intros t Ht E. apply H1 in Ht. lia. }
  split_and!.
  - intros t Ht. apply elem_of_app in Ht as [Ht|Ht].
    + apply H1 in Ht. lia.
    + apply list_elem_of_singleton in Ht as ->. simpl. lia.
  - rewrite fmap_app. apply NoDup_app. split_and!; [done | | apply NoDup_singleton].
    intros h Hh Hin. apply list_elem_of_singleton in Hin as ->.
    apply list_elem_of_fmap in Hh as (t & E & Ht). by apply (Hfresh t).
  - intros h E. destruct Hdeb as [->| ->]; [apply H3 in E; lia | injection E as <-; lia].
  - intros h E. destruct Hdrop as [->| [-> _]]; [apply H4 in E; lia | injection E as <-; lia].
  - intros t Ht. apply elem_of_app in Ht as [Ht|Ht]; [by apply Hold|].
    apply list_elem_of_singleton in Ht as ->. exact Hnew.
  - intros t Ht E. apply elem_of_app in Ht as [Ht|Ht].
    + destruct Hdrop as [->| [-> _]]; [by apply H6|].
      injection E as E. by destruct (Hfresh t Ht).
    + apply list_elem_of_singleton in Ht as ->. simpl in *.
      destruct Hdrop as [->| [_ Hcb]]; [|exact Hcb].
      apply H4 in E. lia.
Qed.

(** Once the debounce handle is cleared, no debounce timer is left. *)
Lemma HandlesOk_cleared ts next deb drop t :
  HandlesOk ts next deb drop →
  t ∈ match deb with
      | Some i => List.filter (live i) ts
      | None => ts
      end →
  isDebounce (callback t) = false.
Proof.
  intros (_ & _ & _ & _ & H5 & _) Ht.
  destruct (isDebounce (callback t)) eqn:E; [|done]. exfalso.
  destruct deb as [i|].
  - apply elem_of_filterb in Ht as [Ht Hl]. apply (H5 t Ht) in E. injection E as ->.
    unfold live in Hl. by rewrite Nat.eqb_refl in Hl.
  - by apply (H5 t Ht) in E.
Qed.

Lemma debounce_unfold cb delay s :
  timers (debounce cb delay s)
  = (match debounceTimeout s with
     | Some i => List.filter (live i) (timers s)
     | None => timers s
     end ++ [mkTimer (nextHandle s) (clock s + JS.timeout_ms delay) cb])%list
  ∧ nextHandle (debounce cb delay s) = S (nextHandle s)
  ∧ debounceTimeout (debounce cb delay s) = Some (nextHandle s)
  ∧ dropdownTimeout (debounce cb delay s) = dropdownTimeout s
  ∧ mobileMenuOpen (debounce cb delay s) = mobileMenuOpen s.
Proof. unfold debounce. by destruct (debounceTimeout s). Qed.

Lemma Stable_TimersOk : Stable TimersOk.
Proof.
  split.
  - intros s s' H Hs. unfold TimersOk, core in *.
    assert (timers s' = timers s ∧ nextHandle s' = nextHandle s
            ∧ dropdownTimeout s' = dropdownTimeout s
            ∧ debounceTimeout s' = debounceTimeout s) as (-> & -> & -> & ->);
      [|exact Hs].
    by injection H.
  - intros h s Hs. destruct h as [h|]; [|exact Hs]. by apply HandlesOk_filter.
  - intros cb delay s Hcb Hs. unfold TimersOk in *.
    destruct (debounce_unfold cb delay s) as (-> & -> & -> & -> & _).
    assert (Hrem : HandlesOk
              match debounceTimeout s with
              | Some i => List.filter (live i) (timers s)
              | None => timers s
              end (nextHandle s) (debounceTimeout s) (dropdownTimeout s)).
    { destruct (debounceTimeout s); [by apply HandlesOk_filter | exact Hs]. }
    apply (HandlesOk_push _ _ (debounceTimeout s) (dropdownTimeout s)); auto.
    + intros t Ht. rewrite (HandlesOk_cleared _ _ _ _ t Hs Ht). split; [done|].
      intros E. injection E as E. destruct Hrem as (H1 & _). apply H1 in Ht. lia.
    + by split.
  - intros cb delay s Hcb Hs. unfold TimersOk in *. cbn.
    destruct Hs as (H1 & H2 & H3 & H4 & H5 & H6).
    apply (HandlesOk_push _ _ (debounceTimeout s) (dropdownTimeout s)); auto.
    + by split_and!.
    + rewrite Hcb. split; [done|]. intros E. apply H3 in E. lia.
  - intros cb delay s Hcb Hs. unfold TimersOk in *. cbn.
    destruct Hs as (H1 & H2 & H3 & H4 & H5 & H6).
    apply (HandlesOk_push _ _ (debounceTimeout s) (dropdownTimeout s)); auto.
    + by split_and!.
    + rewrite Hcb. split; [done|]. intros E. apply H3 in E. lia.
Qed.

Lemma TimersOk_initial d width : TimersOk (initial d width).
Proof.
  unfold TimersOk, HandlesOk. cbn.
  split_and!; try (intros t Ht; inversion Ht); try (intros h E; discriminate E).
  constructor.
Qed.

Lemma TimersOk_run (pg : Page) (evs : list Event) s s' :
  run pg evs s = Some s' → TimersOk s → TimersOk s'.
Proof.
  revert s. induction evs as [|ev evs IH]; intros s Hrun Hs; cbn [run] in Hrun.
  - by injection Hrun as <-.
  - destruct (step pg ev s) as [s1|] eqn:Hstep; [|discriminate Hrun].
    apply (IH s1 Hrun).
    by apply (stable_step pg TimersOk Stable_TimersOk (λ _ H, H) ev s s1 Hstep).
Qed.

Lemma TimersOk_boot d width value : TimersOk (boot d width value).
Proof.
  apply (stable_init (load d) TimersOk Stable_TimersOk), TimersOk_initial.
Qed.

(** With distinct handles, timers that all carry one handle are at most
    one. *)
Lemma filter_one_handle (g : Timer → bool) (h : nat) ts :
  NoDup (handle <$> ts) →
  (∀ t, t ∈ ts → g t = true → handle t = h) →
  (length (List.filter g ts) ≤ 1)%nat.
Proof.
  induction ts as [|t ts IH]; [cbn; lia|].
  rewrite fmap_cons, NoDup_cons. intros [Ht Hts] Hh. cbn [List.filter].
  destruct (g t) eqn:E.
  - assert (Hnone : List.filter g ts = []).
    { destruct (List.filter g ts) as [|t' l] eqn:El; [done|]. exfalso.
      assert (Hin : t' ∈ List.filter g ts) by (rewrite El; left).
      apply elem_of_filterb in Hin as [Hin Hg]. apply Ht.
      rewrite (Hh t) by (done || left). rewrite <- (Hh t') by (done || by right).
      by apply list_elem_of_fmap_2. }
    rewrite Hnone. cbn. lia.
  - apply IH; [done|]. intros t' Ht'. apply Hh. by right.
Qed.

Lemma timers_hideDropdowns (pg : Page) s t :
  t ∈ timers s → t ∈ timers (state_of (hideDropdowns pg s)).
Proof.
  intros Ht. unfold hideDropdowns. destruct (isMobileMode s) eqn:Hm; [done|].
  destruct (dropdownArea pg) as [a|] eqn:Ha; [|done].
  destruct (backdrop pg) as [b|] eqn:Hb; [|done].
  change (state_of _) with (closing pg a b s).
  rewrite timers_closing. apply elem_of_app. by left.
Qed.

End Handles.

(** C4, as the code has it: the script has one debounce handle, shared by
    the hover closures and the resize handler.  In every state reached
    from the start of the page, at most one debounce timer of either kind
    is live and it is the one the handle names; a debounced call leaves
    its own timer as the only debounce timer and cancels no other timer;
    and starting a close delay, in [hideDropdowns] or in the pointer-leave
    closure, cancels no debounce timer. *)
Theorem debounce_timers_share_one_handle (d : list Dom.Node) (width : Z) (value : string)
    (evs : list Event) (s : State) :
  run (load d) evs (boot d width value) = Some s →
  (length (debounceTimers s) ≤ 1)%nat
  ∧ (∀ t, t ∈ debounceTimers s → debounceTimeout s = Some (handle t))
  ∧ (∀ cb delay, isDebounce cb = true →
       debounceTimers (debounce cb delay s)
       = [mkTimer (nextHandle s) (clock s + JS.timeout_ms delay) cb])
  ∧ (∀ cb delay t, t ∈ timers s → isDebounce (callback t) = false →
       t ∈ timers (debounce cb delay s))
  ∧ (∀ t, t ∈ debounceTimers s →
       t ∈ timers (state_of (hideDropdowns (load d) s))
       ∧ t ∈ timers (state_of (runCallback (load d) CbLeave s))).
Proof.
  intros Hrun.
  assert (Hok : TimersOk s) by (eapply TimersOk_run; [exact Hrun | apply TimersOk_boot]).
  pose proof Hok as (H1 & H2 & H3 & H4 & H5 & H6).
  split_and!.
  - destruct (debounceTimeout s) as [h|] eqn:E.
    + apply (filter_one_handle _ h); [done|].
      intros t Ht Hg. apply (H5 t Ht) in Hg. congruence.
    + unfold debounceTimers. replace (List.filter _ (timers s)) with (@nil Timer); [cbn; lia|].
      symmetry. destruct (List.filter _ _) as [|t l] eqn:El; [done|]. exfalso.
      assert (Hin : t ∈ List.filter (λ t, isDebounce (callback t)) (timers s))
        by (rewrite El; left).
      apply elem_of_filterb in Hin as [Hin Hg]. apply (H5 t Hin) in Hg. congruence.
  - intros t Ht. apply elem_of_filterb in Ht as [Ht Hg]. by apply (H5 t Ht).
  - intros cb delay Hcb. unfold debounceTimers.
    destruct (debounce_unfold cb delay s) as (-> & _).
    rewrite List.filter_app. cbn [List.filter callback]. rewrite Hcb.
    replace (List.filter _ _) with (@nil Timer); [done|].
    symmetry. destruct (List.filter _ _) as [|t l] eqn:El; [done|]. exfalso.
    assert (Hin : t ∈ t :: l) by left. rewrite <- El in Hin.
    apply elem_of_filterb in Hin as [Hin Hg].
    by rewrite (HandlesOk_cleared _ _ _ _ t Hok Hin) in Hg.
  - intros cb delay t Ht Hg.
    destruct (debounce_unfold cb delay s) as (-> & _).
    apply elem_of_app. left. destruct (debounceTimeout s) as [i|] eqn:E; [|done].
    apply elem_of_filterb. split; [done|]. unfold live. apply negb_true_iff, Nat.eqb_neq.
    intros <-. assert (isDebounce (callback t) = true) by (by apply (H5 t Ht)). congruence.
  - intros t Ht. apply elem_of_filterb in Ht as [Ht _]. split.
    + by apply timers_hideDropdowns.
    + cbn. apply elem_of_app. by left.
Qed.

Lemma debounce_timers_share_one_handle_witness :
  ∃ s, run Sample.pg [MouseEnter 1; Resize 1200; MouseLeave 0] Sample.desktop = Some s
       ∧ (length (debounceTimers s) ≤ 1)%nat.
Proof.
  destruct (run Sample.pg [MouseEnter 1; Resize 1200; MouseLeave 0] Sample.desktop)
    as [s|] eqn:E; [|vm_compute in E; discriminate E].
  exists s. split; [reflexivity|].
  by destruct (debounce_timers_share_one_handle Sample.page 1200 "0.6s"
                 [MouseEnter 1; Resize 1200; MouseLeave 0] s E) as (H & _).
Defined.

(** C4 as stated fails: the hover debounce started by the pointer entering
    trigger 1 is cancelled, 50 ms before it is due, by the resize debounce
    that a resize event starts. *)
Lemma resize_debounce_cancels_hover_debounce :
  timers <$> run Sample.pg [MouseEnter 1] Sample.desktop
  = Some [mkTimer 1 50 (CbShow (Some "products") 1)]
  ∧ category (CbShow (Some "products") 1) = HoverDebounce
  ∧ (λ s, (clock s, timers s)) <$> run Sample.pg [MouseEnter 1; Resize 1200] Sample.desktop
    = Some (0%N, [mkTimer 2 200 CbResize])
  ∧ category CbResize = ResizeDebounce.
Proof. split_and!; vm_compute; reflexivity. Qed.

(** The close handle, by contrast, is overwritten without being cleared:
    Escape pressed twice within the animation leaves two collapse timers. *)
Example escape_twice_two_collapse_timers :
  timers <$> run Sample.pg
               [Click 1; Keydown "Escape" false; Elapse 100; Keydown "Escape" false]
               Sample.desktop
  = Some [mkTimer 1 600 CbCollapse; mkTimer 2 700 CbCollapse].
Proof. vm_compute. reflexivity. Qed.

(** ** Escape at desktop width *)

(** At desktop width, with area and backdrop present, Escape on an open
    dropdown is a hide request followed by the return of the focus to the
    trigger recorded by the [showDropdown] call that opened the panel. *)
Lemma escape_desktop (pg : Page) (a b open btn : nat) (shiftKey : bool) (s : State) :
  isMobileMode s = false →
  dropdownArea pg = Some a →
  backdrop pg = Some b →
  mobileMenuOpen s = false →
  currentOpenDropdown s = Some open →
  lastFocusedElement s = Some btn →
  handleKeyboardNavigation pg "Escape" shiftKey s
  = Ok (focus btn (closing pg a b (preventDefault s))).
Proof.
  intros Hm Ha Hb Hmenu Hopen Hlast.
  rewrite (escape_dropdown pg shiftKey s open) by done.
  unfold andThen. rewrite (hideDropdowns_desktop pg a b) by done.
  unfold lift, focusLast.
  destruct (vars_closing pg a b (preventDefault s)) as (_ & _ & _ & _ & _ & _ & -> & _).
  change (lastFocusedElement (preventDefault s)) with (lastFocusedElement s).
  by rewrite Hlast.
Qed.

Lemma showDropdown_records_trigger (pg : Page) (a b t btn : nat) (s : State) :
  currentOpenDropdown (opening pg a b t (Some btn) s) = Some t
  ∧ lastFocusedElement (opening pg a b t (Some btn) s) = Some btn.
Proof.
  destruct (vars_opening pg a b t (Some btn) s) as (H1 & _ & _ & _ & _ & _ & _ & _ & _ & H2).
  split; [exact H1 | by apply H2].
Qed.

(** ** Reachable states *)

(** The hypotheses [fresh] of the theorems above hold in every state the
    page can reach. *)
Lemma fresh_reachable (d : list Dom.Node) (width : Z) (value : string)
    (evs : list Event) (s : State) :
  run (load d) evs (boot d width value) = Some s → fresh s = true.
Proof.
  intros Hrun. apply fresh_spec.
  assert (Hok : TimersOk s) by (eapply TimersOk_run; [exact Hrun | apply TimersOk_boot]).
  by destruct Hok as (H & _).
Qed.

(** ** Absent collaborators *)

(** [init] itself dereferences nothing unguarded: it completes on every
    page. *)
Lemma init_completes (pg : Page) (value : string) (s : State) :
  throws (init pg value s) = false.
Proof. reflexivity. Qed.

Lemma showDropdown_unresolved (pg : Page) (dropdownId : option string)
    (button : option nat) (s : State) :
  Dom.getElementById ("dropdown-" +:+ JS.to_string dropdownId) (doc s) = None →
  throws (showDropdown pg dropdownId button s) = false.
Proof.
  intros H. unfold showDropdown. destruct (isMobileMode s); [done|].
  destruct (dropdownTimeout s); simpl; rewrite H; reflexivity.
Qed.

Lemma toggleMobileAccordion_unresolved (button : nat) (s : State) :
  Dom.getElementById (JS.to_string (attr "aria-controls" s button)) (doc s) = None →
  toggleMobileAccordion button s = Ok s.
Proof. intros H. unfold toggleMobileAccordion. fold (attr "aria-controls" s button). by rewrite H. Qed.

(** C2 (the code departs from it): when the markup has no backdrop
    element, a show request at desktop width for a panel that is not the
    open one throws a [TypeError]: [showDropdown] dereferences the
    backdrop unguarded, after it has activated the panel and the area and
    before it records the panel as open. *)
Theorem showDropdown_throws_without_backdrop (pg : Page) (a t : nat)
    (dropdownId : option string) (button : option nat) (s : State) :
  isMobileMode s = false →
  dropdownArea pg = Some a →
  backdrop pg = None →
  Dom.getElementById ("dropdown-" +:+ JS.to_string dropdownId) (doc s) = Some t →
  currentOpenDropdown s ≠ Some t →
  throws (showDropdown pg dropdownId button s) = true
  ∧ active (state_of (showDropdown pg dropdownId button s)) t = true
  ∧ currentOpenDropdown (state_of (showDropdown pg dropdownId button s))
    = currentOpenDropdown s.
Proof.
  intros Hm Ha Hb Ht Hcur. unfold showDropdown. rewrite Hm. cbv zeta.
  destruct (vars_clearTimeout (dropdownTimeout s) s) as (Hd & _ & Hc & _).
  rewrite Hd, Ht, Hc. rewrite bool_decide_eq_false_2 by done. cbn [andb].
  unfold andThen, lift, on. rewrite Ha, Hb. cbn [throws state_of].
  set (s0 := clearTimeout (dropdownTimeout s) s) in *.
  set (s1 := forEach (dropdowns s0) (classList_remove "active") s0).
  fold (deactivateButtons pg s1).
  assert (Hin : is_Some (doc (deactivateButtons pg s1) !! t)).
  { apply lookup_deactivateButtons, lookup_forEach.
    - intros. apply lookup_classList_remove.
    - rewrite Hd. by eapply getElementById_in_range. }
  split_and!; [done | |].
  - by apply active_classList_add_mono, active_classList_add_same.
  - rewrite <- currentOpenDropdown_rest.
    change (rest (classList_add ?c ?n (classList_add ?c' ?n' ?x))) with (rest x).
    rewrite rest_deactivateButtons.
    unfold s1. rewrite rest_forEach by done.
    by rewrite currentOpenDropdown_rest.
Qed.

Lemma showDropdown_throws_without_backdrop_witness :
  let pg := load Sample.page_without_backdrop in
  let r := showDropdown pg (Some "products") (Some 1%nat)
             (boot Sample.page_without_backdrop 1200 "0.6s") in
  throws r = true ∧ active (state_of r) 4 = true ∧ currentOpenDropdown (state_of r) = None.
Proof.
  cbv zeta.
  destruct (showDropdown_throws_without_backdrop (load Sample.page_without_backdrop) 3 4
              (Some "products") (Some 1%nat) (boot Sample.page_without_backdrop 1200 "0.6s"))
    as (H1 & H2 & H3).
  - vm_compute. reflexivity.
  - vm_compute. reflexivity.
  - vm_compute. reflexivity.
  - vm_compute. reflexivity.
  - vm_compute. intros E. discriminate E.
  - split; [exact H1|]. split; [exact H2|]. rewrite H3. vm_compute. reflexivity.
Defined.

(** Through the listeners: on the page without backdrop, [init] has
    registered the click listener of trigger 1, and a click on it at
    desktop width throws; at mobile width the hamburger click throws in
    [openMobileMenu] in the same way. *)
Example click_without_backdrop_throws :
  let pg := load Sample.page_without_backdrop in
  let s := boot Sample.page_without_backdrop 1200 "0.6s" in
  let r := buttonClick pg 1 s in
  backdrop pg = None
  ∧ OnButtonClick 1 ∈ listeners s
  ∧ throws r = true
  ∧ active (state_of r) 4 = true
  ∧ active (state_of r) 3 = true
  ∧ currentOpenDropdown (state_of r) = None
  ∧ throws (openMobileMenu pg (boot Sample.page_without_backdrop 500 "0.6s")) = true.
Proof.
  cbv zeta. split_and!; try (vm_compute; reflexivity).
  apply list_elem_of_In. vm_compute. tauto.
Qed.

(** * Further properties

    What the handlers the properties above leave aside do, and what holds
    in every state the page reaches. *)

Lemma handleKeyboardNavigation_unfold (pg : Page) (key : string) (shiftKey : bool) (s : State) :
  handleKeyboardNavigation pg key shiftKey s
  = if String.eqb key "Escape" then
      if mobileMenuOpen s then closeMobileMenu pg (preventDefault s)
      else if bool_decide (is_Some (currentOpenDropdown s))
      then (hideDropdowns pg ;; lift focusLast)%M (preventDefault s)
      else otherKeys pg key shiftKey (activeElement s) s
    else otherKeys pg key shiftKey (activeElement s) s.
Proof. reflexivity. Qed.


(** ** What every handler keeps, whatever it writes *)

Section Keeping.

Variable pg : Page.
Variable P : State → Prop.
Hypothesis HK : Kept P.

Implicit Types (s : State) (m k : M).

Lemma kept_clearTimeout h s : P s → P (clearTimeout h s).
Proof. destruct h; [apply (kept_clear _ HK) | done]. Qed.

Lemma kept_setTimeout cb delay s : Schedulable s cb → P s → P (snd (setTimeout cb delay s)).
Proof. apply (kept_timer _ HK). Qed.

Lemma kept_closeTimer cb delay s :
  Schedulable s cb →
  P s → P (let '(h, s') := setTimeout cb delay s in set_dropdownTimeout (Some h) s').
Proof. intros Hs H. by apply (kept_dropdownTimeout _ HK), (kept_timer _ HK). Qed.

Lemma Schedulable_same_doc cb s s' : doc s' = doc s → Schedulable s cb → Schedulable s' cb.
Proof. intros E. destruct cb; try done. cbn [Schedulable]. by rewrite E. Qed.

Lemma kept_debounce cb delay s : Schedulable s cb → P s → P (debounce cb delay s).
Proof.
  intros Hs H. unfold debounce.
  assert (Hs' : Schedulable (clearTimeout (debounceTimeout s) s) cb).
  { apply (Schedulable_same_doc cb s); [by destruct (debounceTimeout s) | exact Hs]. }
  apply kept_clearTimeout with (h := debounceTimeout s) in H.
  revert Hs' H. generalize (clearTimeout (debounceTimeout s) s). intros s0 Hs0 H0.
  cbn [setTimeout]. apply (kept_debounceTimeout _ HK).
  by apply (kept_timer _ HK cb delay s0).
Qed.

Lemma kept_forEach (f : nat → State → State) (l : list nat) s :
  (∀ n s, P s → P (f n s)) → P s → P (forEach l f s).
Proof. intros Hf H. apply forEach_ind; [exact H | intros n s0 _; apply Hf]. Qed.

Lemma kept_deactivateButton btn s : P s → P (deactivateButton btn s).
Proof. intros H. apply (kept_expanded _ HK), (kept_remove _ HK), H. Qed.

Lemma kept_tabLinks v n s : P s → P (tabLinks v n s).
Proof. apply kept_forEach. intros l s0. apply (kept_tabindex _ HK). Qed.

Lemma kept_collapse s : P s → P (collapse s).
Proof.
  intros H. rewrite collapse_unfold. apply (kept_closed _ HK), kept_forEach; [|exact H].
  intros n s0 H0. unfold collapseOne. rewrite disableDropdownLinks_tabLinks.
  apply kept_tabLinks, (kept_remove _ HK), H0.
Qed.

Lemma kept_focusLast s : P s → P (focusLast s).
Proof.
  intros H. unfold focusLast. destruct (lastFocusedElement s); [|exact H].
  apply (kept_activeElement _ HK), H.
Qed.

Lemma kept_hideDropdowns : preserves P (hideDropdowns pg).
Proof.
  intros s H. unfold hideDropdowns. destruct (isMobileMode s); [exact H|].
  revert s H. apply preserves_andThen; [apply preserves_on, (kept_remove _ HK)|].
  apply preserves_andThen; [apply preserves_on, (kept_remove _ HK)|].
  apply preserves_andThen.
  { apply preserves_lift. intros s. apply kept_forEach. apply kept_deactivateButton. }
  apply preserves_lift. intros s. by apply kept_closeTimer.
Qed.

End Keeping.

Lemma Kept_atWidth (P : State → Prop) (w : Z) : Kept P → Kept (atWidth P w).
Proof.
  intros HK. split; unfold atWidth.
  - intros n s [H E]. split; [by apply (kept_add _ HK) | exact E].
  - intros n s [H E]. split; [by apply (kept_remove _ HK) | exact E].
  - intros v n s [H E]. split; [by apply (kept_expanded _ HK) | exact E].
  - intros v n s [H E]. split; [by apply (kept_tabindex _ HK) | exact E].
  - intros h s [H E]. split; [by apply (kept_clear _ HK) | exact E].
  - intros cb delay s Hs [H E]. split; [by apply (kept_timer _ HK) | exact E].
  - intros o s [H E]. split; [by apply (kept_dropdownTimeout _ HK) | exact E].
  - intros o s [H E]. split; [by apply (kept_debounceTimeout _ HK) | exact E].
  - intros o s [H E]. split; [by apply (kept_lastFocusedElement _ HK) | exact E].
  - intros o s [H E]. split; [by apply (kept_activeElement _ HK) | exact E].
  - intros b s [H E]. split; [by apply (kept_defaultPrevented _ HK) | exact E].
  - intros t s [H E]. split; [by apply (kept_clock _ HK) | exact E].
  - intros s [H E]. split; [by apply (kept_closed _ HK) | exact E].
  - intros t s Hm [H E]. split; [by apply (kept_opened _ HK) | exact E].
  - intros s Hm [H E]. split; [by apply (kept_menu_opened _ HK) | exact E].
  - intros s [H E]. split; [by apply (kept_menu_closed _ HK) | exact E].
Qed.

Section KeepingHandlers.

Variable pg : Page.
Variable P : State → Prop.
Hypothesis HK : Kept P.

Implicit Types (s : State) (m k : M).

Lemma kept_showDropdown dropdownId button : preserves P (showDropdown pg dropdownId button).
Proof.
  intros s H. unfold showDropdown. destruct (isMobileMode s) eqn:Hm; [exact H|].
  set (s0 := clearTimeout (dropdownTimeout s) s).
  assert (H0 : atWidth P (innerWidth s) s0).
  { split; [by apply kept_clearTimeout | by destruct (dropdownTimeout s)]. }
  clearbody s0.
  destruct (Dom.getElementById _ (doc s0)) as [t|]; [|exact (proj1 H0)].
  destruct (_ && _). { apply (kept_hideDropdowns pg P HK). exact (proj1 H0). }
  pose proof (Kept_atWidth P (innerWidth s) HK) as HQ.
  enough (HE : preserves (atWidth P (innerWidth s))
            (lift (λ s, forEach (dropdowns s) (classList_remove "active") s) ;;
             lift (forEach (menuButtons pg) deactivateButton) ;;
             lift (classList_add "active" t) ;;
             on (dropdownArea pg) (classList_add "active") ;;
             on (backdrop pg) (classList_add "active") ;;
             lift (set_currentOpenDropdown (Some t)) ;;
             lift (match button with
                   | Some b => λ s, set_lastFocusedElement (Some b)
                                      (setAttribute "aria-expanded" "true" b
                                         (classList_add "active" b s))
                   | None => λ s, s
                   end) ;;
             lift (enableDropdownLinks t))%M) by exact (proj1 (HE s0 H0)).
  apply preserves_andThen.
  { apply preserves_lift. intros s1. apply kept_forEach.
    intros n s2. apply (kept_remove _ HQ). }
  apply preserves_andThen.
  { apply preserves_lift. intros s1. apply kept_forEach.
    intros n s2. by apply kept_deactivateButton. }
  apply preserves_andThen; [apply preserves_lift, (kept_add _ HQ)|].
  apply preserves_andThen; [apply preserves_on, (kept_add _ HQ)|].
  apply preserves_andThen; [apply preserves_on, (kept_add _ HQ)|].
  apply preserves_andThen.
  { apply preserves_lift. intros s1 H1. apply (kept_opened _ HQ); [|exact H1].
    unfold isMobileMode in *. by rewrite (proj2 H1). }
  apply preserves_andThen.
  { apply preserves_lift. intros s1 H1. destruct button; [|exact H1].
    apply (kept_lastFocusedElement _ HQ), (kept_expanded _ HQ), (kept_add _ HQ), H1. }
  apply preserves_lift. intros s1. rewrite enableDropdownLinks_tabLinks.
  by apply kept_tabLinks.
Qed.

Lemma kept_openMobileMenu : preserves P (openMobileMenu pg).
Proof.
  intros s H. unfold openMobileMenu. destruct (isMobileMode s) eqn:Hm; [|exact H].
  cbn [negb]. unfold andThen, on, lift.
  destruct (mobileNav pg) as [nav|]; [|exact H].
  destruct (backdrop pg) as [b|]; [|by apply (kept_add _ HK)].
  destruct (hamburgerButton pg) as [hb|]; [|by apply (kept_add _ HK), (kept_add _ HK)].
  cbn [state_of]. apply kept_setTimeout; [exact HK | exact I |].
  apply (kept_menu_opened _ HK); [exact Hm|].
  apply (kept_expanded _ HK), (kept_add _ HK), (kept_add _ HK), H.
Qed.

Lemma kept_closeMobileMenu : preserves P (closeMobileMenu pg).
Proof.
  intros s H. unfold closeMobileMenu, andThen, on, lift.
  destruct (mobileNav pg) as [nav|]; [|exact H].
  destruct (backdrop pg) as [b|]; [|by apply (kept_remove _ HK)].
  destruct (hamburgerButton pg) as [hb|]; [|by apply (kept_remove _ HK), (kept_remove _ HK)].
  cbn [state_of]. apply (kept_activeElement _ HK), (kept_menu_closed _ HK).
  apply (kept_expanded _ HK), (kept_remove _ HK), (kept_remove _ HK), H.
Qed.

Lemma kept_toggleMobileAccordion button : preserves P (toggleMobileAccordion button).
Proof.
  intros s H. unfold toggleMobileAccordion.
  destruct (Dom.getElementById _ _); [|exact H].
  destruct (isExpanded button s); cbn [state_of].
  - apply (kept_remove _ HK), (kept_expanded _ HK), H.
  - apply (kept_add _ HK), (kept_expanded _ HK), H.
Qed.

Lemma kept_accordionKeys key focused : preserves P (accordionKeys key focused).
Proof.
  intros s H. unfold accordionKeys. destruct (_ && _); [|exact H].
  destruct focused; [|exact H].
  revert s H. apply preserves_andThen; [|apply kept_toggleMobileAccordion].
  apply preserves_lift, (kept_defaultPrevented _ HK).
Qed.

Lemma kept_tabKeys key shiftKey focused : preserves P (tabKeys pg key shiftKey focused).
Proof.
  intros s H. unfold tabKeys. destruct (currentOpenDropdown s); [|exact H].
  destruct (String.eqb key "Tab"); [|exact H].
  destruct (_ && _).
  { cbn [state_of]. apply kept_focusLast; [exact HK|].
    apply (kept_defaultPrevented _ HK), H. }
  destruct (_ && _); [|exact H]. by apply kept_hideDropdowns.
Qed.

Lemma kept_otherKeys key shiftKey focused : preserves P (otherKeys pg key shiftKey focused).
Proof.
  intros s H. unfold otherKeys. destruct (negb (isMobileMode s)).
  - destruct (_ && _).
    + destruct focused as [b|]; [|exact H].
      assert (H1 : P (preventDefault s)) by apply (kept_defaultPrevented _ HK), H.
      destruct (isExpanded b (preventDefault s)); [by apply kept_hideDropdowns|].
      revert H1. generalize (preventDefault s). apply preserves_andThen.
      * apply kept_showDropdown.
      * apply preserves_lift. intros s1. by apply kept_setTimeout.
    + revert s H. apply preserves_andThen; [apply kept_tabKeys | apply kept_accordionKeys].
  - by apply kept_accordionKeys.
Qed.

Lemma kept_handleKeyboardNavigation key shiftKey :
  preserves P (handleKeyboardNavigation pg key shiftKey).
Proof.
  intros s H. rewrite handleKeyboardNavigation_unfold.
  destruct (String.eqb key "Escape"); [|by apply kept_otherKeys].
  destruct (mobileMenuOpen s).
  { apply kept_closeMobileMenu, (kept_defaultPrevented _ HK), H. }
  destruct (bool_decide _); [|by apply kept_otherKeys].
  assert (H1 : P (preventDefault s)) by apply (kept_defaultPrevented _ HK), H.
  revert H1. generalize (preventDefault s).
  apply preserves_andThen; [by apply kept_hideDropdowns|].
  apply preserves_lift. intros s1. by apply kept_focusLast.
Qed.

Lemma kept_handleMouseEnter target : preserves P (handleMouseEnter target).
Proof.
  intros s H. unfold handleMouseEnter. destruct (isMobileMode s); [exact H|].
  destruct (Dom.closest _ _ _) as [button|] eqn:E; [|exact H].
  apply kept_debounce; [exact HK | by exists target | exact H].
Qed.

Lemma kept_handleMouseLeave : preserves P handleMouseLeave.
Proof.
  intros s H. unfold handleMouseLeave. destruct (isMobileMode s); [exact H|].
  by apply kept_debounce.
Qed.

Lemma kept_handleResize : preserves P (handleResize pg).
Proof.
  intros s H. unfold handleResize. destruct (isMobileMode s).
  - destruct (bool_decide _); [by apply kept_hideDropdowns | exact H].
  - destruct (mobileMenuOpen s); [by apply kept_closeMobileMenu | exact H].
Qed.

Lemma kept_buttonClick button : preserves P (buttonClick pg button).
Proof.
  intros s H. unfold buttonClick. destruct (isMobileMode s); [exact H|].
  destruct (isExpanded button s); [by apply kept_hideDropdowns | by apply kept_showDropdown].
Qed.

Lemma kept_backdropClick : preserves P (backdropClick pg).
Proof.
  intros s H. unfold backdropClick.
  destruct (mobileMenuOpen s); [by apply kept_closeMobileMenu|].
  destruct (bool_decide _); [by apply kept_hideDropdowns | exact H].
Qed.

Lemma kept_documentClick target : preserves P (documentClick pg target).
Proof. intros s H. by rewrite documentClick_inert. Qed.

Lemma kept_runCallback cb : preserves P (runCallback pg cb).
Proof.
  destruct cb; cbn [runCallback].
  - apply kept_showDropdown.
  - apply preserves_lift. intros s. by apply kept_closeTimer.
  - apply kept_handleResize.
  - by apply kept_hideDropdowns.
  - apply preserves_lift. intros s. by apply kept_collapse.
  - apply preserves_on. intros n. apply (kept_activeElement _ HK).
  - apply preserves_lift. intros s H. destruct (_ ≫= _); [|exact H].
    apply (kept_activeElement _ HK), H.
Qed.

Lemma kept_react ev l s0 (h : M) : react pg ev l s0 = Some h → preserves P h.
Proof.
  destruct ev, l; cbn [react]; try discriminate; intros E.
  - injection E as <-. apply kept_buttonClick.
  - injection E as <-. apply kept_openMobileMenu.
  - injection E as <-. apply kept_closeMobileMenu.
  - injection E as <-. apply kept_toggleMobileAccordion.
  - injection E as <-. apply kept_backdropClick.
  - injection E as <-. apply kept_documentClick.
  - injection E as <-. apply kept_handleKeyboardNavigation.
  - destruct (menuWrapper pg); [|discriminate]. destruct (Dom.contains _ _ _); [|discriminate].
    injection E as <-. apply kept_handleMouseEnter.
  - destruct (bool_decide _); [|discriminate]. injection E as <-.
    apply preserves_lift. intros s. by apply kept_clearTimeout.
  - destruct (bool_decide _); [|discriminate]. injection E as <-. apply kept_handleMouseLeave.
  - injection E as <-. apply preserves_lift. intros s. by apply kept_debounce.
Qed.

Lemma kept_runListeners ev (ls : list Listener) s : P s → P (runListeners pg ev ls s).
Proof.
  unfold runListeners. revert s. induction ls as [|l ls IH]; intros s H; [exact H|].
  cbn [foldl]. apply IH. destruct (react pg ev l s) as [h|] eqn:E; [|exact H].
  by apply (kept_react ev l s h).
Qed.

Lemma kept_dispatch ev s : P s → P (dispatch pg ev s).
Proof.
  intros H. unfold dispatch.
  destruct ev; apply kept_runListeners, (kept_defaultPrevented _ HK), H.
Qed.

(** A turn of the event loop keeps such a property; for a resize, if the
    property holds at the new width. *)
Lemma kept_step ev s s' :
  step pg ev s = Some s' →
  (∀ width, ev = Resize width → P (set_innerWidth width s)) →
  P s → P s'.
Proof.
  intros Hs Hw H. destruct ev; unfold step in Hs.
  - apply (inj Some) in Hs. subst s'. by apply kept_dispatch.
  - apply (inj Some) in Hs. subst s'. by apply kept_dispatch.
  - apply (inj Some) in Hs. subst s'. by apply kept_dispatch.
  - apply (inj Some) in Hs. subst s'. by apply kept_dispatch.
  - apply (inj Some) in Hs. subst s'. apply kept_dispatch. by apply Hw.
  - apply (inj Some) in Hs. subst s'. apply (kept_activeElement _ HK), H.
  - destruct (List.find _ _) as [t|]; [|discriminate Hs].
    destruct (_ <=? _)%N; [|discriminate Hs]. apply (inj Some) in Hs. subst s'.
    apply kept_runCallback. apply (kept_clear _ HK), H.
  - apply (inj Some) in Hs. subst s'. apply (kept_clock _ HK), H.
Qed.

Lemma kept_run (evs : list Event) s s' :
  (∀ width s, P s → P (set_innerWidth width s)) →
  run pg evs s = Some s' → P s → P s'.
Proof.
  intros Hw. revert s. induction evs as [|ev evs IH]; intros s Hr H.
  - injection Hr as <-. exact H.
  - cbn [run] in Hr. destruct (step pg ev s) as [s1|] eqn:E; [|discriminate].
    apply (IH s1 Hr). apply (kept_step ev s s1 E); [|exact H].
    intros width _. by apply Hw.
Qed.

End KeepingHandlers.

(** ** Startup *)

Section Startup.

Variable pg : Page.
Variable P : State → Prop.
Hypothesis HK : Kept P.
Hypothesis Hduration : ∀ d s, P s → P (set_TRANSITION_DURATION d s).
Hypothesis Hlisteners : ∀ ls s, P s → P (set_listeners ls s).

Lemma kept_readDuration value s : P s → P (readDuration value s).
Proof.
  intros H. unfold readDuration.
  destruct (JS.endsWith _ "s"); [by apply Hduration|].
  destruct (JS.endsWith _ "ms"); [by apply Hduration | exact H].
Qed.

Lemma kept_init value : preserves P (init pg value).
Proof.
  unfold init.
  apply preserves_andThen; [apply preserves_lift; intros s; apply kept_readDuration|].
  apply preserves_andThen.
  { apply preserves_lift. intros s H. destruct (bool_decide _); [by apply Hlisteners | exact H]. }
  apply preserves_andThen; [apply preserves_lift; intros s; apply Hlisteners|].
  apply preserves_andThen; [apply preserves_lift; intros s; apply Hlisteners|].
  apply preserves_andThen.
  { apply preserves_lift. intros s H. destruct (bool_decide _); [by apply Hlisteners | exact H]. }
  apply preserves_andThen.
  { apply preserves_lift. intros s H. destruct (bool_decide _); [by apply Hlisteners | exact H]. }
  apply preserves_andThen; [apply preserves_lift; intros s; apply Hlisteners|].
  apply preserves_andThen.
  { apply preserves_lift. intros s H. destruct (bool_decide _); [by apply Hlisteners | exact H]. }
  apply preserves_andThen.
  { apply preserves_lift. intros s. apply kept_forEach. intros n s0.
    rewrite disableDropdownLinks_tabLinks. by apply kept_tabLinks. }
  apply preserves_andThen; apply preserves_lift; intros s; apply Hlisteners.
Qed.

End Startup.

(** A property kept by every write, by a change of width and by the
    registrations of [init] holds in every state the page reaches. *)
Lemma kept_reachable (P : State → Prop) (d : list Dom.Node) (width : Z) (value : string)
    (evs : list Event) (s : State) :
  Kept P →
  (∀ w s, P s → P (set_innerWidth w s)) →
  (∀ t s, P s → P (set_TRANSITION_DURATION t s)) →
  (∀ ls s, P s → P (set_listeners ls s)) →
  P (initial d width) →
  run (load d) evs (boot d width value) = Some s → P s.
Proof.
  intros HK Hw Hd Hl H0 Hr.
  apply (kept_run (load d) P HK evs _ s Hw Hr).
  unfold boot. by apply kept_init.
Qed.

(** ** What the script never writes *)

Section Untouched.

Lemma fmap_alter_same {A B} (g : A → B) (f : A → A) (n : nat) (l : list A) :
  (∀ x, g (f x) = g x) → g <$> alter f n l = g <$> l.
Proof.
  intros H. revert n. induction l as [|x l IH]; intros [|n]; simpl; [done..| |].
  - by rewrite H.
  - f_equal. apply IH.
Qed.

Lemma untouched_add_class (nd : Dom.Node) : untouched (Dom.add_class "active" nd) = untouched nd.
Proof.
  unfold untouched. simpl. do 2 f_equal. f_equal.
  apply set_eq. intros x. rewrite !elem_of_difference, elem_of_union, elem_of_singleton. tauto.
Qed.

Lemma untouched_remove_class (nd : Dom.Node) :
  untouched (Dom.remove_class "active" nd) = untouched nd.
Proof.
  unfold untouched. simpl. do 2 f_equal. f_equal.
  apply set_eq. intros x. rewrite !elem_of_difference. tauto.
Qed.

Lemma untouched_set_attr (k v : string) (nd : Dom.Node) :
  k = "aria-expanded" ∨ k = "tabindex" → untouched (Dom.set_attr k v nd) = untouched nd.
Proof.
  intros Hk. unfold untouched. simpl. do 2 f_equal.
  apply map_eq. intros i. rewrite !lookup_delete, lookup_insert.
  repeat case_decide; try reflexivity; destruct Hk; congruence.
Qed.

Lemma Kept_untouched (U : list (string * gset string * gmap string string * option nat)) :
  Kept (λ s, untouched <$> doc s = U).
Proof.
  split; try (intros; assumption).
  - intros n s <-. apply fmap_alter_same, untouched_add_class.
  - intros n s <-. apply fmap_alter_same, untouched_remove_class.
  - intros v n s <-. apply fmap_alter_same. intros nd. apply untouched_set_attr. by left.
  - intros v n s <-. apply fmap_alter_same. intros nd. apply untouched_set_attr. by right.
Qed.

Lemma untouched_reachable (d : list Dom.Node) (width : Z) (value : string)
    (evs : list Event) (s : State) :
  run (load d) evs (boot d width value) = Some s → untouched <$> doc s = untouched <$> d.
Proof.
  apply (kept_reachable (λ s, untouched <$> doc s = untouched <$> d));
    [apply Kept_untouched | done..].
Qed.

End Untouched.

(** X1: the script writes nothing but the class [active] and the
    attributes [aria-expanded] and [tabindex].  In every state the page
    reaches, the document has the elements of the markup, each with its
    tag, its parent, its other classes and its other attributes. *)
Theorem markup_is_never_rewritten (d : list Dom.Node) (width : Z) (value : string)
    (evs : list Event) (s : State) :
  run (load d) evs (boot d width value) = Some s →
  length (doc s) = length d
  ∧ ∀ n nd, doc s !! n = Some nd →
      ∃ nd0, d !! n = Some nd0
             ∧ Dom.tagName nd = Dom.tagName nd0
             ∧ Dom.parentNode nd = Dom.parentNode nd0
             ∧ (∀ c, c ≠ "active" → c ∈ Dom.classList nd ↔ c ∈ Dom.classList nd0)
             ∧ (∀ k, k ≠ "aria-expanded" → k ≠ "tabindex" →
                     Dom.attributes nd !! k = Dom.attributes nd0 !! k).
Proof.
  intros Hr. pose proof (untouched_reachable d width value evs s Hr) as HU.
  split.
  { rewrite <- (length_fmap untouched (doc s)), HU. apply length_fmap. }
  intros n nd Hn.
  assert (Hn' : (untouched <$> d) !! n = Some (untouched nd)).
  { rewrite <- HU, list_lookup_fmap, Hn. reflexivity. }
  rewrite list_lookup_fmap in Hn'.
  destruct (d !! n) as [nd0|]; [|discriminate Hn'].
  exists nd0. split; [reflexivity|].
  apply (inj Some) in Hn'. unfold untouched in Hn'.
  injection Hn' as Ht Hc Ha Hp. split_and!; [done | done | |].
  - intros c Hne.
    assert (E : c ∈ Dom.classList nd ∖ {["active"]} ↔ c ∈ Dom.classList nd0 ∖ {["active"]})
      by (by rewrite Hc).
    rewrite !elem_of_difference, elem_of_singleton in E. tauto.
  - intros k H1 H2.
    assert (E : delete "aria-expanded" (delete "tabindex" (Dom.attributes nd)) !! k
                = delete "aria-expanded" (delete "tabindex" (Dom.attributes nd0)) !! k)
      by (by rewrite Ha).
    by rewrite !lookup_delete_ne in E.
Qed.

Lemma markup_is_never_rewritten_witness :
  let evs := [Click 1; Keydown "Escape" false; Resize 500; Click 10; Click 13] in
  run Sample.pg evs Sample.desktop = Some (Sample.after evs Sample.desktop)
  ∧ length (doc (Sample.after evs Sample.desktop)) = length Sample.page.
Proof.
  split; [vm_compute; reflexivity|].
  apply (markup_is_never_rewritten Sample.page 1200 "0.6s"
           [Click 1; Keydown "Escape" false; Resize 500; Click 10; Click 13]).
  vm_compute. reflexivity.
Defined.

(** ** The scroll lock *)

Lemma Kept_ScrollLocked : Kept ScrollLocked.
Proof. split; try (intros; assumption); intros; reflexivity. Qed.

(** X2: the page scroll is locked exactly while the mobile panel is
    flagged open: in every state the page reaches, [body.style.overflow]
    is [hidden] when [mobileMenuOpen] is set and empty otherwise, also
    after a handler has thrown. *)
Theorem scroll_locked_iff_mobile_menu_open (d : list Dom.Node) (width : Z) (value : string)
    (evs : list Event) (s : State) :
  run (load d) evs (boot d width value) = Some s →
  bodyOverflow s = if mobileMenuOpen s then "hidden" else "".
Proof.
  apply (kept_reachable ScrollLocked); [apply Kept_ScrollLocked | done..].
Qed.

Lemma scroll_locked_iff_mobile_menu_open_witness :
  let s := Sample.after [Click 10] (boot Sample.page 500 "0.6s") in
  mobileMenuOpen s = true
  ∧ bodyOverflow s = if mobileMenuOpen s then "hidden" else "".
Proof.
  split; [vm_compute; reflexivity|].
  apply (scroll_locked_iff_mobile_menu_open Sample.page 500 "0.6s" [Click 10]).
  vm_compute. reflexivity.
Defined.

(** ** What is fixed at startup *)

(** X3: after startup the script neither registers nor removes a
    listener and never writes the animation duration again: in every
    state the page reaches both are what [init] left. *)
Theorem listeners_and_duration_fixed_at_startup (d : list Dom.Node) (width : Z)
    (value : string) (evs : list Event) (s : State) :
  run (load d) evs (boot d width value) = Some s →
  listeners s = listeners (boot d width value)
  ∧ TRANSITION_DURATION s = TRANSITION_DURATION (boot d width value).
Proof.
  intros Hr.
  apply (kept_run (load d)
           (λ s, listeners s = listeners (boot d width value)
                 ∧ TRANSITION_DURATION s = TRANSITION_DURATION (boot d width value)))
    with (evs := evs) (s := boot d width value); [| done | exact Hr | done].
  split; intros; assumption.
Qed.

Lemma listeners_and_duration_fixed_at_startup_witness :
  let evs := [Click 1; Keydown "Escape" false; Elapse 600; TimerFires 1] in
  TRANSITION_DURATION (Sample.after evs Sample.desktop) = JS.of_Z 600.
Proof.
  apply (listeners_and_duration_fixed_at_startup Sample.page 1200 "0.6s"
           [Click 1; Keydown "Escape" false; Elapse 600; TimerFires 1]).
  vm_compute. reflexivity.
Defined.

(** ** The two modes *)

Section Modes.

Variable pg : Page.

Lemma resize_or_not (ev : Event) : (∃ width, ev = Resize width) ∨ (∀ width, ev ≠ Resize width).
Proof. destruct ev; try (right; intros width; discriminate). left. by eexists. Qed.

(** A resize event only starts the debounce of the resize handler. *)
Lemma resize_dispatch (P : State → Prop) (width : Z) (s : State) :
  (∀ cb delay s, P s → P (debounce cb delay s)) →
  (∀ s, P s → P (set_defaultPrevented false s)) →
  P s → P (dispatch pg (Resize width) s).
Proof.
  intros Hd Hp H. unfold dispatch, runListeners.
  generalize (listeners (set_defaultPrevented false s)).
  intros ls. apply Hp in H. revert H. generalize (set_defaultPrevented false s).
  induction ls as [|l ls IH]; intros s0 H0; [exact H0|].
  cbn [foldl]. apply IH. destruct l; cbn [react]; try exact H0.
  cbn [state_of lift]. by apply Hd.
Qed.

(** X4: at mobile width nothing opens a dropdown: a turn of the event
    loop that starts at mobile width leaves the open-dropdown reference
    as it is or clears it. *)
Theorem no_dropdown_opens_at_mobile_width (ev : Event) (s s' : State) :
  step pg ev s = Some s' →
  isMobileMode s = true →
  currentOpenDropdown s' = currentOpenDropdown s ∨ currentOpenDropdown s' = None.
Proof.
  intros Hs Hm.
  destruct (resize_or_not ev) as [[width ->]|Hne].
  { left. unfold step in Hs. apply (inj Some) in Hs. subst s'.
    apply (resize_dispatch (λ s0, currentOpenDropdown s0 = currentOpenDropdown s));
      [| done..].
    intros cb delay s0 H0. rewrite <- H0. unfold debounce.
    by destruct (debounceTimeout s0). }
  set (P := λ s0, isMobileMode s0 = true
                  ∧ (currentOpenDropdown s0 = currentOpenDropdown s
                     ∨ currentOpenDropdown s0 = None)).
  assert (HK : Kept P).
  { split; try (intros; assumption).
    - intros s0 [H1 H2]. split; [exact H1 | by right].
    - intros t s0 H0 [H1 H2]. congruence. }
  refine (proj2 (kept_step pg P HK ev s s' Hs _ _)).
  - intros width E. by destruct (Hne width).
  - split; [exact Hm | by left].
Qed.

(** X5: at desktop width nothing opens the mobile panel: a turn of the
    event loop that starts at desktop width with the panel closed leaves
    it closed. *)
Theorem mobile_menu_stays_closed_at_desktop_width (ev : Event) (s s' : State) :
  step pg ev s = Some s' →
  isMobileMode s = false →
  mobileMenuOpen s = false →
  mobileMenuOpen s' = false.
Proof.
  intros Hs Hm Hc.
  destruct (resize_or_not ev) as [[width ->]|Hne].
  { unfold step in Hs. apply (inj Some) in Hs. subst s'.
    apply (resize_dispatch (λ s0, mobileMenuOpen s0 = false)); [| done..].
    intros cb delay s0 H0. rewrite <- H0. unfold debounce.
    by destruct (debounceTimeout s0). }
  set (P := λ s0, isMobileMode s0 = false ∧ mobileMenuOpen s0 = false).
  assert (HK : Kept P).
  { split; try (intros; assumption).
    - intros s0 H0 [H1 H2]. congruence.
    - intros s0 [H1 H2]. split; [exact H1 | reflexivity]. }
  refine (proj2 (kept_step pg P HK ev s s' Hs _ _)).
  - intros width E. by destruct (Hne width).
  - by split.
Qed.

End Modes.

Lemma no_dropdown_opens_at_mobile_width_witness :
  let s := boot Sample.page 500 "0.6s" in
  currentOpenDropdown (Sample.after [Click 1] s) = currentOpenDropdown s
  ∨ currentOpenDropdown (Sample.after [Click 1] s) = None.
Proof.
  apply (no_dropdown_opens_at_mobile_width Sample.pg (Click 1));
    vm_compute; reflexivity.
Defined.

Lemma mobile_menu_stays_closed_at_desktop_width_witness :
  mobileMenuOpen (Sample.after [Click 10] Sample.desktop) = false.
Proof.
  apply (mobile_menu_stays_closed_at_desktop_width Sample.pg (Click 10) Sample.desktop);
    vm_compute; reflexivity.
Defined.

(** ** The mobile panel *)

Section MobileMenu.

Variable pg : Page.

Implicit Types (s : State) (n nav b hb : nat).

Lemma active_same_doc s s' n : doc s = doc s' → active s n = active s' n.
Proof. unfold active. by intros ->. Qed.

Lemma attr_same_doc k s s' n : doc s = doc s' → attr k s n = attr k s' n.
Proof. unfold attr. by intros ->. Qed.










End MobileMenu.



(** ** The accordion: one section at a time *)

Section AccordionSections.

Implicit Types (s : State) (n button content : nat) (k : string).












End AccordionSections.



(** ** The keyboard *)

Section Keyboard.

Variable pg : Page.

Implicit Types (s : State) (n a b t btn : nat) (key k : string).

Lemma focused_matches_attr k s n :
  focused_matches (Dom.has_attr k) s (Some n) = bool_decide (is_Some (attr k s n)).
Proof.
  unfold focused_matches, attr, Dom.getAttribute, Dom.has_attr. simpl.
  by destruct (doc s !! n).
Qed.




Lemma isActivationKey_spec key : isActivationKey key = true ↔ key = "Enter" ∨ key = " ".
Proof.
  unfold isActivationKey. rewrite orb_true_iff, !String.eqb_eq. tauto.
Qed.

Lemma tabKeys_not_tab key shiftKey focused s :
  key ≠ "Tab" → tabKeys pg key shiftKey focused s = Ok s.
Proof.
  intros H. unfold tabKeys. destruct (currentOpenDropdown s); [|done].
  by rewrite (proj2 (String.eqb_neq _ _) H).
Qed.

Lemma accordionKeys_not_activation key focused s :
  isActivationKey key = false → accordionKeys key focused s = Ok s.
Proof. intros H. unfold accordionKeys. by rewrite H, andb_false_r. Qed.

(** X10: keys the script has no use for.  A key other than Escape,
    Enter, Space and Tab, and Escape itself when neither the mobile panel
    nor a dropdown is open, leaves the state as it is: nothing is written
    and the default action of the key is not prevented. *)
Theorem other_keys_are_ignored (key : string) (shiftKey : bool) (s : State) :
  key ≠ "Enter" → key ≠ " " → key ≠ "Tab" →
  (key = "Escape" → mobileMenuOpen s = false ∧ currentOpenDropdown s = None) →
  handleKeyboardNavigation pg key shiftKey s = Ok s.
Proof.
  intros H1 H2 H3 He.
  assert (Ha : isActivationKey key = false).
  { destruct (isActivationKey key) eqn:E; [|done].
    apply isActivationKey_spec in E. tauto. }
  assert (Ho : otherKeys pg key shiftKey (activeElement s) s = Ok s).
  { unfold otherKeys. rewrite Ha. cbn [andb].
    destruct (negb (isMobileMode s)).
    - unfold andThen. rewrite tabKeys_not_tab by done.
      by apply accordionKeys_not_activation.
    - by apply accordionKeys_not_activation. }
  rewrite handleKeyboardNavigation_unfold.
  destruct (String.eqb key "Escape") eqn:E; [|exact Ho].
  apply String.eqb_eq in E. destruct (He E) as [-> ->]. exact Ho.
Qed.





(** X13: the click listener of the document.  Whatever the target and
    the state, it changes nothing; it throws exactly when the viewport is
    at mobile width, a dropdown is recorded as open and the markup has no
    menu wrapper. *)
Theorem document_click_changes_nothing (target : nat) (s : State) :
  state_of (documentClick pg target s) = s
  ∧ (throws (documentClick pg target s) = true
     ↔ isMobileMode s = true ∧ is_Some (currentOpenDropdown s) ∧ menuWrapper pg = None).
Proof.
  split; [apply documentClick_inert|].
  unfold documentClick. destruct (isMobileMode s) eqn:Hm; cbn [andb].
  - case_bool_decide as Hc.
    + destruct (menuWrapper pg) as [w|].
      * destruct (negb _); [rewrite hideDropdowns_mobile by done|];
          (split; [discriminate | intros (_ & _ & E); discriminate E]).
      * by split.
    + split; [discriminate | tauto].
  - split; [discriminate | intros (E & _); discriminate E].
Qed.

End Keyboard.

Lemma other_keys_are_ignored_witness :
  handleKeyboardNavigation Sample.pg "Escape" false Sample.desktop = Ok Sample.desktop
  ∧ handleKeyboardNavigation Sample.pg "ArrowDown" false Sample.opened = Ok Sample.opened.
Proof.
  split.
  - apply other_keys_are_ignored; try discriminate. intros _. split; vm_compute; reflexivity.
  - apply other_keys_are_ignored; discriminate.
Defined.



(** ** Timers that fire *)

Section Firing.

Variable pg : Page.

Implicit Types (s : State) (t : Timer) (h : nat) (cb : Callback) (ms d : N).

(** The timer set last, once [ms] milliseconds have passed. *)
Lemma last_timer_fires s (pre : list Timer) h d cb ms :
  timers s = (pre ++ [mkTimer h d cb])%list →
  List.find (λ t, Nat.eqb (handle t) h) pre = None →
  run pg [Elapse ms; TimerFires h] s
  = if (d <=? clock s + ms)%N
    then Some (state_of (runCallback pg cb (clearTimeout (Some h) (set_clock (clock s + ms) s))))
    else None.
Proof.
  intros Ht Hf. cbn [run step timers set_clock clock]. rewrite Ht.
  rewrite find_app_None by done. cbn [List.find handle]. rewrite Nat.eqb_refl.
  cbn [due callback]. by destruct (_ <=? _)%N.
Qed.

Lemma find_below (ts : list Timer) (next h : nat) :
  (∀ t, t ∈ ts → (handle t < next)%nat) → (next ≤ h)%nat →
  List.find (λ t, Nat.eqb (handle t) h) ts = None.
Proof.
  intros Hb Hh. destruct (List.find _ _) as [t|] eqn:E; [|done].
  apply find_some in E as [Hin Heq]. apply Nat.eqb_eq in Heq.
  apply list_elem_of_In, Hb in Hin. lia.
Qed.

Lemma filter_live_below (ts : list Timer) (next h : nat) :
  (∀ t, t ∈ ts → (handle t < next)%nat) → (next ≤ h)%nat →
  List.filter (live h) ts = ts.
Proof.
  intros Hb Hh. apply forallb_filter_id, forallb_forall. intros t Ht.
  apply list_elem_of_In, Hb in Ht. unfold live. apply negb_true_iff, Nat.eqb_neq. lia.
Qed.

(** The timers a debounced call keeps are timers of the state it was
    made in. *)
Lemma debounce_prefix cb (delay : JS.num) s :
  fresh s = true →
  ∃ pre, timers (debounce cb delay s)
         = (pre ++ [mkTimer (nextHandle s) (clock s + JS.timeout_ms delay) cb])%list
         ∧ ∀ t, t ∈ pre → (handle t < nextHandle s)%nat.
Proof.
  intros Hf. destruct (debounce_unfold cb delay s) as (Ht & _).
  eexists. split; [exact Ht|]. intros t Hin.
  apply (proj1 (fresh_spec s) Hf).
  destruct (debounceTimeout s); [|done]. by apply elem_of_filterb in Hin as [Hin _].
Qed.

Lemma vars_debounce cb (delay : JS.num) s :
  doc (debounce cb delay s) = doc s
  ∧ innerWidth (debounce cb delay s) = innerWidth s
  ∧ currentOpenDropdown (debounce cb delay s) = currentOpenDropdown s
  ∧ clock (debounce cb delay s) = clock s
  ∧ lastFocusedElement (debounce cb delay s) = lastFocusedElement s
  ∧ TRANSITION_DURATION (debounce cb delay s) = TRANSITION_DURATION s
  ∧ nextHandle (debounce cb delay s) = S (nextHandle s)
  ∧ debounceTimeout (debounce cb delay s) = Some (nextHandle s).
Proof. unfold debounce. by destruct (debounceTimeout s). Qed.

(** The state a fired timer's closure starts from. *)
Lemma vars_fired h (c : N) s :
  doc (clearTimeout (Some h) (set_clock c s)) = doc s
  ∧ innerWidth (clearTimeout (Some h) (set_clock c s)) = innerWidth s
  ∧ currentOpenDropdown (clearTimeout (Some h) (set_clock c s)) = currentOpenDropdown s
  ∧ clock (clearTimeout (Some h) (set_clock c s)) = c
  ∧ lastFocusedElement (clearTimeout (Some h) (set_clock c s)) = lastFocusedElement s
  ∧ TRANSITION_DURATION (clearTimeout (Some h) (set_clock c s)) = TRANSITION_DURATION s
  ∧ nextHandle (clearTimeout (Some h) (set_clock c s)) = nextHandle s
  ∧ dropdownTimeout (clearTimeout (Some h) (set_clock c s)) = dropdownTimeout s
  ∧ timers (clearTimeout (Some h) (set_clock c s)) = List.filter (live h) (timers s).
Proof. by split_and!. Qed.

Lemma filter_live_last (pre : list Timer) h d cb :
  List.find (λ t, Nat.eqb (handle t) h) pre = None →
  (∀ t, t ∈ pre → (handle t < h)%nat) →
  List.filter (live h) (pre ++ [mkTimer h d cb]) = pre.
Proof.
  intros _ Hb. rewrite List.filter_app.
  assert (E : List.filter (live h) [mkTimer h d cb] = []).
  { unfold live. simpl. by rewrite Nat.eqb_refl. }
  rewrite E, app_nil_r. by apply (filter_live_below pre h h).
Qed.

End Firing.

(** ** Showing: the trigger *)

Section Trigger.

Variable pg : Page.

Implicit Types (s : State) (n a b t btn x : nat).

Lemma lookup_opening_before a b t s m :
  is_Some (doc (classList_add "active" b (classList_add "active" a
                  (classList_add "active" t (deactivateButtons pg
                     (forEach (dropdowns s) (classList_remove "active") s))))) !! m)
  ↔ is_Some (doc s !! m).
Proof.
  rewrite !lookup_classList_add, lookup_deactivateButtons.
  apply lookup_forEach. intros. apply lookup_classList_remove.
Qed.

(** The trigger of an opening is marked expanded and active. *)
Lemma trigger_opening a b t btn s :
  is_Some (doc s !! btn) →
  attr "aria-expanded" (opening pg a b t (Some btn) s) btn = Some "true"
  ∧ active (opening pg a b t (Some btn) s) btn = true.
Proof.
  intros Hb. unfold opening. rewrite enableDropdownLinks_tabLinks.
  rewrite attr_tabLinks_other by done. rewrite active_tabLinks.
  change (attr ?k (set_lastFocusedElement ?o ?x) ?n) with (attr k x n).
  change (active (set_lastFocusedElement ?o ?x) ?n) with (active x n).
  assert (Hin : ∀ o, is_Some (doc (classList_add "active" btn (set_currentOpenDropdown o
                  (classList_add "active" b (classList_add "active" a
                     (classList_add "active" t (deactivateButtons pg
                        (forEach (dropdowns s) (classList_remove "active") s))))))) !! btn)).
  { intros o. apply lookup_classList_add.
    change (doc (set_currentOpenDropdown ?o ?x)) with (doc x).
    by apply lookup_opening_before. }
  split.
  - by apply attr_setAttribute_same.
  - rewrite active_setAttribute. apply active_classList_add_same.
    change (doc (set_currentOpenDropdown ?o ?x)) with (doc x).
    by apply lookup_opening_before.
Qed.

(** Every other trigger is marked collapsed, and is inactive unless the
    markup makes it the panel, the area or the backdrop. *)
Lemma other_triggers_opening a b t button s x :
  x ∈ menuButtons pg →
  button ≠ Some x →
  (is_Some (doc s !! x) → attr "aria-expanded" (opening pg a b t button s) x = Some "false")
  ∧ (x ≠ t → x ≠ a → x ≠ b → active (opening pg a b t button s) x = false).
Proof.
  intros Hx Hne. unfold opening. rewrite enableDropdownLinks_tabLinks.
  rewrite attr_tabLinks_other by done. rewrite active_tabLinks.
  set (s1 := forEach (dropdowns s) (classList_remove "active") s).
  destruct (deactivateButtons_spec pg s1 x Hx) as [Hact Hexp].
  assert (Hin : is_Some (doc s !! x) → is_Some (doc s1 !! x)).
  { intros H. apply lookup_forEach; [|done]. intros. apply lookup_classList_remove. }
  assert (H4 : ∀ o,
            (is_Some (doc s !! x) →
             attr "aria-expanded" (set_currentOpenDropdown o
               (classList_add "active" b (classList_add "active" a
                  (classList_add "active" t (deactivateButtons pg s1))))) x = Some "false")
            ∧ (x ≠ t → x ≠ a → x ≠ b →
               active (set_currentOpenDropdown o
                 (classList_add "active" b (classList_add "active" a
                    (classList_add "active" t (deactivateButtons pg s1))))) x = false)).
  { intros o. split.
    - intros H. change (attr ?k (set_currentOpenDropdown ?o ?y) ?n) with (attr k y n).
      rewrite !attr_classList_add. by apply Hexp, Hin.
    - intros H1 H2 H3. change (active (set_currentOpenDropdown ?o ?y) ?n) with (active y n).
      by rewrite !active_classList_add_ne. }
  destruct button as [btn|]; [|apply H4].
  assert (Hb : btn ≠ x) by congruence.
  change (attr ?k (set_lastFocusedElement ?o ?y) ?n) with (attr k y n).
  change (active (set_lastFocusedElement ?o ?y) ?n) with (active y n).
  rewrite attr_setAttribute_ne_node, attr_classList_add by done.
  rewrite active_setAttribute, active_classList_add_ne by done.
  apply H4.
Qed.

(** X14: after a show request one trigger is marked.  At desktop width,
    with area and backdrop present, a show request that opens a panel
    marks its own trigger expanded and active and records it for the
    return of the focus; every other trigger is marked collapsed, and is
    inactive unless the markup makes it the panel, the area or the
    backdrop. *)
Theorem show_request_marks_one_trigger (a b t btn : nat) (dropdownId : option string)
    (s : State) :
  isMobileMode s = false →
  dropdownArea pg = Some a →
  backdrop pg = Some b →
  Dom.getElementById ("dropdown-" +:+ JS.to_string dropdownId) (doc s) = Some t →
  currentOpenDropdown s ≠ Some t →
  is_Some (doc s !! btn) →
  ∃ s', showDropdown pg dropdownId (Some btn) s = Ok s'
        ∧ attr "aria-expanded" s' btn = Some "true"
        ∧ active s' btn = true
        ∧ lastFocusedElement s' = Some btn
        ∧ ∀ x, x ∈ menuButtons pg → x ≠ btn →
            (is_Some (doc s !! x) → attr "aria-expanded" s' x = Some "false")
            ∧ (x ≠ t → x ≠ a → x ≠ b → active s' x = false).
Proof.
  intros Hm Ha Hb Ht Hcur Hin.
  rewrite (showDropdown_cases pg a b) by done. rewrite Hm, Ht.
  rewrite (bool_decide_eq_false_2 _ Hcur). cbn [andb].
  destruct (vars_clearTimeout (dropdownTimeout s) s) as (Hd & _).
  eexists. split; [reflexivity|].
  assert (Hin' : is_Some (doc (clearTimeout (dropdownTimeout s) s) !! btn)) by (by rewrite Hd).
  destruct (trigger_opening a b t btn _ Hin') as [He Hact].
  destruct (vars_opening pg a b t (Some btn) (clearTimeout (dropdownTimeout s) s))
    as (_ & _ & _ & _ & _ & _ & _ & _ & _ & Hl).
  split_and!; [exact He | exact Hact | by apply Hl |].
  intros x Hx Hne.
  destruct (other_triggers_opening a b t (Some btn) (clearTimeout (dropdownTimeout s) s) x Hx)
    as [H1 H2]; [congruence|].
  split; [|exact H2]. intros Hix. apply H1. by rewrite Hd.
Qed.

End Trigger.

Lemma show_request_marks_one_trigger_witness :
  ∃ s', showDropdown Sample.pg (Some "about") (Some 2%nat) Sample.opened = Ok s'
        ∧ attr "aria-expanded" s' 2 = Some "true"
        ∧ attr "aria-expanded" s' 1 = Some "false"
        ∧ active s' 1 = false.
Proof.
  destruct (show_request_marks_one_trigger Sample.pg 3 9 7 2 (Some "about") Sample.opened)
    as (s' & H1 & H2 & _ & _ & H3).
  - vm_compute. reflexivity.
  - reflexivity.
  - reflexivity.
  - vm_compute. reflexivity.
  - vm_compute. intros E. discriminate E.
  - by_evaluation.
  - destruct (H3 1%nat) as [H4 H5]; [by_evaluation | intros E; discriminate E |].
    exists s'. split_and!; [exact H1 | exact H2 | apply H4; by_evaluation |].
    apply H5; intros E; discriminate E.
Defined.

(** ** Hovering *)

Section Hover.

Variable pg : Page.

Implicit Types (s : State) (n a b t btn target : nat) (ms : N).




Lemma run_app (evs evs' : list Event) s :
  run pg (evs ++ evs') s = run pg evs s ≫= run pg evs'.
Proof.
  revert s. induction evs as [|ev evs IH]; intros s; [done|].
  cbn [app run]. destruct (step pg ev s); [apply IH | done].
Qed.

(** The timer set last, when it is already due. *)
Lemma last_timer_fires_now s (pre : list Timer) (h : nat) (d : N) (cb : Callback) :
  timers s = (pre ++ [mkTimer h d cb])%list →
  List.find (λ tm : Timer, Nat.eqb (handle tm) h) pre = None →
  (d ≤ clock s)%N →
  step pg (TimerFires h) s
  = Some (state_of (runCallback pg cb (clearTimeout (Some h) s))).
Proof.
  intros Ht Hf Hd. cbn [step]. rewrite Ht.
  rewrite find_app_None by done. cbn [List.find handle]. rewrite Nat.eqb_refl.
  cbn [due callback]. by rewrite (proj2 (N.leb_le _ _) Hd).
Qed.

(** The closure of the pointer-leave debounce: it starts the close
    delay. *)
Lemma vars_closeDelay cb (delay : JS.num) s :
  let s' := let '(h, s0) := setTimeout cb delay s in set_dropdownTimeout (Some h) s0 in
  doc s' = doc s
  ∧ innerWidth s' = innerWidth s
  ∧ currentOpenDropdown s' = currentOpenDropdown s
  ∧ clock s' = clock s
  ∧ TRANSITION_DURATION s' = TRANSITION_DURATION s
  ∧ nextHandle s' = S (nextHandle s)
  ∧ timers s' = (timers s ++ [mkTimer (nextHandle s) (clock s + JS.timeout_ms delay) cb])%list.
Proof. by split_and!. Qed.

(** From the state [s1] in which the pointer-leave debounce is the timer
    set last: the debounce fires, its close delay fires at once, and the
    hide request it makes is complete one animation later. *)
Lemma leave_timer_fires (a b : nat) (pre : list Timer) (h : nat) (d ms1 ms2 : N) (s1 : State) :
  dropdownArea pg = Some a →
  backdrop pg = Some b →
  timers s1 = (pre ++ [mkTimer h d CbLeave])%list →
  (∀ tm, tm ∈ pre → (handle tm < h)%nat) →
  nextHandle s1 = S h →
  isMobileMode s1 = false →
  (d ≤ clock s1 + ms1)%N →
  (JS.timeout_ms (TRANSITION_DURATION s1) ≤ ms2)%N →
  ∃ s2 s3,
    run pg [Elapse ms1; TimerFires h; TimerFires (S h)] s1 = Some s2
    ∧ active s2 a = false
    ∧ active s2 b = false
    ∧ (∀ x, x ∈ menuButtons pg → active s2 x = false)
    ∧ currentOpenDropdown s2 = currentOpenDropdown s1
    ∧ run pg [Elapse ms2; TimerFires (S (S h))] s2 = Some s3
    ∧ Closed s3
    ∧ active s3 a = false
    ∧ active s3 b = false.
Proof.
  intros Ha Hb Ht Hpre Hn Hm Hd HD.
  assert (Hfind : List.find (λ tm : Timer, Nat.eqb (handle tm) h) pre = None)
    by (by apply (find_below pre h)).
  change [Elapse ms1; TimerFires h; TimerFires (S h)]
    with ([Elapse ms1; TimerFires h] ++ [TimerFires (S h)])%list.
  rewrite run_app, (last_timer_fires pg s1 pre h d _ ms1 Ht Hfind).
  rewrite (proj2 (N.leb_le _ _) Hd). cbn [runCallback lift state_of mbind option_bind].
  (* the state the debounced closure starts from *)
  destruct (vars_fired h (clock s1 + ms1) s1) as (Fd & Fw & Fc & Fk & _ & Fdur & Fn & _ & Ft).
  rewrite Ht, (filter_live_last pre h d _ Hfind Hpre), Hn in *.
  generalize dependent (clearTimeout (Some h) (set_clock (clock s1 + ms1) s1)).
  intros x1 Fd Fw Fc Fk Fdur Fn Ft.
  (* the state after the closure: the close delay is pending *)
  destruct (vars_closeDelay CbCloseDelay CLOSE_DELAY x1) as (Ld & Lw & Lc & Lk & Ldur & Ln & Lt).
  cbv zeta in Ld, Lw, Lc, Lk, Ldur, Ln, Lt.
  rewrite Ft, Fn in *.
  generalize dependent (let '(h0, s0) := setTimeout CbCloseDelay CLOSE_DELAY x1 in
                        set_dropdownTimeout (Some h0) s0).
  intros y Ld Lw Lc Lk Ldur Ln Lt.
  assert (Hfind' : List.find (λ tm : Timer, Nat.eqb (handle tm) (S h)) pre = None).
  { apply (find_below pre h); [done | lia]. }
  cbn [run].
  rewrite (last_timer_fires_now y pre (S h) _ _ Lt Hfind')
    by (rewrite Lk; change (JS.timeout_ms CLOSE_DELAY) with 0%N; lia).
  cbn [runCallback].
  (* the state the hide request starts from *)
  assert (Xd : doc (clearTimeout (Some (S h)) y) = doc y) by reflexivity.
  assert (Xw : innerWidth (clearTimeout (Some (S h)) y) = innerWidth y) by reflexivity.
  assert (Xc : currentOpenDropdown (clearTimeout (Some (S h)) y) = currentOpenDropdown y)
    by reflexivity.
  assert (Xdur : TRANSITION_DURATION (clearTimeout (Some (S h)) y) = TRANSITION_DURATION y)
    by reflexivity.
  assert (Xn : nextHandle (clearTimeout (Some (S h)) y) = nextHandle y) by reflexivity.
  assert (Xt : timers (clearTimeout (Some (S h)) y) = List.filter (live (S h)) (timers y))
    by reflexivity.
  rewrite Lt, (filter_live_last pre (S h) _ _ Hfind'), Ln in *
    by (intros tm Htm; apply Hpre in Htm; lia).
  generalize dependent (clearTimeout (Some (S h)) y).
  intros x2 Xd Xw Xc Xdur Xn Xt.
  assert (Hm2 : isMobileMode x2 = false).
  { unfold isMobileMode in *. by rewrite Xw, Lw, Fw. }
  assert (Hf2 : fresh x2 = true).
  { apply fresh_spec. rewrite Xt, Xn. intros tm Htm. apply Hpre in Htm. lia. }
  rewrite (hideDropdowns_desktop pg a b) by done. cbn [state_of].
  destruct (closing_immediate pg a b x2) as (Ia & Ib & Ibtn).
  destruct (vars_closing pg a b x2) as (_ & _ & _ & _ & Vc & _).
  pose proof (collapse_timer_fires pg a b x2 ms2 Hf2) as Hrun.
  rewrite Xn, Xdur, Ldur, Fdur in Hrun.
  rewrite (proj2 (N.leb_le _ _) HD) in Hrun.
  eexists _, _. split; [reflexivity|].
  split_and!; [exact Ia | exact Ib | intros x Hx; by apply Ibtn | | exact Hrun | | |].
  - by rewrite Vc, Xc, Lc, Fc.
  - apply Closed_collapse.
  - apply active_collapse_false.
    transitivity (active (closing pg a b x2) a); [by apply active_same_doc | exact Ia].
  - apply active_collapse_false.
    transitivity (active (closing pg a b x2) b); [by apply active_same_doc | exact Ib].
Qed.

(** X16: the pointer leaving the menu.  At desktop width, with area and
    backdrop present, the pointer leaving the wrapper changes nothing at
    once: it starts the 50 ms debounce.  When that timer fires it starts
    the close delay, which is due at once; the close delay makes the hide
    request, deactivating area, backdrop and triggers; one animation
    duration later the collapse timer fires and the machine is closed. *)
Theorem pointer_leave_closes_after_delays (a b : nat) (s : State) :
  isMobileMode s = false →
  dropdownArea pg = Some a →
  backdrop pg = Some b →
  fresh s = true →
  let h := nextHandle s in
  let D := JS.timeout_ms (TRANSITION_DURATION s) in
  ∃ s1,
    handleMouseLeave s = Ok s1
    ∧ doc s1 = doc s
    ∧ currentOpenDropdown s1 = currentOpenDropdown s
    ∧ (∀ ms, (ms < 50)%N → run pg [Elapse ms; TimerFires h] s1 = None)
    ∧ (∀ ms1 ms2, (50 ≤ ms1)%N → (D ≤ ms2)%N →
         ∃ s2 s3,
           run pg [Elapse ms1; TimerFires h; TimerFires (S h)] s1 = Some s2
           ∧ active s2 a = false
           ∧ active s2 b = false
           ∧ (∀ x, x ∈ menuButtons pg → active s2 x = false)
           ∧ currentOpenDropdown s2 = currentOpenDropdown s
           ∧ run pg [Elapse ms2; TimerFires (S (S h))] s2 = Some s3
           ∧ Closed s3
           ∧ active s3 a = false
           ∧ active s3 b = false).
Proof.
  intros Hm Ha Hb Hf h D. subst h D.
  unfold handleMouseLeave. rewrite Hm.
  destruct (debounce_prefix CbLeave DEBOUNCE_DELAY s Hf) as (pre & Ht & Hpre).
  destruct (vars_debounce CbLeave DEBOUNCE_DELAY s) as (Dd & Dw & Dc & Dk & _ & Ddur & Dn & _).
  assert (Hfind : List.find (λ tm : Timer, Nat.eqb (handle tm) (nextHandle s)) pre = None)
    by (by apply (find_below pre (nextHandle s))).
  generalize dependent (debounce CbLeave DEBOUNCE_DELAY s).
  intros s1 Ht Dd Dw Dc Dk Ddur Dn.
  change (JS.timeout_ms DEBOUNCE_DELAY) with 50%N in Ht.
  exists s1. split_and!; [reflexivity | exact Dd | exact Dc | |].
  - intros ms Hms. rewrite (last_timer_fires pg s1 pre _ _ _ ms Ht Hfind).
    rewrite Dk. by rewrite (proj2 (N.leb_gt _ _)) by lia.
  - intros ms1 ms2 H1 H2.
    destruct (leave_timer_fires a b pre (nextHandle s) (clock s + 50) ms1 ms2 s1)
      as (s2 & s3 & R1 & R2 & R3 & R4 & R5 & R6 & R7 & R8 & R9); try done.
    + unfold isMobileMode in *. by rewrite Dw.
    + rewrite Dk. lia.
    + by rewrite Ddur.
    + exists s2, s3. split_and!; try done. by rewrite R5.
Qed.

End Hover.


Lemma pointer_leave_closes_after_delays_witness :
  active Sample.opened 4 = true
  ∧ ∃ s1 s2 s3,
      handleMouseLeave Sample.opened = Ok s1
      ∧ run Sample.pg [Elapse 50; TimerFires 1; TimerFires 2] s1 = Some s2
      ∧ run Sample.pg [Elapse 600; TimerFires 3] s2 = Some s3
      ∧ Closed s3.
Proof.
  split; [vm_compute; reflexivity|].
  assert (Hn : nextHandle Sample.opened = 1%nat) by (vm_compute; reflexivity).
  assert (HD : JS.timeout_ms (TRANSITION_DURATION Sample.opened) = 600%N)
    by (vm_compute; reflexivity).
  destruct (pointer_leave_closes_after_delays Sample.pg 3 9 Sample.opened)
    as (s1 & H1 & _ & _ & _ & H2).
  - vm_compute. reflexivity.
  - reflexivity.
  - reflexivity.
  - vm_compute. reflexivity.
  - rewrite Hn, HD in H2.
    destruct (H2 50%N 600%N) as (s2 & s3 & R1 & _ & _ & _ & _ & R2 & R3 & _);
      [reflexivity | reflexivity |].
    exists s1, s2, s3. split_and!; assumption.
Defined.

(** ** A pending collapse that is cancelled *)

Section Cancelled.

Variable pg : Page.

Implicit Types (s : State) (n a b : nat) (ms : N).

Lemma find_singleton_other (h h' : nat) (d : N) (cb : Callback) :
  h' ≠ h → List.find (λ tm : Timer, Nat.eqb (handle tm) h) [mkTimer h' d cb] = None.
Proof. intros H. cbn [List.find handle]. by rewrite (proj2 (Nat.eqb_neq _ _) H). Qed.

(** A timer that is not in the queue cannot fire. *)
Lemma absent_timer_does_not_fire (h : nat) ms s :
  List.find (λ tm : Timer, Nat.eqb (handle tm) h) (timers s) = None →
  run pg [Elapse ms; TimerFires h] s = None.
Proof. intros H. cbn [run step timers set_clock]. by rewrite H. Qed.

(** The state of a hide request once its collapse timer has been
    cleared. *)
Lemma vars_collapse_cleared a b s :
  fresh s = true →
  let s' := clearTimeout (dropdownTimeout (closing pg a b s)) (closing pg a b s) in
  timers s' = timers s
  ∧ nextHandle s' = S (nextHandle s)
  ∧ doc s' = doc (closing pg a b s)
  ∧ innerWidth s' = innerWidth s
  ∧ currentOpenDropdown s' = currentOpenDropdown s.
Proof.
  intros Hf. cbv zeta.
  destruct (vars_closing pg a b s) as (Vd & Vn & _ & Vw & Vc & _).
  pose proof (timers_closing pg a b s) as Vt. rewrite Vd.
  generalize dependent (closing pg a b s). intros c Vd Vn Vw Vc Vt.
  cbn [clearTimeout timers set_timers nextHandle doc innerWidth currentOpenDropdown].
  rewrite Vt, Vn, Vw, Vc. split_and!; try reflexivity.
  apply filter_live_last; [by apply find_fresh|]. by apply fresh_spec.
Qed.

(** X17: a show request cancels the collapse that is pending.  At desktop
    width, a hide request leaves its collapse timer in the queue, named
    by [dropdownTimeout]; whatever the panel id and the trigger of the
    show request that follows, that timer is no longer in the queue
    afterwards and can never fire. *)
Theorem show_request_cancels_pending_collapse (a b : nat) (dropdownId : option string)
    (button : option nat) (s : State) :
  isMobileMode s = false →
  dropdownArea pg = Some a →
  backdrop pg = Some b →
  fresh s = true →
  let h := nextHandle s in
  ∃ s1 s2,
    hideDropdowns pg s = Ok s1
    ∧ dropdownTimeout s1 = Some h
    ∧ List.find (λ tm : Timer, Nat.eqb (handle tm) h) (timers s1)
      = Some (mkTimer h (clock s + JS.timeout_ms (TRANSITION_DURATION s)) CbCollapse)
    ∧ showDropdown pg dropdownId button s1 = Ok s2
    ∧ List.find (λ tm : Timer, Nat.eqb (handle tm) h) (timers s2) = None
    ∧ ∀ ms, run pg [Elapse ms; TimerFires h] s2 = None.
Proof.
  intros Hm Ha Hb Hf h. subst h.
  rewrite (hideDropdowns_desktop pg a b) by done.
  destruct (vars_closing pg a b s) as (Vd & _ & _ & Vw & _).
  pose proof (timers_closing pg a b s) as Vt.
  destruct (vars_collapse_cleared a b s Hf) as (Ct & Cn & _ & _ & _).
  assert (Hnone : List.find (λ tm : Timer, Nat.eqb (handle tm) (nextHandle s)) (timers s)
                  = None) by (by apply find_fresh).
  assert (Hs2 : ∃ s2, showDropdown pg dropdownId button (closing pg a b s) = Ok s2
                      ∧ List.find (λ tm : Timer, Nat.eqb (handle tm) (nextHandle s)) (timers s2)
                        = None).
  { rewrite (showDropdown_cases pg a b) by done.
    unfold isMobileMode in *. rewrite Vw, Hm. cbv zeta.
    generalize dependent (clearTimeout (dropdownTimeout (closing pg a b s)) (closing pg a b s)).
    intros c Ct Cn.
    eexists. split; [reflexivity|].
    destruct (Dom.getElementById _ _) as [t|]; [|by rewrite Ct].
    destruct (_ && _).
    - rewrite timers_closing, Ct, Cn. rewrite find_app_None by done.
      apply find_singleton_other. lia.
    - destruct (vars_opening pg a b t button c) as (_ & _ & Ot & _). by rewrite Ot, Ct. }
  destruct Hs2 as (s2 & Hs2 & Hfind).
  exists (closing pg a b s), s2.
  split_and!; [reflexivity | exact Vd | | exact Hs2 | exact Hfind |].
  - rewrite Vt, find_app_None by done. cbn [List.find handle]. by rewrite Nat.eqb_refl.
  - intros ms. by apply absent_timer_does_not_fire.
Qed.

Lemma active_deactivateButtons_other s n :
  n ∉ menuButtons pg → active (deactivateButtons pg s) n = active s n.
Proof.
  intros Hn. unfold deactivateButtons.
  apply (forEach_ind (λ s', active s' n = active s n)); [done|].
  intros btn s' Hbtn <-. unfold deactivateButton.
  rewrite active_setAttribute. apply active_classList_remove_ne. by intros ->.
Qed.

Lemma active_closing_other a b s n :
  n ≠ a → n ≠ b → n ∉ menuButtons pg → active (closing pg a b s) n = active s n.
Proof.
  intros H1 H2 H3. unfold closing.
  transitivity (active (deactivateButtons pg
                          (classList_remove "active" b (classList_remove "active" a s))) n).
  { by apply active_same_doc. }
  rewrite active_deactivateButtons_other by done.
  by rewrite !active_classList_remove_ne.
Qed.

(** X18: the pointer coming back while the panel collapses.  The
    wrapper's second pointer-enter listener clears whatever timer
    [dropdownTimeout] names.  After a hide request at desktop width that
    is the collapse timer: the queue is again what it was before the
    request, so the deferred phase never runs.  Area, backdrop and
    triggers stay inactive, while the reference to the open dropdown and
    the class of every other element, the panel among them, stay as they
    were before the request. *)
Theorem pointer_reentry_cancels_pending_collapse (a b w : nat) (s : State) :
  isMobileMode s = false →
  dropdownArea pg = Some a →
  backdrop pg = Some b →
  menuWrapper pg = Some w →
  fresh s = true →
  ∃ s1 listener,
    hideDropdowns pg s = Ok s1
    ∧ react pg (MouseEnter w) OnMouseEnterClear s1 = Some listener
    ∧ timers (state_of (listener s1)) = timers s
    ∧ currentOpenDropdown (state_of (listener s1)) = currentOpenDropdown s
    ∧ active (state_of (listener s1)) a = false
    ∧ active (state_of (listener s1)) b = false
    ∧ (∀ x, x ∈ menuButtons pg → active (state_of (listener s1)) x = false)
    ∧ (∀ n, n ≠ a → n ≠ b → n ∉ menuButtons pg →
            active (state_of (listener s1)) n = active s n).
Proof.
  intros Hm Ha Hb Hw Hf.
  rewrite (hideDropdowns_desktop pg a b) by done.
  exists (closing pg a b s), (lift (λ s, clearTimeout (dropdownTimeout s) s)).
  split; [reflexivity|].
  split; [cbn [react]; by rewrite Hw, bool_decide_eq_true_2|].
  cbn [lift state_of].
  destruct (vars_collapse_cleared a b s Hf) as (Ct & _ & Cd & _ & Cc).
  destruct (closing_immediate pg a b s) as (Ia & Ib & Ibtn).
  assert (Hact : ∀ n, active (clearTimeout (dropdownTimeout (closing pg a b s))
                                (closing pg a b s)) n
                      = active (closing pg a b s) n).
  { intros n. by apply active_same_doc. }
  split_and!; [exact Ct | exact Cc | by rewrite Hact | by rewrite Hact | |].
  - intros x Hx. rewrite Hact. by apply Ibtn.
  - intros n H1 H2 H3. rewrite Hact. by apply active_closing_other.
Qed.

End Cancelled.

Lemma show_request_cancels_pending_collapse_witness :
  ∃ s1 s2,
    hideDropdowns Sample.pg Sample.opened = Ok s1
    ∧ timers s1 = [mkTimer 1 600 CbCollapse]
    ∧ showDropdown Sample.pg (Some "about") (Some 2%nat) s1 = Ok s2
    ∧ run Sample.pg [Elapse 600; TimerFires 1] s2 = None.
Proof.
  assert (Hn : nextHandle Sample.opened = 1%nat) by (vm_compute; reflexivity).
  destruct (show_request_cancels_pending_collapse Sample.pg 3 9 (Some "about") (Some 2%nat)
              Sample.opened) as (s1 & s2 & H1 & _ & _ & H2 & _ & H3).
  - vm_compute. reflexivity.
  - reflexivity.
  - reflexivity.
  - vm_compute. reflexivity.
  - rewrite Hn in H3. exists s1, s2.
    split_and!; [exact H1 | | exact H2 | apply H3].
    assert (E : hideDropdowns Sample.pg Sample.opened
                = Ok (closing Sample.pg 3 9 Sample.opened))
      by (apply hideDropdowns_desktop; [vm_compute|..]; reflexivity).
    rewrite E in H1. injection H1 as <-. vm_compute. reflexivity.
Defined.

Lemma pointer_reentry_cancels_pending_collapse_witness :
  active Sample.opened 4 = true
  ∧ ∃ s1 listener,
      hideDropdowns Sample.pg Sample.opened = Ok s1
      ∧ react Sample.pg (MouseEnter 0) OnMouseEnterClear s1 = Some listener
      ∧ timers (state_of (listener s1)) = []
      ∧ currentOpenDropdown (state_of (listener s1)) = Some 4%nat
      ∧ active (state_of (listener s1)) 3 = false
      ∧ active (state_of (listener s1)) 4 = true.
Proof.
  assert (Ha : active Sample.opened 4 = true) by (vm_compute; reflexivity).
  assert (Ht : timers Sample.opened = []) by (vm_compute; reflexivity).
  assert (Hc : currentOpenDropdown Sample.opened = Some 4%nat) by (vm_compute; reflexivity).
  split; [exact Ha|].
  destruct (pointer_reentry_cancels_pending_collapse Sample.pg 3 9 0 Sample.opened)
    as (s1 & listener & H1 & H2 & H3 & H4 & H5 & _ & _ & H6).
  - vm_compute. reflexivity.
  - reflexivity.
  - reflexivity.
  - reflexivity.
  - vm_compute. reflexivity.
  - exists s1, listener.
    split_and!; [exact H1 | exact H2 | by rewrite H3 | by rewrite H4 | exact H5 |].
    rewrite H6; [exact Ha | intros E; discriminate E | intros E; discriminate E |].
    by_evaluation.
Defined.

(** ** Startup: the panels *)

Section StartupPanels.

Implicit Types (s : State) (n l : nat).

Lemma init_unfold (pg : Page) (value : string) s :
  init pg value s
  = Ok (addEventListeners [OnDocumentClick]
          (addEventListeners [OnResize]
             (forEach (dropdowns (registered pg value s)) disableDropdownLinks
                (registered pg value s)))).
Proof.
  unfold init, registered, andThen, lift. cbv zeta.
  repeat case_bool_decide; reflexivity.
Qed.

Lemma vars_registered (pg : Page) (value : string) s :
  doc (registered pg value s) = doc s
  ∧ timers (registered pg value s) = timers s
  ∧ nextHandle (registered pg value s) = nextHandle s
  ∧ currentOpenDropdown (registered pg value s) = currentOpenDropdown s
  ∧ mobileMenuOpen (registered pg value s) = mobileMenuOpen s
  ∧ bodyOverflow (registered pg value s) = bodyOverflow s
  ∧ activeElement (registered pg value s) = activeElement s.
Proof.
  unfold registered, readDuration.
  destruct (JS.endsWith (JS.trim value) "s"), (JS.endsWith (JS.trim value) "ms");
    repeat case_bool_decide; by split_and!.
Qed.

(** The loop of [init] over the panels. *)
Lemma disable_all_spec s :
  let s' := forEach (dropdowns s) disableDropdownLinks s in
  (∀ n l, n ∈ dropdowns s → l ∈ Dom.links (doc s) n → attr "tabindex" s' l = Some "-1")
  ∧ (∀ l, (∀ n, n ∈ dropdowns s → l ∉ Dom.links (doc s) n) →
          attr "tabindex" s' l = attr "tabindex" s l)
  ∧ (∀ n, active s' n = active s n)
  ∧ (∀ k n, k ≠ "tabindex" → attr k s' n = attr k s n)
  ∧ rest s' = rest s.
Proof.
  cbv zeta. rewrite disableDropdownLinks_tabLinks. split_and!.
  - intros n l Hn Hl. revert n Hn l Hl.
    apply (forEach_establish
             (λ s', shape s' = shape s)
             (λ n s', ∀ l, l ∈ Dom.links (doc s) n → attr "tabindex" s' l = Some "-1"));
      [done | | |].
    + intros n s' <-. apply shape_tabLinks.
    + intros n s' _ Hs l Hl. apply attr_tabLinks_links. by rewrite (links_shape _ s).
    + intros n m s' Hs H l Hl. apply attr_tabLinks_keep. by apply H.
  - intros l Hl.
    apply (forEach_ind (λ s', shape s' = shape s ∧ attr "tabindex" s' l = attr "tabindex" s l));
      [done|].
    intros n s' Hn [Hs <-]. split; [by rewrite shape_tabLinks|].
    apply attr_tabLinks_outside. rewrite (links_shape _ s) by done. by apply Hl.
  - intros n. apply (forEach_ind (λ s', active s' n = active s n)); [done|].
    intros m s' _ <-. apply active_tabLinks.
  - intros k n Hk. apply (forEach_ind (λ s', attr k s' n = attr k s n)); [done|].
    intros m s' _ <-. by apply attr_tabLinks_other.
  - apply rest_forEach. intros. apply rest_tabLinks.
Qed.

(** X19: what startup leaves behind.  [init] completes on every page.
    It makes the links of every dropdown panel unreachable by the Tab
    key (tabindex -1) and changes nothing else in the document: every
    class, every other attribute and the tabindex of every other element
    are those of the markup.  No timer is pending, no dropdown is
    recorded as open, the mobile panel is flagged closed and the scroll
    is not locked. *)
Theorem startup_disables_panel_links (d : list Dom.Node) (width : Z) (value : string) :
  throws (init (load d) value (initial d width)) = false
  ∧ (∀ n l, n ∈ Dom.querySelectorAll (Dom.has_class "dropdown") d → l ∈ Dom.links d n →
            attr "tabindex" (boot d width value) l = Some "-1")
  ∧ (∀ l, (∀ n, n ∈ Dom.querySelectorAll (Dom.has_class "dropdown") d → l ∉ Dom.links d n) →
          attr "tabindex" (boot d width value) l = Dom.getAttribute "tabindex" d l)
  ∧ (∀ n, active (boot d width value) n = active (initial d width) n)
  ∧ (∀ k n, k ≠ "tabindex" → attr k (boot d width value) n = Dom.getAttribute k d n)
  ∧ timers (boot d width value) = []
  ∧ currentOpenDropdown (boot d width value) = None
  ∧ mobileMenuOpen (boot d width value) = false
  ∧ bodyOverflow (boot d width value) = "".
Proof.
  split; [apply init_completes|].
  unfold boot. rewrite init_unfold. cbn [state_of].
  destruct (vars_registered (load d) value (initial d width))
    as (Rd & Rt & _ & Rc & Rm & Ro & _).
  assert (Hdr : dropdowns (registered (load d) value (initial d width))
                = Dom.querySelectorAll (Dom.has_class "dropdown") d).
  { unfold dropdowns. by rewrite Rd. }
  destruct (disable_all_spec (registered (load d) value (initial d width)))
    as (H1 & H2 & H3 & H4 & H5).
  cbv zeta in H1, H2, H3, H4, H5. rewrite Hdr, Rd in *.
  assert (Hattr : ∀ k n, attr k (registered (load d) value (initial d width)) n
                         = Dom.getAttribute k d n).
  { intros k n. unfold attr. by rewrite Rd. }
  assert (Hact : ∀ n, active (registered (load d) value (initial d width)) n
                      = active (initial d width) n).
  { intros n. apply active_same_doc. exact Rd. }
  generalize dependent (registered (load d) value (initial d width)).
  intros r Rd Rt Rc Rm Ro Hdr H1 H2 H3 H4 H5 Hattr Hact.
  generalize dependent (forEach (Dom.querySelectorAll (Dom.has_class "dropdown") d)
                          disableDropdownLinks r).
  intros f H1 H2 H3 H4 H5.
  assert (Hsame : ∀ k n, attr k (addEventListeners [OnDocumentClick]
                                   (addEventListeners [OnResize] f)) n = attr k f n).
  { intros k n. by apply attr_same_doc. }
  split_and!.
  - intros n l Hn Hl. rewrite Hsame. by apply (H1 n).
  - intros l Hl. rewrite Hsame, <- Hattr. by apply H2.
  - intros n. transitivity (active f n); [by apply active_same_doc|]. by rewrite H3.
  - intros k n Hk. rewrite Hsame, <- Hattr. by apply H4.
  - transitivity (timers (rest f)); [reflexivity|]. by rewrite H5, timers_rest, Rt.
  - transitivity (currentOpenDropdown (rest f)); [reflexivity|].
    by rewrite H5, currentOpenDropdown_rest, Rc.
  - transitivity (mobileMenuOpen (rest f)); [reflexivity|].
    by rewrite H5, mobileMenuOpen_rest, Rm.
  - transitivity (bodyOverflow (rest f)); [reflexivity|].
    rewrite H5. transitivity (bodyOverflow r); [reflexivity | exact Ro].
Qed.

End StartupPanels.

(** ** At most one panel, in every state *)

Section Markup.

Implicit Types (d : list Dom.Node) (s : State) (n : nat) (k : string).

Lemma skeleton_untouched (nd nd' : Dom.Node) :
  untouched nd = untouched nd' → skeleton nd = skeleton nd'.
Proof.
  unfold untouched, skeleton. intros E. injection E as Ht Hc Ha Hp.
  rewrite Ht, Hp. f_equal; [f_equal|].
  - assert (E : delete "aria-expanded" (delete "tabindex" (Dom.attributes nd)) !! "id"
                = delete "aria-expanded" (delete "tabindex" (Dom.attributes nd')) !! "id")
      by (by rewrite Ha).
    by rewrite !lookup_delete_ne in E.
  - unfold Dom.has_class. apply bool_decide_ext.
    assert (E : "dropdown" ∈ Dom.classList nd ∖ {["active"]}
                ↔ "dropdown" ∈ Dom.classList nd' ∖ {["active"]}) by (by rewrite Hc).
    rewrite !elem_of_difference, elem_of_singleton in E.
    assert ("dropdown" ≠ "active") by discriminate. tauto.
Qed.

Lemma shape_untouched s s' :
  untouched <$> doc s = untouched <$> doc s' → shape s = shape s'.
Proof.
  unfold shape. generalize (doc s) (doc s'). intros l.
  induction l as [|nd l IH]; intros [|nd' l'] E; try discriminate; [done|].
  rewrite !fmap_cons in *.
  pose proof (f_equal (λ l, match l with x :: _ => x | [] => untouched nd end) E) as E1.
  pose proof (f_equal (λ l, match l with _ :: r => r | [] => [] end) E) as E2.
  cbv beta iota in E1, E2.
  f_equal; [by apply skeleton_untouched | by apply IH].
Qed.

Lemma attr_untouched k s d n :
  k ≠ "aria-expanded" → k ≠ "tabindex" →
  untouched <$> doc s = untouched <$> d → attr k s n = Dom.getAttribute k d n.
Proof.
  intros H1 H2 E. unfold attr, Dom.getAttribute.
  assert (En : (untouched <$> doc s) !! n = (untouched <$> d) !! n) by (by rewrite E).
  rewrite !list_lookup_fmap in En.
  destruct (doc s !! n) as [nd|], (d !! n) as [nd'|]; try discriminate; [|done].
  cbn in *. injection En as _ _ Ha _.
  assert (Ek : delete "aria-expanded" (delete "tabindex" (Dom.attributes nd)) !! k
               = delete "aria-expanded" (delete "tabindex" (Dom.attributes nd')) !! k)
    by (by rewrite Ha).
  by rewrite !lookup_delete_ne in Ek.
Qed.

Lemma closest_matches (p : Dom.Node → bool) d target n :
  Dom.closest p d target = Some n → ∃ nd, d !! n = Some nd ∧ p nd = true.
Proof.
  unfold Dom.closest. intros H. apply head_Some_elem_of, elem_of_filterb in H as [_ H].
  destruct (d !! n) as [nd|]; [by exists nd | discriminate].
Qed.

Lemma closest_trigger s target button :
  Dom.closest (Dom.has_attr "data-dropdown") (doc s) target = Some button →
  is_Some (attr "data-dropdown" s button).
Proof.
  intros H. apply closest_matches in H as (nd & Hn & Hp).
  unfold attr, Dom.getAttribute. rewrite Hn. cbn.
  by apply bool_decide_eq_true in Hp.
Qed.

End Markup.

Section Tidiness.

Variable d : list Dom.Node.

Implicit Types (s : State) (n : nat) (k : string).

Lemma Kept_Tidy : Kept (Tidy d).
Proof.
  pose proof (Kept_untouched (untouched <$> d)) as KU.
  split.
  - intros n s (HU & HJ & HL). split_and!; [by apply (kept_add _ KU) | exact HJ | exact HL].
  - intros n s (HU & HJ & HL). split_and!; [by apply (kept_remove _ KU) | exact HJ | exact HL].
  - intros v n s (HU & HJ & HL).
    split_and!; [by apply (kept_expanded _ KU) | exact HJ | exact HL].
  - intros v n s (HU & HJ & HL).
    split_and!; [by apply (kept_tabindex _ KU) | exact HJ | exact HL].
  - intros h s (HU & HJ & HL). split_and!; [exact HU | | exact HL].
    intros tm i btn Hin. apply HJ. cbn in Hin. by apply elem_of_filterb in Hin as [Hin _].
  - intros cb delay s Hs (HU & HJ & HL). split_and!; [exact HU | | exact HL].
    intros tm i btn Hin Hcb. cbn in Hin. apply elem_of_app in Hin as [Hin|Hin].
    + by apply (HJ tm i btn).
    + apply list_elem_of_singleton in Hin. subst tm. cbn in Hcb. subst cb.
      destruct Hs as [target Hs]. apply closest_trigger in Hs.
      by rewrite (attr_untouched _ s d) in Hs.
  - intros o s H. exact H.
  - intros o s H. exact H.
  - intros o s H. exact H.
  - intros o s H. exact H.
  - intros b s H. exact H.
  - intros t s H. exact H.
  - intros s H. exact H.
  - intros t s _ H. exact H.
  - intros s _ H. exact H.
  - intros s H. exact H.
Qed.

Lemma tidy_dropdowns s : Tidy d s → dropdowns s = panels d.
Proof.
  intros (HU & _). apply (dropdowns_shape s (initial d 0)).
  by apply shape_untouched.
Qed.

Lemma tidy_attr k s n :
  k ≠ "aria-expanded" → k ≠ "tabindex" → Tidy d s → attr k s n = Dom.getAttribute k d n.
Proof. intros H1 H2 (HU & _). by apply attr_untouched. Qed.

Lemma tidy_resolve i s : Tidy d s → Dom.getElementById i (doc s) = Dom.getElementById i d.
Proof.
  intros (HU & _). apply (getElementById_shape s (initial d 0)). by apply shape_untouched.
Qed.

End Tidiness.

Section OnePanelPrimitives.

Implicit Types (s : State) (n m : nat) (k v : string).

Lemma AtMostOneOpen_same s s' :
  doc s' = doc s → currentOpenDropdown s' = currentOpenDropdown s →
  AtMostOneOpen s → AtMostOneOpen s'.
Proof.
  intros Hd Hc H n Hn Ha. rewrite Hc. apply H.
  - unfold dropdowns in *. by rewrite <- Hd.
  - by rewrite <- (active_same_doc s' s n Hd).
Qed.

Lemma AtMostOneOpen_remove n s :
  AtMostOneOpen s → AtMostOneOpen (classList_remove "active" n s).
Proof.
  intros H m Hm Ha. apply (H m).
  - rewrite <- (dropdowns_shape (classList_remove "active" n s) s); [exact Hm|].
    by apply shape_classList_remove.
  - by apply active_classList_remove_anti in Ha.
Qed.

Lemma AtMostOneOpen_attr k v n s :
  k ≠ "id" → AtMostOneOpen s → AtMostOneOpen (setAttribute k v n s).
Proof.
  intros Hk H m Hm Ha. apply (H m).
  - rewrite <- (dropdowns_shape (setAttribute k v n s) s); [exact Hm|].
    by apply shape_setAttribute.
  - by rewrite active_setAttribute in Ha.
Qed.

Lemma AtMostOneOpen_add n s :
  n ∉ dropdowns s → AtMostOneOpen s → AtMostOneOpen (classList_add "active" n s).
Proof.
  intros Hn H m Hm Ha.
  rewrite (dropdowns_shape (classList_add "active" n s) s) in Hm
    by (by apply shape_classList_add).
  apply active_classList_add_inv in Ha as [<-|Ha]; [done|]. by apply (H m).
Qed.

Lemma AtMostOneOpen_Closed s : Closed s → AtMostOneOpen s.
Proof. intros [_ H] n Hn Ha. rewrite (H n Hn) in Ha. discriminate Ha. Qed.

End OnePanelPrimitives.

Section OnePanelHandlers.

Variable d : list Dom.Node.
Variables a b : nat.
Hypothesis Harea : dropdownArea (load d) = Some a.
Hypothesis Hbackdrop : backdrop (load d) = Some b.
Hypothesis Hapart : PanelsApart d.

Implicit Types (s : State) (n m : nat) (k v : string) (h : M).

Lemma apart_area : a ∉ panels d.
Proof. intros Hin. destruct (Hapart a Hin) as (H & _). by apply H. Qed.

Lemma apart_backdrop : b ∉ panels d.
Proof. intros Hin. destruct (Hapart b Hin) as (_ & H & _). by apply H. Qed.

Lemma apart_nav nav : mobileNav (load d) = Some nav → nav ∉ panels d.
Proof. intros E Hin. destruct (Hapart nav Hin) as (_ & _ & H & _). by apply H. Qed.

Lemma apart_trigger button :
  is_Some (Dom.getAttribute "data-dropdown" d button) → button ∉ panels d.
Proof.
  intros [v E] Hin. destruct (Hapart button Hin) as (_ & _ & _ & H & _). congruence.
Qed.

Lemma apart_content s button content :
  Tidy d s →
  Dom.getElementById (JS.to_string (attr "aria-controls" s button)) (doc s) = Some content →
  content ∉ panels d.
Proof.
  intros HT E Hin. rewrite (tidy_attr d) in E by done. rewrite (tidy_resolve d) in E by done.
  destruct (Hapart content Hin) as (_ & _ & _ & _ & H). by apply (H button).
Qed.

Lemma one_frame s s' :
  doc s' = doc s → currentOpenDropdown s' = currentOpenDropdown s →
  Tidy d s' → OnePanel d s → OnePanel d s'.
Proof. intros Hd Hc HT [HA _]. split; [by apply (AtMostOneOpen_same s) | exact HT]. Qed.

Lemma one_add n s : n ∉ panels d → OnePanel d s → OnePanel d (classList_add "active" n s).
Proof.
  intros Hn [HA HT]. split; [|by apply (kept_add _ (Kept_Tidy d))].
  apply AtMostOneOpen_add; [|exact HA]. by rewrite (tidy_dropdowns d).
Qed.

Lemma one_remove n s : OnePanel d s → OnePanel d (classList_remove "active" n s).
Proof.
  intros [HA HT]. split; [by apply AtMostOneOpen_remove | by apply (kept_remove _ (Kept_Tidy d))].
Qed.

Lemma one_expanded v n s : OnePanel d s → OnePanel d (setAttribute "aria-expanded" v n s).
Proof.
  intros [HA HT].
  split; [by apply AtMostOneOpen_attr | by apply (kept_expanded _ (Kept_Tidy d))].
Qed.

Lemma one_preventDefault s : OnePanel d s → OnePanel d (preventDefault s).
Proof. intros H. apply (one_frame s); try done. apply H. Qed.

Lemma one_focus n s : OnePanel d s → OnePanel d (focus n s).
Proof. intros H. apply (one_frame s); try done. apply H. Qed.

Lemma one_focusLast s : OnePanel d s → OnePanel d (focusLast s).
Proof. intros H. unfold focusLast. destruct (lastFocusedElement s); [by apply one_focus | done]. Qed.

Lemma one_clearTimeout o s : OnePanel d s → OnePanel d (clearTimeout o s).
Proof.
  intros H. apply (one_frame s); [by destruct o | by destruct o | | exact H].
  apply kept_clearTimeout; [apply Kept_Tidy | apply H].
Qed.

Lemma one_setTimeout cb delay s :
  Schedulable s cb → OnePanel d s → OnePanel d (snd (setTimeout cb delay s)).
Proof.
  intros Hs H. apply (one_frame s); [done | done | | exact H].
  apply kept_setTimeout; [apply Kept_Tidy | exact Hs | apply H].
Qed.

Lemma one_closeTimer cb delay s :
  Schedulable s cb → OnePanel d s →
  OnePanel d (let '(h, s') := setTimeout cb delay s in set_dropdownTimeout (Some h) s').
Proof.
  intros Hs H. apply (one_frame s); [done | done | | exact H].
  apply kept_closeTimer; [apply Kept_Tidy | exact Hs | apply H].
Qed.

Lemma one_debounce cb delay s :
  Schedulable s cb → OnePanel d s → OnePanel d (debounce cb delay s).
Proof.
  intros Hs H. destruct (vars_debounce cb delay s) as (Hd & _ & Hc & _).
  apply (one_frame s); [exact Hd | exact Hc | | exact H].
  apply kept_debounce; [apply Kept_Tidy | exact Hs | apply H].
Qed.

Lemma one_hideDropdowns : preserves (OnePanel d) (hideDropdowns (load d)).
Proof.
  intros s [HA HT]. split; [|by apply (kept_hideDropdowns _ _ (Kept_Tidy d))].
  destruct (isMobileMode s) eqn:Hm.
  - by rewrite hideDropdowns_mobile.
  - rewrite (hideDropdowns_desktop (load d) a b) by done. by apply AtMostOneOpen_closing.
Qed.

Lemma one_showDropdown dropdownId button :
  (∀ btn, button = Some btn → is_Some (Dom.getAttribute "data-dropdown" d btn)) →
  preserves (OnePanel d) (showDropdown (load d) dropdownId button).
Proof.
  intros Hbtn s [HA HT]. split; [|by apply (kept_showDropdown _ _ (Kept_Tidy d))].
  destruct (AtMostOneOpen_showDropdown (load d) a b dropdownId button s)
    as (s' & E & HA' & _); try done.
  - rewrite (tidy_dropdowns d) by done. apply apart_area.
  - rewrite (tidy_dropdowns d) by done. apply apart_backdrop.
  - intros btn E. rewrite (tidy_dropdowns d) by done. by apply apart_trigger, Hbtn.
  - by rewrite E.
Qed.

Lemma one_collapse s : OnePanel d s → OnePanel d (collapse s).
Proof.
  intros [HA HT]. split; [|by apply kept_collapse; [apply Kept_Tidy|]].
  apply AtMostOneOpen_Closed, Closed_collapse.
Qed.

Lemma one_openMobileMenu : preserves (OnePanel d) (openMobileMenu (load d)).
Proof.
  intros s H. unfold openMobileMenu. destruct (isMobileMode s) eqn:Hm; [|exact H].
  cbn [negb]. unfold andThen, on, lift. rewrite Hbackdrop.
  destruct (mobileNav (load d)) as [nav|] eqn:En; [|exact H].
  pose proof (apart_nav nav En) as Hnav.
  assert (H2 : OnePanel d (classList_add "active" b (classList_add "active" nav s))).
  { apply one_add; [apply apart_backdrop|]. by apply one_add. }
  destruct (hamburgerButton (load d)) as [hb|]; [|exact H2].
  cbn [state_of]. apply one_setTimeout; [exact I|].
  apply (one_frame (setAttribute "aria-expanded" "true" hb
                      (classList_add "active" b (classList_add "active" nav s))));
    [done | done | | by apply one_expanded].
  apply (kept_menu_opened _ (Kept_Tidy d));
    [exact Hm | by apply one_expanded].
Qed.

Lemma one_closeMobileMenu : preserves (OnePanel d) (closeMobileMenu (load d)).
Proof.
  intros s H. unfold closeMobileMenu, andThen, on, lift. rewrite Hbackdrop.
  destruct (mobileNav (load d)) as [nav|]; [|exact H].
  assert (H2 : OnePanel d (classList_remove "active" b (classList_remove "active" nav s)))
    by (by apply one_remove, one_remove).
  destruct (hamburgerButton (load d)) as [hb|]; [|exact H2].
  cbn [state_of].
  apply (one_frame (setAttribute "aria-expanded" "false" hb
                      (classList_remove "active" b (classList_remove "active" nav s))));
    [done | done | | by apply one_expanded].
  apply (kept_activeElement _ (Kept_Tidy d)), (kept_menu_closed _ (Kept_Tidy d)).
  by apply one_expanded.
Qed.

Lemma one_toggleMobileAccordion button :
  preserves (OnePanel d) (toggleMobileAccordion button).
Proof.
  intros s H. unfold toggleMobileAccordion.
  destruct (Dom.getElementById _ _) as [content|] eqn:E; [|exact H].
  pose proof (apart_content s button content (proj2 H) E) as Hc.
  destruct (isExpanded button s); cbn [state_of].
  - by apply one_remove, one_expanded.
  - apply one_add; [exact Hc|]. by apply one_expanded.
Qed.

Lemma one_accordionKeys key focused : preserves (OnePanel d) (accordionKeys key focused).
Proof.
  intros s H. unfold accordionKeys. destruct (_ && _); [|exact H].
  destruct focused; [|exact H].
  revert s H. apply preserves_andThen; [|apply one_toggleMobileAccordion].
  apply preserves_lift. intros s. apply one_preventDefault.
Qed.

Lemma one_tabKeys key shiftKey focused :
  preserves (OnePanel d) (tabKeys (load d) key shiftKey focused).
Proof.
  intros s H. unfold tabKeys. destruct (currentOpenDropdown s); [|exact H].
  destruct (String.eqb key "Tab"); [|exact H].
  destruct (_ && _).
  { cbn [state_of]. by apply one_focusLast, one_preventDefault. }
  destruct (_ && _); [|exact H]. by apply one_hideDropdowns.
Qed.

Lemma one_otherKeys key shiftKey focused :
  preserves (OnePanel d) (otherKeys (load d) key shiftKey focused).
Proof.
  intros s H. unfold otherKeys. destruct (negb (isMobileMode s)).
  - destruct (_ && _) eqn:Ek.
    + destruct focused as [btn|]; [|exact H].
      apply andb_prop in Ek as [_ Hattr].
      rewrite focused_matches_attr in Hattr. apply bool_decide_eq_true_1 in Hattr.
      rewrite (tidy_attr d) in Hattr by (done || apply H).
      pose proof (one_preventDefault s H) as H1.
      destruct (isExpanded btn (preventDefault s)); [by apply one_hideDropdowns|].
      revert H1. generalize (preventDefault s). apply preserves_andThen.
      * apply one_showDropdown. by intros ? [= <-].
      * apply preserves_lift. intros s1. by apply one_setTimeout.
    + clear Ek. revert s H. apply preserves_andThen; [apply one_tabKeys | apply one_accordionKeys].
  - by apply one_accordionKeys.
Qed.

Lemma one_handleKeyboardNavigation key shiftKey :
  preserves (OnePanel d) (handleKeyboardNavigation (load d) key shiftKey).
Proof.
  intros s H. rewrite handleKeyboardNavigation_unfold.
  destruct (String.eqb key "Escape"); [|by apply one_otherKeys].
  destruct (mobileMenuOpen s).
  { by apply one_closeMobileMenu, one_preventDefault. }
  destruct (bool_decide _); [|by apply one_otherKeys].
  pose proof (one_preventDefault s H) as H1.
  revert H1. generalize (preventDefault s).
  apply preserves_andThen; [by apply one_hideDropdowns|].
  apply preserves_lift. intros s1. by apply one_focusLast.
Qed.

Lemma one_handleMouseEnter target : preserves (OnePanel d) (handleMouseEnter target).
Proof.
  intros s H. unfold handleMouseEnter. destruct (isMobileMode s); [exact H|].
  destruct (Dom.closest _ _ _) as [button|] eqn:E; [|exact H].
  apply one_debounce; [by exists target | exact H].
Qed.

Lemma one_handleMouseLeave : preserves (OnePanel d) handleMouseLeave.
Proof.
  intros s H. unfold handleMouseLeave. destruct (isMobileMode s); [exact H|].
  by apply one_debounce.
Qed.

Lemma one_handleResize : preserves (OnePanel d) (handleResize (load d)).
Proof.
  intros s H. unfold handleResize. destruct (isMobileMode s).
  - destruct (bool_decide _); [by apply one_hideDropdowns | exact H].
  - destruct (mobileMenuOpen s); [by apply one_closeMobileMenu | exact H].
Qed.

Lemma one_buttonClick button :
  is_Some (Dom.getAttribute "data-dropdown" d button) →
  preserves (OnePanel d) (buttonClick (load d) button).
Proof.
  intros Hb s H. unfold buttonClick. destruct (isMobileMode s); [exact H|].
  destruct (isExpanded button s); [by apply one_hideDropdowns|].
  apply one_showDropdown; [|exact H]. by intros ? [= <-].
Qed.

Lemma one_backdropClick : preserves (OnePanel d) (backdropClick (load d)).
Proof.
  intros s H. unfold backdropClick.
  destruct (mobileMenuOpen s); [by apply one_closeMobileMenu|].
  destruct (bool_decide _); [by apply one_hideDropdowns | exact H].
Qed.

Lemma one_runCallback cb :
  (∀ dropdownId button, cb = CbShow dropdownId button →
     is_Some (Dom.getAttribute "data-dropdown" d button)) →
  preserves (OnePanel d) (runCallback (load d) cb).
Proof.
  intros Hcb. destruct cb; cbn [runCallback].
  - apply one_showDropdown. intros ? [= <-]. by eapply Hcb.
  - apply preserves_lift. intros s. by apply one_closeTimer.
  - apply one_handleResize.
  - by apply one_hideDropdowns.
  - apply preserves_lift. intros s. by apply one_collapse.
  - apply preserves_on. intros n s. apply one_focus.
  - apply preserves_lift. intros s H. destruct (_ ≫= _); [|exact H]. by apply one_focus.
Qed.

Lemma one_react ev l s0 h :
  (∀ button, l = OnButtonClick button → is_Some (Dom.getAttribute "data-dropdown" d button)) →
  react (load d) ev l s0 = Some h → preserves (OnePanel d) h.
Proof.
  intros Hl. destruct ev, l; cbn [react]; try discriminate; intros E.
  - injection E as <-. by apply one_buttonClick, Hl.
  - injection E as <-. apply one_openMobileMenu.
  - injection E as <-. apply one_closeMobileMenu.
  - injection E as <-. apply one_toggleMobileAccordion.
  - injection E as <-. apply one_backdropClick.
  - injection E as <-. intros s H. by rewrite documentClick_inert.
  - injection E as <-. apply one_handleKeyboardNavigation.
  - destruct (menuWrapper (load d)); [|discriminate].
    destruct (Dom.contains _ _ _); [|discriminate].
    injection E as <-. apply one_handleMouseEnter.
  - destruct (bool_decide _); [|discriminate]. injection E as <-.
    apply preserves_lift. intros s. by apply one_clearTimeout.
  - destruct (bool_decide _); [|discriminate]. injection E as <-. apply one_handleMouseLeave.
  - injection E as <-. apply preserves_lift. intros s. by apply one_debounce.
Qed.

Lemma one_runListeners ev (ls : list Listener) s :
  (∀ button, OnButtonClick button ∈ ls →
     is_Some (Dom.getAttribute "data-dropdown" d button)) →
  OnePanel d s → OnePanel d (runListeners (load d) ev ls s).
Proof.
  unfold runListeners. revert s. induction ls as [|l ls IH]; intros s Hls H; [exact H|].
  cbn [foldl]. apply IH.
  { intros button Hin. apply Hls. by right. }
  destruct (react (load d) ev l s) as [h|] eqn:E; [|exact H].
  apply (one_react ev l s h); [|exact E|exact H].
  intros button ->. apply Hls. by left.
Qed.

Lemma clickListeners_listeners (pg : Page) (target : nat) (l : Listener) s :
  l ∈ clickListeners pg target s → l ∈ listeners s.
Proof.
  unfold clickListeners. rewrite elem_of_app, list_elem_of_bind.
  intros [(n & Hl & _)|Hl].
  - apply list_elem_of_In, List.filter_In in Hl as [Hl _]. by apply list_elem_of_In.
  - apply list_elem_of_In, List.filter_In in Hl as [Hl _]. by apply list_elem_of_In.
Qed.

Lemma one_dispatch ev s : OnePanel d s → OnePanel d (dispatch (load d) ev s).
Proof.
  intros H. pose proof (one_preventDefault s H) as H1.
  assert (H0 : OnePanel d (set_defaultPrevented false s)).
  { apply (one_frame s); try done. apply (kept_defaultPrevented _ (Kept_Tidy d)), H. }
  assert (HL : ∀ button, OnButtonClick button ∈ listeners s →
                 is_Some (Dom.getAttribute "data-dropdown" d button)) by apply H.
  unfold dispatch. destruct ev; apply one_runListeners; try exact H0; try exact HL.
  intros button Hin. apply HL. by apply (clickListeners_listeners (load d) target).
Qed.

Lemma one_step ev s s' :
  step (load d) ev s = Some s' → OnePanel d s → OnePanel d s'.
Proof.
  intros Hs H. destruct ev; unfold step in Hs.
  - apply (inj Some) in Hs. subst s'. by apply one_dispatch.
  - apply (inj Some) in Hs. subst s'. by apply one_dispatch.
  - apply (inj Some) in Hs. subst s'. by apply one_dispatch.
  - apply (inj Some) in Hs. subst s'. by apply one_dispatch.
  - apply (inj Some) in Hs. subst s'. apply one_dispatch.
    apply (one_frame s); [done | done | | exact H].
    destruct H as [_ (HU & HJ & HL)]. by split_and!.
  - apply (inj Some) in Hs. subst s'. apply (one_frame s); [done | done | | exact H].
    apply (kept_activeElement _ (Kept_Tidy d)), H.
  - destruct (List.find _ _) as [t|] eqn:Ef; [|discriminate Hs].
    destruct (_ <=? _)%N; [|discriminate Hs]. apply (inj Some) in Hs. subst s'.
    apply List.find_some in Ef as [Hin _]. apply list_elem_of_In in Hin.
    apply one_runCallback; [|by apply one_clearTimeout].
    intros dropdownId button E. destruct H as [_ (_ & HJ & _)]. by apply (HJ t dropdownId).
  - apply (inj Some) in Hs. subst s'. apply (one_frame s); [done | done | | exact H].
    apply (kept_clock _ (Kept_Tidy d)), H.
Qed.

Lemma one_run (evs : list Event) s s' :
  run (load d) evs s = Some s' → OnePanel d s → OnePanel d s'.
Proof.
  revert s. induction evs as [|ev evs IH]; intros s Hr H.
  - injection Hr as <-. exact H.
  - cbn [run] in Hr. destruct (step (load d) ev s) as [s1|] eqn:E; [|discriminate].
    apply (IH s1 Hr). by apply (one_step ev s s1 E).
Qed.

End OnePanelHandlers.

(** ** One panel at most, whatever happens *)

Section OnePanelStartup.

Implicit Types (s : State) (n m : nat).

Lemma button_listener_added (ls : list Listener) (button : nat) s :
  OnButtonClick button ∈ listeners (addEventListeners ls s) ↔
  OnButtonClick button ∈ listeners s ∨ OnButtonClick button ∈ ls.
Proof. unfold addEventListeners. cbn [listeners set_listeners]. apply elem_of_app. Qed.

Lemma button_listener_registered (pg : Page) (value : string) (button : nat) s :
  OnButtonClick button ∈ listeners (registered pg value s) →
  OnButtonClick button ∈ listeners s ∨ button ∈ menuButtons pg.
Proof.
  assert (Hd : listeners (readDuration value s) = listeners s).
  { unfold readDuration.
    by destruct (JS.endsWith (JS.trim value) "s"), (JS.endsWith (JS.trim value) "ms"). }
  unfold registered. cbv zeta. rewrite <- Hd. generalize (readDuration value s). clear Hd.
  intros s1 H.
  repeat (case_bool_decide || apply button_listener_added in H as [H|H]);
    rewrite ?list_elem_of_fmap, ?elem_of_cons, ?elem_of_nil in H;
    try (by left); try (by intuition discriminate).
  all: try (destruct H as (x & [= <-] & Hx); by right).
  all: try (destruct H as (x & [=] & Hx)).
Qed.

Lemma one_boot (d : list Dom.Node) (width : Z) (value : string) :
  (∀ n, n ∈ panels d → active (initial d width) n = false) →
  OnePanel d (boot d width value).
Proof.
  intros Hclosed.
  assert (HU : untouched <$> doc (boot d width value) = untouched <$> d).
  { unfold boot. by apply (kept_init (load d) _ (Kept_untouched (untouched <$> d))). }
  assert (HT : Tidy d (boot d width value)).
  { split; [exact HU|]. clear HU. unfold boot. rewrite init_unfold. cbn [state_of].
    destruct (vars_registered (load d) value (initial d width)) as (_ & Rt & _).
    pose proof (button_listener_registered (load d) value) as HL.
    specialize (HL) with (s := initial d width).
    generalize dependent (registered (load d) value (initial d width)). intros r Rt HL.
    destruct (disable_all_spec r) as (_ & _ & _ & _ & Hrest). cbv zeta in Hrest.
    generalize dependent (forEach (dropdowns r) disableDropdownLinks r). intros f Hrest.
    assert (Et : timers f = []).
    { transitivity (timers (rest f)); [reflexivity|]. by rewrite Hrest, timers_rest. }
    assert (El : listeners f = listeners r).
    { transitivity (listeners (rest f)); [reflexivity|]. by rewrite Hrest. }
    split.
    - intros tm dropdownId button Hin. cbn [timers addEventListeners set_listeners] in Hin.
      rewrite Et in Hin. by apply elem_of_nil in Hin.
    - intros button Hin.
      apply button_listener_added in Hin as [Hin|Hin];
        [|apply list_elem_of_singleton in Hin; discriminate Hin].
      apply button_listener_added in Hin as [Hin|Hin];
        [|apply list_elem_of_singleton in Hin; discriminate Hin].
      rewrite El in Hin. apply HL in Hin as [Hin|Hin]; [by apply elem_of_nil in Hin|].
      cbn [load menuButtons] in Hin.
      apply elem_of_querySelectorAll in Hin as (nd & End & Hattr).
      unfold Dom.getAttribute. rewrite End. simpl.
      unfold Dom.has_attr in Hattr. by apply bool_decide_eq_true_1 in Hattr. }
  split; [|exact HT].
  intros n Hn Ha. rewrite (tidy_dropdowns d) in Hn by done.
  assert (E : active (boot d width value) n = active (initial d width) n).
  { unfold boot. rewrite init_unfold. cbn [state_of].
    destruct (vars_registered (load d) value (initial d width)) as (Rd & _).
    destruct (disable_all_spec (registered (load d) value (initial d width)))
      as (_ & _ & H3 & _).
    cbv zeta in H3. specialize (H3 n).
    generalize dependent (registered (load d) value (initial d width)). intros r Rd.
    generalize (forEach (dropdowns r) disableDropdownLinks r). intros f H3.
    transitivity (active f n); [by apply active_same_doc|].
    rewrite H3. by apply active_same_doc. }
  rewrite E, Hclosed in Ha by done. discriminate Ha.
Qed.

End OnePanelStartup.

(** X20: at most one dropdown panel is shown, whatever happens.  Take a
    page with a dropdown area and a backdrop whose panels (the elements
    of class dropdown) are not themselves the area, the backdrop, the
    mobile panel, a trigger or the content of an accordion section, and
    none of which has the class [active] in the markup.  Then in every
    state the page reaches from startup, through any sequence of clicks,
    keys, pointer moves, resizes, focus moves, timers firing and time
    passing, an active panel is the one [currentOpenDropdown] records;
    so two active panels are the same panel. *)
Theorem one_panel_at_most_in_every_reachable_state (d : list Dom.Node) (a b : nat)
    (width : Z) (value : string) (evs : list Event) (s : State) :
  dropdownArea (load d) = Some a →
  backdrop (load d) = Some b →
  PanelsApart d →
  (∀ n, n ∈ panels d → active (initial d width) n = false) →
  run (load d) evs (boot d width value) = Some s →
  (∀ n, n ∈ panels d → active s n = true → currentOpenDropdown s = Some n)
  ∧ (∀ n m, n ∈ panels d → m ∈ panels d → active s n = true → active s m = true → n = m).
Proof.
  intros Ha Hb Hapart Hclosed Hr.
  destruct (one_run d a b Ha Hb Hapart evs (boot d width value) s Hr) as [HA HT];
    [by apply one_boot|].
  assert (H1 : ∀ n, n ∈ panels d → active s n = true → currentOpenDropdown s = Some n).
  { intros n Hn. apply HA. by rewrite (tidy_dropdowns d). }
  split; [exact H1|].
  intros n m Hn Hm An Am. apply (H1 n Hn) in An. apply (H1 m Hm) in Am. congruence.
Qed.

Lemma sample_panels : panels Sample.page = [4%nat; 7%nat].
Proof. vm_compute. reflexivity. Qed.

Lemma sample_panels_apart : PanelsApart Sample.page.
Proof.
  intros n Hn. rewrite sample_panels in Hn.
  assert (Hx : ∀ x, Dom.getElementById
                      (JS.to_string (Dom.getAttribute "aria-controls" Sample.page x))
                      Sample.page = None
                    ∨ Dom.getElementById
                        (JS.to_string (Dom.getAttribute "aria-controls" Sample.page x))
                        Sample.page = Some 14%nat).
  { intros x. do 15 (destruct x as [|x]; [vm_compute; (by left) || (by right)|]).
    left. vm_compute. reflexivity. }
  assert (Hn' : n = 4%nat ∨ n = 7%nat).
  { apply list_elem_of_In in Hn. simpl in Hn.
    destruct Hn as [<- | [<- | []]]; [by left | by right]. }
  split_and!.
  - destruct Hn' as [-> | ->]; intros E; vm_compute in E; discriminate E.
  - destruct Hn' as [-> | ->]; intros E; vm_compute in E; discriminate E.
  - destruct Hn' as [-> | ->]; intros E; vm_compute in E; discriminate E.
  - destruct Hn' as [-> | ->]; vm_compute; reflexivity.
  - intros x E. destruct (Hx x) as [Hx' | Hx']; rewrite Hx' in E; [discriminate E|].
    injection E as <-. destruct Hn' as [Hn' | Hn']; discriminate Hn'.
Qed.

Lemma one_panel_at_most_in_every_reachable_state_witness :
  let evs := [Click 1; Click 2] in
  run Sample.pg evs Sample.desktop = Some (Sample.after evs Sample.desktop)
  ∧ active (Sample.after evs Sample.desktop) 7 = true
  ∧ active (Sample.after evs Sample.desktop) 4 = false.
Proof.
  assert (Hr : run Sample.pg [Click 1; Click 2] Sample.desktop
               = Some (Sample.after [Click 1; Click 2] Sample.desktop))
    by (vm_compute; reflexivity).
  assert (H7 : active (Sample.after [Click 1; Click 2] Sample.desktop) 7 = true)
    by (vm_compute; reflexivity).
  split; [exact Hr|]. split; [exact H7|].
  destruct (one_panel_at_most_in_every_reachable_state Sample.page 3 9 1200 "0.6s"
              [Click 1; Click 2] (Sample.after [Click 1; Click 2] Sample.desktop))
    as [_ H].
  - reflexivity.
  - reflexivity.
  - exact sample_panels_apart.
  - intros n Hn. rewrite sample_panels in Hn.
    apply list_elem_of_In in Hn. simpl in Hn.
    destruct Hn as [<- | [<- | []]]; vm_compute; reflexivity.
  - exact Hr.
  - destruct (active (Sample.after [Click 1; Click 2] Sample.desktop) 4) eqn:H4;
      [|reflexivity].
    assert (E : 4%nat = 7%nat); [|discriminate E].
    apply H; [rewrite sample_panels .. | exact H4 | exact H7].
    + apply list_elem_of_In. simpl. tauto.
    + apply list_elem_of_In. simpl. tauto.
Defined.
